(** * webserver.py: connection framing, request parsing, response
      serialisation and statistics

    A shallow embedding of [src/webserver.py] and the properties of its
    protocol engine.

    Conventions of the embedding.
    - Python [bytes] and [str] are both Rocq [string]s (sequences of 8-bit
      characters).  A [str] is held in its UTF-8 encoded form, so
      [bytes.decode()] is a validity check that returns its argument and
      [str.encode()] is the identity.  Searching and splitting on ASCII
      separators act on the encoded form exactly as they act on the code
      points, because an ASCII byte never occurs inside a multi-byte
      sequence.
    - Python floats are IEEE binary64 numbers: Rocq's primitive [float].
    - The socket is a script of what arrives (runs of bytes, of which a
      [recv] takes no more than the size it asks for; timeouts; errors)
      and a log of the arguments of the [sendall] calls.
    - Statements that can raise run in a state-and-exception monad whose
      state survives a raise, so that [finally] blocks see it.
    - What a log line prints is left out, but not the formatting of the
      line, which can raise: the lines that format the client address
      alone give the pair (host, port) to one conversion.
    - The socket timeout setting ([SOCKET_TIMEOUT], [None] in the source)
      is left out; a timeout is one of the possible results of a
      [recv]. *)

From Stdlib Require Import String Ascii List ZArith Lia Bool Arith PeanoNat.
From Stdlib Require Import Floats Uint63.
From Stdlib Require DecimalString DecimalNat HexadecimalString.
Import ListNotations.
Open Scope string_scope.
Open Scope nat_scope.

(** ** Text and bytes *)

Definition bytes := string.
Definition str := string.

(** The value of a byte, 0 to 255. *)
Definition byte_val (c : ascii) : nat := nat_of_ascii c.

Definition CR : ascii := "013"%char.
Definition LF : ascii := "010"%char.
Definition CRLF : string := String CR (String LF "").
(** [b"\r\n\r\n"], the blank line that ends a request head. *)
Definition BLANK_LINE : string := CRLF ++ CRLF.

Module Py.

(** [s.startswith(p)] *)
Fixpoint startswith (s p : string) : bool :=
  match p, s with
  | EmptyString, _ => true
  | String _ _, EmptyString => false
  | String a p', String b s' => Ascii.eqb a b && startswith s' p'
  end.

(** [s[n:]] for [0 <= n] *)
Fixpoint drop (n : nat) (s : string) : string :=
  match n, s with
  | O, _ => s
  | S _, EmptyString => EmptyString
  | S k, String _ s' => drop k s'
  end.

(** [s[:n]] for [0 <= n] *)
Fixpoint take (n : nat) (s : string) : string :=
  match n, s with
  | O, _ => EmptyString
  | S _, EmptyString => EmptyString
  | S k, String c s' => String c (take k s')
  end.

(** The two sides of the first occurrence of [sep] in [s], if there is
    one: [s.split(sep, 1)] has two elements exactly in that case. *)
Fixpoint split_once (sep s : string) : option (string * string) :=
  if startswith s sep then Some (EmptyString, drop (String.length sep) s)
  else match s with
       | EmptyString => None
       | String c s' =>
           match split_once sep s' with
           | Some (a, b) => Some (String c a, b)
           | None => None
           end
       end.

(** [sub in s] *)
Definition contains (sub s : string) : bool :=
  match split_once sub s with Some _ => true | None => false end.

(** A string cut into units: a unit is either one occurrence of a
    delimiter (flagged [true]; [len_at] gives the length of the delimiter
    that starts at a position, or 0) or a single other character. *)
Fixpoint units_from (len_at : string -> nat) (skip : nat) (s : string)
  : list (bool * string) :=
  match s with
  | EmptyString => []
  | String c s' =>
      match skip with
      | S k => units_from len_at k s'
      | O =>
          match len_at s with
          | O => (false, String c EmptyString) :: units_from len_at 0 s'
          | S k => (true, take (S k) s) :: units_from len_at k s'
          end
      end
  end.

Definition units (len_at : string -> nat) (s : string) := units_from len_at 0 s.

(** The pieces between delimiters; a final empty piece is kept or dropped
    as [keep_last] says, an empty piece elsewhere as [keep_empty] says. *)
Fixpoint pieces (keep_empty keep_last : bool) (us : list (bool * string))
  (cur : string) : list string :=
  match us with
  | [] =>
      if keep_last then [cur]
      else match cur with EmptyString => [] | _ => [cur] end
  | (true, _) :: r =>
      match cur with
      | EmptyString =>
          if keep_empty then cur :: pieces keep_empty keep_last r EmptyString
          else pieces keep_empty keep_last r EmptyString
      | _ => cur :: pieces keep_empty keep_last r EmptyString
      end
  | (false, b) :: r => pieces keep_empty keep_last r (cur ++ b)
  end.

(** [s.split(sep)] for a non-empty separator *)
Definition split (sep s : string) : list string :=
  pieces true true
    (units (fun t => if startswith t sep then String.length sep else 0) s)
    EmptyString.

(** Length of the white-space character that starts [s], or 0.  White
    space is what [str.isspace] accepts: U+0009-000D, U+001C-0020, U+0085,
    U+00A0, U+1680, U+2000-200A, U+2028, U+2029, U+202F, U+205F, U+3000
    (the last nine entries in their UTF-8 form). *)
Definition ws_len (s : string) : nat :=
  match s with
  | EmptyString => 0
  | String c0 r =>
      let b0 := byte_val c0 in
      if ((9 <=? b0) && (b0 <=? 13)) || ((28 <=? b0) && (b0 <=? 32)) then 1
      else match r with
      | EmptyString => 0
      | String c1 r1 =>
          let b1 := byte_val c1 in
          if (b0 =? 194) && ((b1 =? 133) || (b1 =? 160)) then 2
          else match r1 with
          | EmptyString => 0
          | String c2 _ =>
              let b2 := byte_val c2 in
              if (b0 =? 225) && (b1 =? 154) && (b2 =? 128) then 3
              else if (b0 =? 226) && (b1 =? 128) &&
                      (((128 <=? b2) && (b2 <=? 138)) || (b2 =? 168) ||
                       (b2 =? 169) || (b2 =? 175)) then 3
              else if (b0 =? 226) && (b1 =? 129) && (b2 =? 159) then 3
              else if (b0 =? 227) && (b1 =? 128) && (b2 =? 128) then 3
              else 0
          end
      end
  end.

(** Length of the line boundary that starts [s], or 0: the boundaries of
    [str.splitlines] are \n, \r, \r\n, \v, \f, \x1c, \x1d, \x1e, U+0085,
    U+2028 and U+2029. *)
Definition linebreak_len (s : string) : nat :=
  match s with
  | EmptyString => 0
  | String c0 r =>
      let b0 := byte_val c0 in
      if b0 =? 13 then
        match r with
        | String c1 _ => if byte_val c1 =? 10 then 2 else 1
        | EmptyString => 1
        end
      else if ((10 <=? b0) && (b0 <=? 12)) || ((28 <=? b0) && (b0 <=? 30)) then 1
      else match r with
      | EmptyString => 0
      | String c1 r1 =>
          let b1 := byte_val c1 in
          if (b0 =? 194) && (b1 =? 133) then 2
          else match r1 with
          | EmptyString => 0
          | String c2 _ =>
              let b2 := byte_val c2 in
              if (b0 =? 226) && (b1 =? 128) && ((b2 =? 168) || (b2 =? 169))
              then 3 else 0
          end
      end
  end.

(** [s.splitlines()] *)
Definition splitlines (s : str) : list str :=
  pieces true false (units linebreak_len s) EmptyString.

(** [s.split()]: the maximal runs of characters that are not white space *)
Definition split_ws (s : str) : list str :=
  pieces false false (units ws_len s) EmptyString.

Fixpoint drop_ws (us : list (bool * string)) : list (bool * string) :=
  match us with
  | (true, _) :: r => drop_ws r
  | _ => us
  end.

Definition join (us : list (bool * string)) : string :=
  fold_right (fun u acc => snd u ++ acc) EmptyString us.

(** [s.lstrip()] and [s.rstrip()] *)
Definition lstrip (s : str) : str := join (drop_ws (units ws_len s)).
Definition rstrip (s : str) : str :=
  join (rev (drop_ws (rev (units ws_len s)))).

Definition lower_ascii (c : ascii) : ascii :=
  let b := byte_val c in
  if (65 <=? b) && (b <=? 90) then ascii_of_nat (b + 32) else c.

(** [s.lower()], for text that is compared with ASCII text: the letters
    A-Z and the Kelvin sign U+212A (whose lower case is "k") are mapped,
    every other character is left as it is.  The result equals a given
    ASCII text, or starts with one that ends with ": ", exactly when that
    of [str.lower] does: U+212A is the only character outside ASCII whose
    lower case is made of ASCII characters alone, and U+0130, whose lower
    case is "i" and the combining dot U+0307, cannot stand in such a
    prefix.  It is not [str.lower] on the other cased characters, so
    nothing is stated below for keys that are not ASCII. *)
Fixpoint lower (s : str) : str :=
  match s with
  | EmptyString => EmptyString
  | String c0 r =>
      match r with
      | String c1 (String c2 r2) =>
          if (byte_val c0 =? 226) && (byte_val c1 =? 132) && (byte_val c2 =? 170)
          then String "k"%char (lower r2)
          else String (lower_ascii c0) (lower r)
      | _ => String (lower_ascii c0) (lower r)
      end
  end.

(** [str(n)] for a natural number *)
Definition str_of_nat (n : nat) : str :=
  DecimalString.NilEmpty.string_of_uint (Nat.to_uint n).



Definition in_range (lo hi b : nat) : bool := (lo <=? b) && (b <=? hi).

(** The ranges of the bytes that must follow the lead byte [b0] of a
    well-formed UTF-8 sequence (no overlong forms, no surrogates, nothing
    above U+10FFFF); [None] for a byte that cannot start a sequence. *)
Definition tail_ranges (b0 : nat) : option (list (nat * nat)) :=
  if b0 <? 128 then Some []
  else if b0 <? 194 then None
  else if b0 <? 224 then Some [(128, 191)]
  else if b0 =? 224 then Some [(160, 191); (128, 191)]
  else if b0 =? 237 then Some [(128, 159); (128, 191)]
  else if b0 <? 240 then Some [(128, 191); (128, 191)]
  else if b0 =? 240 then Some [(144, 191); (128, 191); (128, 191)]
  else if b0 <? 244 then Some [(128, 191); (128, 191); (128, 191)]
  else if b0 =? 244 then Some [(128, 143); (128, 191); (128, 191)]
  else None.

(** How many of the leading bytes of [s] fall in the successive ranges,
    and whether all the ranges were met. *)
Fixpoint match_tail (rs : list (nat * nat)) (s : string) : bool * nat :=
  match rs with
  | [] => (true, 0)
  | (lo, hi) :: rs' =>
      match s with
      | EmptyString => (false, 0)
      | String c s' =>
          if in_range lo hi (byte_val c)
          then let (ok, n) := match_tail rs' s' in (ok, S n)
          else (false, 0)
      end
  end.

(** Length of the well-formed UTF-8 character that starts [s], or 0. *)
Definition utf8_char_len (s : string) : nat :=
  match s with
  | EmptyString => 0
  | String c r =>
      match tail_ranges (byte_val c) with
      | None => 0
      | Some rs => let (ok, n) := match_tail rs r in if ok then S n else 0
      end
  end.

(** Length of the ill-formed run that starts [s] when no character does:
    the lead byte and the following bytes that still fit its pattern. *)
Definition utf8_bad_len (s : string) : nat :=
  match s with
  | EmptyString => 0
  | String c r =>
      match tail_ranges (byte_val c) with
      | None => 1
      | Some rs => S (snd (match_tail rs r))
      end
  end.

(** [b.decode()]: the text, or [None] for a [UnicodeDecodeError]. *)
Definition decode (b : bytes) : option str :=
  if forallb fst (units utf8_char_len b) then Some b else None.

(** [s.encode()] *)
Definition encode (s : str) : bytes := s.

(** U+FFFD, the replacement character *)
Definition REPLACEMENT : string :=
  String (ascii_of_nat 239) (String (ascii_of_nat 191)
    (String (ascii_of_nat 189) EmptyString)).

(** [b.decode('utf-8', 'replace')] *)
Fixpoint decode_replace_from (skip : nat) (s : string) : string :=
  match s with
  | EmptyString => EmptyString
  | String _ s' =>
      match skip with
      | S k => decode_replace_from k s'
      | O =>
          match utf8_char_len s with
          | S k => take (S k) s ++ decode_replace_from k s'
          | O => REPLACEMENT ++ decode_replace_from (utf8_bad_len s - 1) s'
          end
      end
  end.

Definition decode_replace (b : bytes) : str := decode_replace_from 0 b.

Definition hex_val (c : ascii) : option nat :=
  let b := byte_val c in
  if in_range 48 57 b then Some (b - 48)
  else if in_range 65 70 b then Some (b - 55)
  else if in_range 97 102 b then Some (b - 87)
  else None.

(** [urllib.parse.unquote_to_bytes]: every "%" followed by two hexadecimal
    digits becomes the byte they denote; any other "%" stays. *)
Fixpoint unquote_to_bytes (s : string) : bytes :=
  match s with
  | EmptyString => EmptyString
  | String c r =>
      if Ascii.eqb c "%"%char then
        match r with
        | String h1 (String h2 r2) =>
            match hex_val h1, hex_val h2 with
            | Some a, Some b =>
                String (ascii_of_nat (16 * a + b)) (unquote_to_bytes r2)
            | _, _ => String c (unquote_to_bytes r)
            end
        | _ => String c (unquote_to_bytes r)
        end
      else String c (unquote_to_bytes r)
  end.

(** The runs of ASCII characters are unquoted and decoded, each on its
    own; the characters between them are kept. *)
Fixpoint unquote_runs (run : string) (s : string) : str :=
  match s with
  | EmptyString => decode_replace (unquote_to_bytes run)
  | String c s' =>
      if byte_val c <? 128 then unquote_runs (run ++ String c EmptyString) s'
      else decode_replace (unquote_to_bytes run) ++ String c (unquote_runs EmptyString s')
  end.

(** [urllib.parse.unquote(s)] *)
Definition unquote (s : str) : str :=
  if contains "%" s then unquote_runs EmptyString s else s.

(** [s[:n]] and [s[n:]] for any integer [n]: a negative index counts from
    the end, and both are clamped to the string. *)
Definition index_of (n : Z) (s : string) : nat :=
  if (0 <=? n)%Z then Z.to_nat n else Z.to_nat (Z.of_nat (String.length s) + n).
Definition slice_to (n : Z) (s : string) : string := take (index_of n s) s.
Definition slice_from (n : Z) (s : string) : string := drop (index_of n s) s.

End Py.

(** ** Data model *)

(** [int -> float], as the division [tot_time / num_requests] converts its
    right operand; exact for counters below 2^53. *)
Definition float_of_int (n : Z) : float := PrimFloat.of_uint63 (Uint63.of_Z n).

(** The server statistics.  Each function below is one block of the source
    that runs under [with stats.lock], hence one atomic step. *)
Module Statistics.

Record t := mk {
  total_connections : Z;
  active_connections : Z;
  num_requests : Z;
  num_errors : Z;
  max_time : float;
  tot_time : float;
  avg_time : float
}.

(** [Statistics.__init__] *)
Definition init : t := mk 0 0 0 0 0%float 0%float 0%float.

(** Main loop: [stats.total_connections += 1] *)
Definition connection_accepted (s : t) : t :=
  mk (total_connections s + 1) (active_connections s) (num_requests s)
     (num_errors s) (max_time s) (tot_time s) (avg_time s).

(** [handle_http_connection]: [stats.active_connections += 1] *)
Definition connection_opened (s : t) : t :=
  mk (total_connections s) (active_connections s + 1) (num_requests s)
     (num_errors s) (max_time s) (tot_time s) (avg_time s).

(** [handle_http_connection], in [finally]: [stats.active_connections -= 1] *)
Definition connection_closed (s : t) : t :=
  mk (total_connections s) (active_connections s - 1) (num_requests s)
     (num_errors s) (max_time s) (tot_time s) (avg_time s).

(** [send_http_response]: [stats.num_errors += 1] *)
Definition error_observed (s : t) : t :=
  mk (total_connections s) (active_connections s) (num_requests s)
     (num_errors s + 1) (max_time s) (tot_time s) (avg_time s).

(** [handle_http_connection], end-of-request statistics:
    [num_requests += 1; tot_time = tot_time + duration;
     avg_time = tot_time / num_requests;
     if duration > max_time: max_time = duration] *)
Definition request_completed (duration : float) (s : t) : t :=
  let n := (num_requests s + 1)%Z in
  let tot := PrimFloat.add (tot_time s) duration in
  mk (total_connections s) (active_connections s) n (num_errors s)
     (if PrimFloat.ltb (max_time s) duration then duration else max_time s)
     tot
     (PrimFloat.div tot (float_of_int n)).

End Statistics.

(** [class Request] *)
Module Request.

Record t := mk {
  method : str;
  path : str;
  version : str;
  headers : list str;
  length : Z;
  body : option str
}.

(** [Request.__init__] *)
Definition init : t := mk "" "" "" [] 0 None.

End Request.

(** What a handler may store in [Response.body]: [None], a [bytes] object,
    a [str], or any other object, which only its [str()] rendering
    describes here. *)
Inductive Body : Type :=
| BodyNone
| BodyBytes (b : bytes)
| BodyStr (s : str)
| BodyOther (rendering : str).

(** [class Response] *)
Module Response.

Record t := mk {
  code : str;
  mime_type : option str;
  body : Body;
  cookies : option (list str)
}.

(** [Response(code, mime_type, body)]: [cookies] starts as [None]. *)
Definition make (code : str) (mime_type : option str) (body : Body) : t :=
  mk code mime_type body None.

End Response.

(** The three [SocketError] objects of the source, compared by identity. *)
Inductive SocketError : Type :=
| ERR_SOCKET_WAS_CLOSED
| ERR_SOCKET_HAD_TIMEOUT
| ERR_SOCKET_HAD_ERROR.

(** What the socket holds in store for the [recv] calls to come:
    [RecvData b] is a run of bytes that have arrived by the time [recv]
    is called ([RecvData ""] stands for the peer having closed, as does
    the end of the script); [RecvTimeout] is a call that raises
    [socket.timeout]; [RecvError] is a call that raises another exception
    (a reset connection, or [MemoryError] for a buffer that cannot be
    allocated). *)
Inductive RecvResult : Type :=
| RecvData (b : bytes)
| RecvTimeout
| RecvError.

(** What a call [sock.recv(bufsize)] gives its caller: bytes (none when
    the peer has closed), [socket.timeout], or another exception. *)
Inductive RecvOutcome : Type :=
| Received (b : bytes)
| RecvTimedOut
| RecvFailed.

(** [sys.maxsize] *)
Definition MAXSIZE : Z := 9223372036854775807.

(** [sock.recv(bufsize)], on the script of the socket.  A negative size
    is a [ValueError] and a size above [sys.maxsize] an [OverflowError],
    both raised before anything is read.  Otherwise the call takes at
    most [bufsize] bytes of the run that has arrived and leaves the rest
    of the run for the next call. *)
Definition recv (bufsize : Z) (inbox : list RecvResult)
  : RecvOutcome * list RecvResult :=
  if (bufsize <? 0)%Z || (MAXSIZE <? bufsize)%Z then (RecvFailed, inbox)
  else match inbox with
       | [] => (Received "", [])
       | RecvData b :: rest =>
           if (Z.of_nat (String.length b) <=? bufsize)%Z then (Received b, rest)
           else (Received (Py.take (Z.to_nat bufsize) b),
                 RecvData (Py.drop (Z.to_nat bufsize) b) :: rest)
       | RecvTimeout :: rest => (RecvTimedOut, rest)
       | RecvError :: rest => (RecvFailed, rest)
       end.

(** A bound on the number of [recv] calls that can still return bytes:
    each such call takes at least one byte, or ends a run. *)
Fixpoint pending (inbox : list RecvResult) : nat :=
  match inbox with
  | [] => 0
  | RecvData b :: rest => S (String.length b + pending rest)
  | _ :: rest => S (pending rest)
  end.

(** The connected socket: the script of what arrives, the arguments of
    the [sendall] calls so far, in order, and the number of [close]
    calls.  Writing to the peer is taken to succeed. *)
Module Socket.

Record t := mk {
  inbox : list RecvResult;
  sent : list bytes;
  close_calls : nat
}.

Definition sendall (b : bytes) (s : t) : t :=
  mk (inbox s) (sent s ++ [b])%list (close_calls s).

Definition close (s : t) : t := mk (inbox s) (sent s) (S (close_calls s)).

End Socket.

(** [class Connection].  The client address is not a field here: the
    main loop builds every connection with the pair (host, port) that
    [accept] returns, and the methods only format it into log lines (see
    [log_client_addr] below). *)
Module Connection.

Record t := mk {
  sock : Socket.t;
  leftover_data : bytes;
  num_requests : Z;
  start_time : float;
  last_active_time : float
}.

Definition with_sock (k : Socket.t) (c : t) : t :=
  mk k (leftover_data c) (num_requests c) (start_time c) (last_active_time c).

(** The two assignments a read ends with: what is left of the script of
    the socket, and [self.leftover_data]. *)
Definition after_read (inbox' : list RecvResult) (left : bytes) (c : t) : t :=
  mk (Socket.mk inbox' (Socket.sent (sock c)) (Socket.close_calls (sock c)))
     left (num_requests c) (start_time c) (last_active_time c).

Definition with_last_active_time (x : float) (c : t) : t :=
  mk (sock c) (leftover_data c) (num_requests c) (start_time c) x.

Definition count_request (c : t) : t :=
  mk (sock c) (leftover_data c) (num_requests c + 1) (start_time c)
     (last_active_time c).

End Connection.

(** Exceptions that reach the caller. *)
Inductive exn : Type :=
| ValueError
| AttributeError
| OSError
| TypeError.

Inductive result (A : Type) : Type :=
| Ok (a : A)
| Raise (e : exn).
Arguments Ok {A} a.
Arguments Raise {A} e.

(** ** Reading from the socket *)

(** [fmt % args]: a tuple on the right of [%] is the list of the
    arguments, and it must have one value for each conversion of [fmt];
    otherwise the operator raises [TypeError] ("not all arguments
    converted during string formatting"). *)
Definition percent (conversions args : nat) : result unit :=
  if conversions =? args then Ok tt else Raise TypeError.

(** The number of items of [self.client_addr]: the main loop passes the
    address that [accept] returns, a pair (host, port). *)
Definition CLIENT_ADDR_ITEMS : nat := 2.

(** [log("... %s ..." % (self.client_addr))], in the three methods of
    [Connection]: one conversion, and the pair as the argument list. *)
Definition log_client_addr : result unit := percent 1 CLIENT_ADDR_ITEMS.

(** [log("... %s ... %s ..." % (self.client_addr, SOCKET_TIMEOUT))]: two
    conversions and a tuple of two values. *)
Definition log_client_timeout : result unit := percent 2 2.

Inductive LoopExit : Type := Found | PeerClosed | TimedOut | Failed.

(** The [while] loop of [read_until_blank_line].  [fuel] bounds the
    number of turns; [pending] of the script and one more is enough (see
    [recv_until_blank_line_fuel]), so the last case is never reached. *)
Fixpoint recv_until_blank_line (fuel : nat) (data : bytes)
  (inbox : list RecvResult) : LoopExit * bytes * list RecvResult :=
  if Py.contains BLANK_LINE data then (Found, data, inbox)
  else match fuel with
       | S fuel' =>
           match recv 4096 inbox with
           | (Received EmptyString, rest) => (PeerClosed, data, rest)
           | (Received more, rest) => recv_until_blank_line fuel' (data ++ more) rest
           | (RecvTimedOut, rest) => (TimedOut, data, rest)
           | (RecvFailed, rest) => (Failed, data, rest)
           end
       | O => (Failed, data, inbox)
       end.

(** The bare [except:] of [read_until_blank_line] and [read_amount]: it
    logs, stores [data] as the leftover data and returns [ret]; when the
    log line cannot be formatted, the exception of the formatting leaves
    the method, and nothing is stored. *)
Definition except_clause {A : Type} (ret : A) (data : bytes) (c : Connection.t)
  : result A * Connection.t :=
  match log_client_addr with
  | Ok _ =>
      (Ok ret, Connection.after_read (Socket.inbox (Connection.sock c)) data c)
  | Raise e => (Raise e, c)
  end.

(** [Connection.read_until_blank_line]: the text of the head, or one of
    the [ERR_SOCKET] values, or an exception, and the connection
    afterwards.  When the peer has closed, the log line is formatted
    inside the [try]: its [TypeError] is caught by the bare [except:].  A
    head that does not decode raises inside the [try] too, after the
    leftover data has been assigned. *)
Definition read_until_blank_line (c : Connection.t)
  : result (str + SocketError) * Connection.t :=
  let '(exit, data, inbox') :=
    recv_until_blank_line (S (pending (Socket.inbox (Connection.sock c))))
                          (Connection.leftover_data c)
                          (Socket.inbox (Connection.sock c)) in
  let c' := Connection.after_read inbox' (Connection.leftover_data c) c in
  match exit with
  | Found =>
      match Py.split_once BLANK_LINE data with
      | Some (head, rest) =>
          match Py.decode head with
          | Some text => (Ok (inl text), Connection.after_read inbox' rest c)
          | None =>
              except_clause (inr ERR_SOCKET_HAD_ERROR) head
                (Connection.after_read inbox' rest c)
          end
      | None => except_clause (inr ERR_SOCKET_HAD_ERROR) data c'
      end
  | PeerClosed =>
      match log_client_addr with
      | Ok _ => (Ok (inr ERR_SOCKET_WAS_CLOSED), Connection.after_read inbox' data c)
      | Raise _ => except_clause (inr ERR_SOCKET_HAD_ERROR) data c'
      end
  | TimedOut =>
      match log_client_timeout with
      | Ok _ => (Ok (inr ERR_SOCKET_HAD_TIMEOUT), Connection.after_read inbox' data c)
      | Raise e => (Raise e, c')
      end
  | Failed => except_clause (inr ERR_SOCKET_HAD_ERROR) data c'
  end.

(** The [while] loop of [read_amount]; any exception of [recv] ends it the
    same way.  [fuel] is as in [recv_until_blank_line]. *)
Fixpoint recv_amount (fuel : nat) (n : Z) (data : bytes) (inbox : list RecvResult)
  : LoopExit * bytes * list RecvResult :=
  if (Z.of_nat (String.length data) <? n)%Z then
    match fuel with
    | S fuel' =>
        match recv (n - Z.of_nat (String.length data)) inbox with
        | (Received EmptyString, rest) => (PeerClosed, data, rest)
        | (Received more, rest) => recv_amount fuel' n (data ++ more) rest
        | (RecvTimedOut, rest) => (Failed, data, rest)
        | (RecvFailed, rest) => (Failed, data, rest)
        end
    | O => (Failed, data, inbox)
    end
  else (Found, data, inbox).

(** [Connection.read_amount]: the next [n] bytes as text, or [None], or
    an exception.  Bytes that do not decode raise inside the [try], after
    the leftover data has been assigned. *)
Definition read_amount (n : Z) (c : Connection.t)
  : result (option str) * Connection.t :=
  let '(exit, data, inbox') :=
    recv_amount (S (pending (Socket.inbox (Connection.sock c)))) n
                (Connection.leftover_data c) (Socket.inbox (Connection.sock c)) in
  match exit with
  | Found =>
      match Py.decode (Py.slice_to n data) with
      | Some text =>
          (Ok (Some text), Connection.after_read inbox' (Py.slice_from n data) c)
      | None =>
          except_clause None (Py.slice_to n data)
            (Connection.after_read inbox' (Py.slice_from n data) c)
      end
  | PeerClosed => (Ok None, Connection.after_read inbox' data c)
  | _ =>
      except_clause None data
        (Connection.after_read inbox' (Connection.leftover_data c) c)
  end.

(** ** Headers and cookies *)

(** [get_header_value]: the text after the first space of the first
    header that starts, whatever the case, with [key] and ": ".  (Such a
    header contains a space, so the index [1] of the source is in range.)
    [key] is taken to be ASCII, as in every call of the source
    ("Transfer-Encoding", "Content-Length", "Cookie"): see [Py.lower]. *)
Fixpoint get_header_value (headers : list str) (key : str) : option str :=
  match headers with
  | [] => None
  | hdr :: rest =>
      if Py.startswith (Py.lower hdr) (Py.lower key ++ ": ") then
        match Py.split_once " " hdr with
        | Some (_, val) => Some val
        | None => None
        end
      else get_header_value rest key
  end.

(** [get_cookies] *)
Definition get_cookies (headers : list str) : option str :=
  get_header_value headers "Cookie".

(** The [for] loop of [get_cookie].  When [pair_] has no "=", [keyval] is
    a list of one element and [keyval.lstrip()] is an attribute lookup on
    a list: it raises [AttributeError]. *)
Fixpoint get_cookie_loop (pairs : list str) (name : str) : result (option str) :=
  match pairs with
  | [] => Ok None
  | pair_ :: rest =>
      match Py.split_once "=" pair_ with
      | Some (k, v) =>
          let key := Py.rstrip k in
          let val := Py.lstrip v in
          if String.eqb key name then Ok (Some val)
          else get_cookie_loop rest name
      | None => Raise AttributeError
      end
  end.

(** [get_cookie] *)
Definition get_cookie (headers : list str) (name : str) : result (option str) :=
  match get_header_value headers "Cookie" with
  | None => Ok None
  | Some vals => get_cookie_loop (Py.split "; " vals) name
  end.

(** ** State and exceptions *)

(** What a session can change: the shared statistics (as this thread
    sees them), its connection, and the number of clock readings taken. *)
Record World : Type := mkWorld {
  stats : Statistics.t;
  conn : Connection.t;
  ticks : nat
}.

(** A statement: it ends normally with a value or raises, and leaves a
    world either way. *)
Definition M (A : Type) : Type := World -> result A * World.

Definition ret {A : Type} (a : A) : M A := fun w => (Ok a, w).

Definition raise {A : Type} (e : exn) : M A := fun w => (Raise e, w).

Definition bind {A B : Type} (m : M A) (k : A -> M B) : M B :=
  fun w =>
    match m w with
    | (Ok a, w') => k a w'
    | (Raise e, w') => (Raise e, w')
    end.

(** [try: body finally: cleanup], for a cleanup that does not raise. *)
Definition try_finally {A : Type} (body : M A) (cleanup : World -> World) : M A :=
  fun w => let (r, w') := body w in (r, cleanup w').

Declare Scope stmt_scope.
Delimit Scope stmt_scope with stmt.
Notation "x <- m ;; k" := (bind m (fun x => k))
  (at level 61, m at next level, right associativity) : stmt_scope.
Notation "m ;; k" := (bind m (fun _ => k))
  (at level 61, right associativity) : stmt_scope.

(** [with stats.lock: ...] *)
Definition with_stats (f : Statistics.t -> Statistics.t) : M unit :=
  fun w => (Ok tt, mkWorld (f (stats w)) (conn w) (ticks w)).

Definition set_conn (f : Connection.t -> Connection.t) (w : World) : World :=
  mkWorld (stats w) (f (conn w)) (ticks w).

Definition with_conn (f : Connection.t -> Connection.t) : M unit :=
  fun w => (Ok tt, set_conn f w).

(** A method of the connection that returns a value or raises. *)
Definition on_conn {A : Type} (f : Connection.t -> result A * Connection.t) : M A :=
  fun w => let (r, c) := f (conn w) in (r, mkWorld (stats w) c (ticks w)).

(** [conn.sock.sendall(b)] *)
Definition sendall (b : bytes) : M unit :=
  with_conn (fun c => Connection.with_sock (Socket.sendall b (Connection.sock c)) c).

(** [conn.sock.close()] *)
Definition close_sock (w : World) : World :=
  set_conn (fun c => Connection.with_sock (Socket.close (Connection.sock c)) c) w.

(** ** The server *)

(** The environment of a session.  [clock n] is what the [n]-th call of
    [time.time()] returns; [strftime_gmt t] is
    [time.strftime("%a, %d %b %Y %H:%M:%S %Z", time.gmtime(t))];
    [py_int s] is [int(s)], [None] standing for its [ValueError].
    The page handlers read the statistics, the connection, the file
    system and a random source, and build a response for the core; the
    status page is also given the reading of [time.time()] that its
    handler takes; opening the file of quotations can fail. *)
Record Env : Type := mkEnv {
  clock : nat -> float;
  strftime_gmt : float -> str;
  py_int : str -> option Z;
  handle_http_get_status : World -> float -> Response.t;
  handle_http_get_hello : Request.t -> World -> Response.t;
  handle_http_get_quote : World -> result Response.t;
  handle_http_get_file : str -> World -> Response.t
}.

Section Server.

Local Open Scope stmt_scope.

Variable E : Env.

(** [time.time()] *)
Definition time_time : M float :=
  fun w => (Ok (clock E (ticks w)), mkWorld (stats w) (conn w) (S (ticks w))).

(** [str(resp.body).encode()] and its two shortcuts *)
Definition body_bytes (b : Body) : bytes :=
  match b with
  | BodyBytes raw => raw
  | BodyStr s => Py.encode s
  | BodyNone => Py.encode "None"
  | BodyOther rendering => Py.encode rendering
  end.

(** The [Set-Cookie] lines of [send_http_response]. *)
Definition cookie_lines (expiration : str) (cookies : list str) : str :=
  fold_left
    (fun data cookie =>
       data ++ "Set-Cookie: " ++ cookie ++ "; Expires=" ++ expiration ++ CRLF)
    cookies "".

(** The content headers of [send_http_response] and the body to send. *)
Definition content_part (resp : Response.t) : str * option bytes :=
  match Response.mime_type resp with
  | None => ("Content-Length: 0" ++ CRLF, None)
  | Some mime =>
      let body := body_bytes (Response.body resp) in
      ("Content-Type: " ++ mime ++ CRLF ++
       "Content-Length: " ++ Py.str_of_nat (String.length body) ++ CRLF,
       Some body)
  end.

(** [send_http_response] *)
Definition send_http_response (resp : Response.t) : M unit :=
  (if negb (Py.startswith (Response.code resp) "200 ")
   then with_stats Statistics.error_observed
   else ret tt) ;;
  now <- time_time ;;
  let data := "HTTP/1.1 " ++ Response.code resp ++ CRLF ++
              "Server: csci356" ++ CRLF ++
              "Date: " ++ strftime_gmt E now ++ CRLF in
  data <- match Response.cookies resp with
          | Some cookies =>
              now' <- time_time ;;
              let expiration :=
                strftime_gmt E (PrimFloat.add now' (float_of_int 604800)) in
              ret (data ++ cookie_lines expiration cookies)
          | None => ret data
          end ;;
  let (content, body) := content_part resp in
  let data := data ++ content ++ CRLF in
  sendall (Py.encode data) ;;
  match body with
  | Some b => sendall b
  | None => ret tt
  end.

(** [handle_http_get]; [handle_http_get_status] reads the clock once. *)
Definition handle_http_get (req : Request.t) : M Response.t :=
  fun w =>
    if String.eqb (Request.path req) "/status"
    then bind time_time (fun now w' => (Ok (handle_http_get_status E w now), w')) w
    else if String.eqb (Request.path req) "/hello" then (Ok (handle_http_get_hello E req w), w)
    else if String.eqb (Request.path req) "/quote" then (handle_http_get_quote E w, w)
    else (Ok (handle_http_get_file E (Request.path req) w), w).

(** The path of the request, from the second word of the request line:
    [if "?" in req.path: ... else: ...] in [handle_one_http_request]. *)
Definition request_path (raw : str) : str :=
  if Py.contains "?" raw then
    match Py.split_once "?" raw with
    | Some (path, params) => Py.unquote path ++ "?" ++ params
    | None => Py.unquote raw
    end
  else Py.unquote raw.

(** The answer to a head without any line. *)
Definition NO_REQUEST_LINE : Response.t :=
  Response.make "400 BAD REQUEST" (Some "text/plain")
    (BodyStr "You need a request-line!").

(** The answer to a request line that is not made of three words. *)
Definition MALFORMED_REQUEST_LINE : Response.t :=
  Response.make "400 BAD REQUEST" (Some "text/plain")
    (BodyStr "Your request-line is malformed!").

(** [handle_one_http_request] from [req.method = words[0]] on: the request
    line has its three words.  The path is unquoted, a chunked request is
    refused, the body is read if a Content-Length header announces one,
    and the method decides the response, which is sent. *)
Definition dispatch_request (method raw_path version : str) (headers : list str)
  : M unit :=
  let path := request_path raw_path in
  if match get_header_value headers "Transfer-Encoding" with
     | Some v => String.eqb v "chunked"
     | None => false
     end
  then
    send_http_response
      (Response.make "411 LENGTH REQUIRED" (Some "text/plain")
         (BodyStr "Your request uses chunked transfer encoding, sorry!"))
  else
    req <- match get_header_value headers "Content-Length" with
           | Some n =>
               match py_int E n with
               | Some len =>
                   body <- on_conn (read_amount len) ;;
                   ret (Request.mk method path version headers len body)
               | None => raise ValueError
               end
           | None => ret (Request.mk method path version headers 0 None)
           end ;;
    resp <- (if String.eqb (Request.method req) "GET"
             then handle_http_get req
             else if String.eqb (Request.method req) "POST"
                     || String.eqb (Request.method req) "PUT"
             then ret (Response.make "405 METHOD NOT ALLOWED"
                         (Some "text/plain")
                         (BodyStr "PUT and POST methods not yet supported"))
             else ret (Response.make "405 METHOD NOT ALLOWED"
                         (Some "text/plain")
                         (BodyStr ("Unrecognized method: " ++ Request.method req)))) ;;
    send_http_response resp.

(** [handle_one_http_request] *)
Definition handle_one_http_request : M unit :=
  data <- on_conn read_until_blank_line ;;
  match data with
  | inr _ => ret tt
  | inl data =>
      now <- time_time ;;
      with_conn (Connection.with_last_active_time now) ;;
      match Py.splitlines data with
      | [] => send_http_response NO_REQUEST_LINE
      | request_line :: headers =>
          match Py.split_ws request_line with
          | [method; raw_path; version] =>
              dispatch_request method raw_path version headers
          | _ => send_http_response MALFORMED_REQUEST_LINE
          end
      end
  end.

(** The body of the [try] of [handle_http_connection]. *)
Definition serve_connection : M unit :=
  start <- time_time ;;
  handle_one_http_request ;;
  end_ <- time_time ;;
  let duration := PrimFloat.sub end_ start in
  with_conn Connection.count_request ;;
  with_stats (Statistics.request_completed duration).

(** The [finally] of [handle_http_connection]. *)
Definition release_connection (w : World) : World :=
  let w := close_sock w in
  mkWorld (Statistics.connection_closed (stats w)) (conn w) (ticks w).

(** [handle_http_connection] *)
Definition handle_http_connection : M unit :=
  with_stats Statistics.connection_opened ;;
  try_finally serve_connection release_connection.

End Server.

(** ** A concrete environment *)

(** [int(s)] for ASCII text: optional white space around an optional sign
    and decimal digits, with single underscores allowed between digits. *)
Fixpoint ascii_digits (acc : Z) (after_digit : bool) (s : str) : option Z :=
  match s with
  | EmptyString => if after_digit then Some acc else None
  | String c r =>
      let b := byte_val c in
      if Py.in_range 48 57 b
      then ascii_digits (10 * acc + Z.of_nat (b - 48)) true r
      else if Ascii.eqb c "_"%char && after_digit
      then match r with
           | EmptyString => None
           | _ => ascii_digits acc false r
           end
      else None
  end.

Definition ascii_int (s : str) : option Z :=
  match Py.rstrip (Py.lstrip s) with
  | String "+"%char r => ascii_digits 0 false r
  | String "-"%char r => option_map Z.opp (ascii_digits 0 false r)
  | t => ascii_digits 0 false t
  end.

(** A clock that advances by one second at each reading, a fixed date
    text, and handlers that answer with a short page. *)
Definition sample_env : Env :=
  mkEnv (fun n => float_of_int (Z.of_nat n))
        (fun _ => "Thu, 01 Jan 1970 00:00:00 GMT")
        ascii_int
        (fun _ _ => Response.make "200 OK" (Some "text/plain") (BodyStr "status"))
        (fun _ _ => Response.make "200 OK" (Some "text/plain") (BodyStr "Welcome, World!"))
        (fun _ => Raise OSError)
        (fun url_path _ =>
           Response.make "404 NOT FOUND" (Some "text/plain")
             (BodyStr ("No such file: " ++ url_path))).

(** A fresh connection, as [Connection.__init__] builds it at time [now],
    on a socket with the given script. *)
Definition new_connection (inbox : list RecvResult) (now : float) : Connection.t :=
  Connection.mk (Socket.mk inbox [] 0) "" 0 now now.

(** The world of a session that starts on a fresh connection. *)
Definition new_world (s : Statistics.t) (inbox : list RecvResult) : World :=
  mkWorld s (new_connection inbox 0%float) 0.

(** ** Notions used in the statements *)

(** [sep] occurs in [s]. *)
Definition occurs (sep s : string) : Prop := exists h t, s = h ++ sep ++ t.

(** [s] is [head], the first occurrence of [sep], and [tail]. *)
Definition first_split (sep s head tail : string) : Prop :=
  s = head ++ sep ++ tail /\
  forall h t, s = h ++ sep ++ t -> String.length head <= String.length h.

(** The bytes of successive chunks, one after the other. *)
Definition joined (chunks : list bytes) : bytes :=
  fold_right String.append "" chunks.

(** The head of a response, as [send_http_response] writes it when the
    clock has been read [tick] times before. *)
Definition response_head (E : Env) (resp : Response.t) (tick : nat) : str :=
  let data := "HTTP/1.1 " ++ Response.code resp ++ CRLF ++
              "Server: csci356" ++ CRLF ++
              "Date: " ++ strftime_gmt E (clock E tick) ++ CRLF in
  let data :=
    match Response.cookies resp with
    | Some cookies =>
        data ++ cookie_lines
                  (strftime_gmt E (PrimFloat.add (clock E (S tick)) (float_of_int 604800)))
                  cookies
    | None => data
    end in
  data ++ fst (content_part resp) ++ CRLF.

(** The [sendall] calls of one response: the head, then the body if the
    response has a mime type. *)
Definition response_writes (E : Env) (resp : Response.t) (tick : nat) : list bytes :=
  Py.encode (response_head E resp tick) ::
  match snd (content_part resp) with
  | Some body => [body]
  | None => []
  end.

(** A raw path as a client writes it, item by item: a character as it
    is, or a byte as "%" and two hexadecimal digits. *)
Inductive PathItem : Type :=
| Plain (c : ascii)
| Escaped (h1 h2 : ascii).

(** A plain item is an ASCII character other than "%" and "?"; the
    digits of an escape are hexadecimal. *)
Definition item_ok (i : PathItem) : bool :=
  match i with
  | Plain c =>
      (byte_val c <? 128) && negb (Ascii.eqb c "%"%char) && negb (Ascii.eqb c "?"%char)
  | Escaped h1 h2 =>
      match Py.hex_val h1, Py.hex_val h2 with
      | Some _, Some _ => true
      | _, _ => false
      end
  end.

(** What the client writes for an item, and the byte that the item
    stands for. *)
Definition written (i : PathItem) : str :=
  match i with
  | Plain c => String c ""
  | Escaped h1 h2 => String "%"%char (String h1 (String h2 ""))
  end.

Definition denoted (i : PathItem) : ascii :=
  match i with
  | Plain c => c
  | Escaped h1 h2 =>
      match Py.hex_val h1, Py.hex_val h2 with
      | Some a, Some b => ascii_of_nat (16 * a + b)
      | _, _ => "%"%char
      end
  end.

Definition raw_of (items : list PathItem) : str :=
  fold_right (fun i acc => written i ++ acc) "" items.

Definition bytes_of (items : list PathItem) : bytes :=
  fold_right (fun i acc => String (denoted i) acc) "" items.

(** The number that a text of decimal digits writes, most significant
    digit first; [None] for the empty text and for a text with any other
    character. *)
Fixpoint digits_value (acc : nat) (s : string) : option nat :=
  match s with
  | EmptyString => Some acc
  | String c r =>
      if Py.in_range 48 57 (byte_val c)
      then digits_value (10 * acc + (byte_val c - 48)) r
      else None
  end.

Definition decimal_value (s : string) : option nat :=
  match s with
  | EmptyString => None
  | _ => digits_value 0 s
  end.

(** The bytes of a body, case by case: [bytes] as they are, text in its
    encoded form, [None] and any other object by their [str()]
    rendering. *)
Definition coerced (b : Body) : bytes :=
  match b with
  | BodyBytes raw => raw
  | BodyStr s => s
  | BodyNone => "None"
  | BodyOther rendering => rendering
  end.

(** A 2xx status: the digit 2 and two more digits, then the end of the
    text or a space. *)
Definition status_is_2xx (code : str) : bool :=
  match code with
  | String c0 (String c1 (String c2 rest)) =>
      Ascii.eqb c0 "2"%char &&
      Py.in_range 48 57 (byte_val c1) && Py.in_range 48 57 (byte_val c2) &&
      match rest with
      | EmptyString => true
      | String c3 _ => Ascii.eqb c3 " "%char
      end
  | _ => false
  end.

(** The world once the head has been read, leaving the connection as
    [c1], and the time of the request noted. *)
Definition head_read (E : Env) (w : World) (c1 : Connection.t) : World :=
  mkWorld (stats w)
          (Connection.with_last_active_time (clock E (ticks w)) c1)
          (S (ticks w)).

(** The world in which [handle_http_connection] calls
    [handle_one_http_request]: the connection is counted as active and the
    start time has been read. *)
Definition session_start (w : World) : World :=
  mkWorld (Statistics.connection_opened (stats w)) (conn w) (S (ticks w)).

(** What handling one request leaves alone: every statistic but the error
    counter, the request counter of the connection, and the socket, which
    stays open. *)
Definition request_frame (w w' : World) : Prop :=
  Statistics.total_connections (stats w') = Statistics.total_connections (stats w) /\
  Statistics.active_connections (stats w') = Statistics.active_connections (stats w) /\
  Statistics.num_requests (stats w') = Statistics.num_requests (stats w) /\
  Statistics.max_time (stats w') = Statistics.max_time (stats w) /\
  Statistics.tot_time (stats w') = Statistics.tot_time (stats w) /\
  Statistics.avg_time (stats w') = Statistics.avg_time (stats w) /\
  Connection.num_requests (conn w') = Connection.num_requests (conn w) /\
  Socket.close_calls (Connection.sock (conn w')) =
    Socket.close_calls (Connection.sock (conn w)).

(** Between two worlds nothing was done but reading from the socket and
    from the clock: the statistics, what was sent, the socket being open,
    and the request counter of the connection are the same. *)
Definition only_read (w w1 : World) : Prop :=
  stats w1 = stats w /\
  Socket.sent (Connection.sock (conn w1)) = Socket.sent (Connection.sock (conn w)) /\
  Socket.close_calls (Connection.sock (conn w1)) =
    Socket.close_calls (Connection.sock (conn w)) /\
  Connection.num_requests (conn w1) = Connection.num_requests (conn w).

(** The atomic steps on the statistics: the blocks of the source that
    run under the lock.  Threads interleave at these steps only, so a run
    of the server acts on the statistics as a list of them. *)
Inductive StatsOp : Type :=
| ConnectionAccepted
| ConnectionOpened
| ConnectionClosed
| ErrorObserved
| RequestCompleted (duration : float).

Definition stats_step (s : Statistics.t) (op : StatsOp) : Statistics.t :=
  match op with
  | ConnectionAccepted => Statistics.connection_accepted s
  | ConnectionOpened => Statistics.connection_opened s
  | ConnectionClosed => Statistics.connection_closed s
  | ErrorObserved => Statistics.error_observed s
  | RequestCompleted duration => Statistics.request_completed duration s
  end.

Definition stats_run (ops : list StatsOp) (s : Statistics.t) : Statistics.t :=
  fold_left stats_step ops s.


(** ** More of the source *)

(** [Connection.wait_until_data_arrives]: nothing is read while there is
    leftover data; otherwise one [recv] is made.  [Ok None] is the [None]
    of the source (data has arrived).  When the peer has closed, the log
    line is formatted inside the [try], and the bare [except:] formats
    its own. *)
Definition wait_until_data_arrives (c : Connection.t)
  : result (option SocketError) * Connection.t :=
  match Connection.leftover_data c with
  | String _ _ => (Ok None, c)
  | EmptyString =>
      let (outcome, rest) := recv 4096 (Socket.inbox (Connection.sock c)) in
      let c' := Connection.after_read rest "" c in
      let except_ :=
        match log_client_addr with
        | Ok _ => (Ok (Some ERR_SOCKET_HAD_ERROR), c')
        | Raise e => (Raise e, c')
        end in
      match outcome with
      | Received EmptyString =>
          match log_client_addr with
          | Ok _ => (Ok (Some ERR_SOCKET_WAS_CLOSED), c')
          | Raise _ => except_
          end
      | Received more => (Ok None, Connection.after_read rest ("" ++ more) c)
      | RecvTimedOut =>
          match log_client_timeout with
          | Ok _ => (Ok (Some ERR_SOCKET_HAD_TIMEOUT), c')
          | Raise e => (Raise e, c')
          end
      | RecvFailed => except_
      end
  end.

(** [isTypicalIPv4Address]; [int_of_str] is [int()], [None] standing for
    its [ValueError], which makes the answer [False]. *)
Definition isTypicalIPv4Address (int_of_str : str -> option Z) (s : str) : bool :=
  let parts := Py.split "." s in
  (List.length parts =? 4) &&
  forallb (fun p => match int_of_str p with
                    | Some n => (0 <=? n)%Z && (n <? 256)%Z
                    | None => false
                    end) parts.

(** The two functions of [os.path] that the file handler calls (their
    POSIX versions). *)
Module Path.

(** The number of leading slashes that [normpath] keeps: two stay two,
    three or more count as one. *)
Definition initial_slashes (path : str) : nat :=
  if Py.startswith path "/" then
    if Py.startswith path "//" && negb (Py.startswith path "///") then 2 else 1
  else 0.

Definition is_nil (l : list str) : bool :=
  match l with [] => true | _ => false end.

(** One turn of the loop of [normpath] over the components. *)
Definition norm_step (slashes : nat) (new_comps : list str) (comp : str)
  : list str :=
  if String.eqb comp "" || String.eqb comp "." then new_comps
  else if negb (String.eqb comp "..")
          || ((slashes =? 0) && is_nil new_comps)
          || (negb (is_nil new_comps) && String.eqb (last new_comps "") "..")
  then (new_comps ++ [comp])%list
  else removelast new_comps.

(** [os.path.normpath] *)
Definition normpath (path : str) : str :=
  if String.eqb path "" then "."
  else
    let slashes := initial_slashes path in
    let comps := fold_left (norm_step slashes) (Py.split "/" path) [] in
    let path' := String.concat "" (repeat "/" slashes) ++ String.concat "/" comps in
    if String.eqb path' "" then "." else path'.

(** [os.path.commonprefix([a, b])]: the longest common prefix, character
    by character, of the smaller and the greater of the two. *)
Fixpoint commonprefix (a b : str) : str :=
  match a, b with
  | String x a', String y b' =>
      if Ascii.eqb x y then String x (commonprefix a' b') else ""
  | _, _ => ""
  end.

End Path.

(** The file system as the file handler sees it: [os.path.isfile], and
    the content that [open(path, "rb")] and [read] give, [None] when
    either raises. *)
Record FileSystem : Type := mkFileSystem {
  isfile : str -> bool;
  read_file : str -> option bytes
}.

Module Files.

(** [handle_http_get_file]; [server_root] is the global of the source,
    which the main program has normalised. *)
Definition handle_http_get_file (fs : FileSystem) (server_root url_path : str)
  : Response.t :=
  let file_path := Path.normpath (server_root ++ url_path) in
  if negb (String.eqb (Path.commonprefix file_path server_root) server_root)
  then Response.make "403 FORBIDDEN" (Some "text/plain")
         (BodyStr ("Permission denied: " ++ url_path))
  else if negb (isfile fs file_path)
  then Response.make "404 NOT FOUND" (Some "text/plain")
         (BodyStr ("No such file: " ++ url_path))
  else match read_file fs file_path with
       | Some data => Response.make "200 OK" (Some "text/html") (BodyBytes data)
       | None => Response.make "403 FORBIDDEN" (Some "text/plain")
                   (BodyStr ("Permission denied: " ++ url_path))
       end.

(** The main program: [server_root = os.path.normpath(server_root + '/')] *)
Definition normalised_root (server_root : str) : str :=
  Path.normpath (server_root ++ "/").

End Files.

(** The bytes still to come to a connection whose socket will deliver
    [chunks]: the leftover data, then the chunks. *)
Definition stream (c : Connection.t) (chunks : list bytes) : bytes :=
  Connection.leftover_data c ++ joined chunks.

(** How often the character [c] stands in [s]. *)
Fixpoint count_char (c : ascii) (s : string) : nat :=
  match s with
  | EmptyString => 0
  | String x s' => (if Ascii.eqb c x then 1 else 0) + count_char c s'
  end.


(** Between two worlds of a session at most one response was written:
    the socket has been sent nothing more, or the head and the body of
    one response. *)
Definition at_most_one_response (E : Env) (w w' : World) : Prop :=
  exists writes : list bytes,
    Socket.sent (Connection.sock (conn w')) =
      (Socket.sent (Connection.sock (conn w)) ++ writes)%list /\
    (writes = [] \/ exists resp tick, writes = response_writes E resp tick).


(** The dotted notation of four numbers, as [str] writes them. *)
Definition dotted_quad (a b c d : nat) : str :=
  Py.str_of_nat a ++ "." ++ Py.str_of_nat b ++ "." ++
  Py.str_of_nat c ++ "." ++ Py.str_of_nat d.


(** A text without carriage return and line feed. *)
Fixpoint plain (s : string) : bool :=
  match s with
  | EmptyString => true
  | String c r => negb (Ascii.eqb c CR || Ascii.eqb c LF) && plain r
  end.

(** Lines, each followed by CRLF, and lines, each preceded by CRLF. *)
Definition terminated (lines : list str) : str :=
  fold_right (fun l acc => l ++ CRLF ++ acc) "" lines.

Definition preceded (lines : list str) : str :=
  fold_right (fun l acc => CRLF ++ l ++ acc) "" lines.

(** The lines of the head of a response: the status line, then the
    headers in the order in which [send_http_response] writes them. *)
Definition response_lines (E : Env) (resp : Response.t) (tick : nat) : list str :=
  let status := "HTTP/1.1 " ++ Response.code resp in
  let date := "Date: " ++ strftime_gmt E (clock E tick) in
  let expiration :=
    strftime_gmt E (PrimFloat.add (clock E (S tick)) (float_of_int 604800)) in
  let cookie_headers :=
    match Response.cookies resp with
    | Some cookies =>
        map (fun cookie => "Set-Cookie: " ++ cookie ++ "; Expires=" ++ expiration)
            cookies
    | None => []
    end in
  let content_headers :=
    match Response.mime_type resp with
    | None => ["Content-Length: 0"]
    | Some mime =>
        ["Content-Type: " ++ mime;
         "Content-Length: " ++
           Py.str_of_nat (String.length (body_bytes (Response.body resp)))]
    end in
  app [status; "Server: csci356"; date] (app cookie_headers content_headers).

(** How many steps of a run satisfy [p]. *)
Definition count_ops (p : StatsOp -> bool) (ops : list StatsOp) : Z :=
  Z.of_nat (List.length (filter p ops)).

Definition is_accepted (op : StatsOp) : bool :=
  match op with ConnectionAccepted => true | _ => false end.
Definition is_opened (op : StatsOp) : bool :=
  match op with ConnectionOpened => true | _ => false end.
Definition is_closed (op : StatsOp) : bool :=
  match op with ConnectionClosed => true | _ => false end.
Definition is_error (op : StatsOp) : bool :=
  match op with ErrorObserved => true | _ => false end.
Definition is_completed (op : StatsOp) : bool :=
  match op with RequestCompleted _ => true | _ => false end.


(** ** Console output *)

(** [s.replace(old, new)] for a non-empty [old] *)
Definition replace (old new s : str) : str := String.concat new (Py.split old s).

Definition TAB : ascii := ascii_of_nat 9.
Definition QUOTE : ascii := ascii_of_nat 34.
Definition BACKSLASH : ascii := ascii_of_nat 92.

(** [string.ascii_letters], [string.digits], [string.punctuation] *)
Definition ascii_letters : str :=
  "abcdefghijklmnopqrstuvwxyzABCDEFGHIJKLMNOPQRSTUVWXYZ".
Definition digits : str := "0123456789".
Definition punctuation : str :=
  "!" ++ String QUOTE "#$%&'()*+,-./:;<=>?@[\]^_`{|}~".

Definition printable : str :=
  ascii_letters ++ digits ++ punctuation ++
  String " " (String CR (String LF (String TAB ""))).

(** [ord(c)] for one character, held in its UTF-8 form *)
Definition ord (c : str) : N :=
  let b := fun x => N.of_nat (byte_val x) in
  match c with
  | String a "" => b a
  | String a (String x "") => (b a - 192) * 64 + (b x - 128)
  | String a (String x (String y "")) =>
      (b a - 224) * 4096 + (b x - 128) * 64 + (b y - 128)
  | String a (String x (String y (String z ""))) =>
      (b a - 240) * 262144 + (b x - 128) * 4096 + (b y - 128) * 64 + (b z - 128)
  | _ => 0
  end%N.

(** ['{0:02x}'.format(n)] *)
Definition hex02 (n : N) : str :=
  let h := HexadecimalString.NilEmpty.string_of_uint (N.to_hex_uint n) in
  if String.length h <? 2 then "0" ++ h else h.

(** [c if c in printable else r'\x{0:02x}'.format(ord(c))] *)
Definition show_char (c : str) : str :=
  if Py.contains c printable then c
  else String BACKSLASH "x" ++ hex02 (ord c).

(** The argument of [make_printable]: the server passes a [bytes] object
    or a [str]. *)
Inductive Text : Type :=
| TextBytes (b : bytes)
| TextStr (s : str).

(** [make_printable(s)] *)
Definition make_printable (s : Text) : str :=
  let shown (s : str) : str :=
    let s := replace (String LF "") (String BACKSLASH "n" ++ String LF "") s in
    let s := replace (String CR "") (String BACKSLASH "r") s in
    let s := replace (String TAB "") (String BACKSLASH "t") s in
    String.concat "" (map (fun u => show_char (snd u)) (Py.units Py.utf8_char_len s)) in
  match s with
  | TextBytes b =>
      match Py.decode b with
      | Some s => shown s
      | None =>
          "{binary data, " ++ Py.str_of_nat (String.length b) ++
          " bytes total, not shown here}" ++ String LF ""
      end
  | TextStr s => shown s
  end.

(** Every character of [s] satisfies [p]. *)
Fixpoint all_chars (p : ascii -> bool) (s : string) : bool :=
  match s with
  | EmptyString => true
  | String c s' => p c && all_chars p s'
  end.

(** [s] with each character replaced by a string. *)
Fixpoint expand (f : ascii -> string) (s : string) : string :=
  match s with
  | EmptyString => EmptyString
  | String c s' => f c ++ expand f s'
  end.

Definition is_ascii (c : ascii) : bool := byte_val c <? 128.

(** A visible ASCII character or a space. *)
Definition visible (c : ascii) : bool := Py.in_range 32 126 (byte_val c).

(** What a console shows as it is: a visible character, a space or a
    line feed. *)
Definition console_safe (c : ascii) : bool := visible c || Ascii.eqb c LF.

(** Neither a carriage return nor a tab. *)
Definition not_cr_tab (c : ascii) : bool :=
  negb (Ascii.eqb c CR) && negb (Ascii.eqb c TAB).

(** How an ASCII character comes out of [make_printable]. *)
Definition shown_ascii (c : ascii) : str :=
  if Ascii.eqb c LF then String BACKSLASH "n" ++ String LF ""
  else if Ascii.eqb c CR then String BACKSLASH "r"
  else if Ascii.eqb c TAB then String BACKSLASH "t"
  else if visible c then String c ""
  else String BACKSLASH "x" ++ hex02 (N.of_nat (byte_val c)).


(** * Properties *)

(** ** Text *)

Lemma sapp_assoc (a b c : string) : (a ++ b) ++ c = a ++ (b ++ c).
Proof. induction a as [|x a IH]; simpl; [reflexivity | now rewrite IH]. Qed.

Lemma sapp_nil_r (a : string) : a ++ "" = a.
Proof. induction a as [|x a IH]; simpl; [reflexivity | now rewrite IH]. Qed.

Lemma slength_app (a b : string) :
  String.length (a ++ b) = String.length a + String.length b.
Proof. induction a as [|x a IH]; simpl; [reflexivity | now rewrite IH]. Qed.

Lemma sapp_inv_length (a b x y : string) :
  a ++ x = b ++ y -> String.length a = String.length b -> a = b /\ x = y.
Proof.
  revert b; induction a as [|c a IH]; intros [|d b] H L; simpl in *;
    try discriminate.
  - now split.
  - injection H as -> H. injection L as L.
    destruct (IH _ H L) as [-> ->]. now split.
Qed.

Lemma startswith_nil (s : string) : Py.startswith s "" = true.
Proof. now destruct s. Qed.

Lemma startswith_app (p s : string) : Py.startswith (p ++ s) p = true.
Proof.
  induction p as [|c p IH]; simpl; [apply startswith_nil |].
  now rewrite Ascii.eqb_refl, IH.
Qed.

Lemma startswith_inv (s p : string) :
  Py.startswith s p = true -> s = p ++ Py.drop (String.length p) s.
Proof.
  revert s; induction p as [|c p IH]; intros s H; simpl in *; [reflexivity |].
  destruct s as [|d s]; [discriminate |].
  apply andb_true_iff in H as [Hc Hs].
  apply Ascii.eqb_eq in Hc as ->.
  now rewrite <- (IH _ Hs).
Qed.

Lemma split_once_eq (sep s : string) :
  Py.split_once sep s =
  if Py.startswith s sep then Some ("", Py.drop (String.length sep) s)
  else match s with
       | EmptyString => None
       | String c s' =>
           match Py.split_once sep s' with
           | Some (a, b) => Some (String c a, b)
           | None => None
           end
       end.
Proof. destruct s; reflexivity. Qed.

(** [split_once] cuts at an occurrence of the separator... *)
Lemma split_once_Some (sep s a b : string) :
  Py.split_once sep s = Some (a, b) -> s = a ++ sep ++ b.
Proof.
  revert a; induction s as [|c s IH]; intros a H;
    rewrite split_once_eq in H;
    destruct (Py.startswith _ sep) eqn:P; try discriminate.
  - injection H as <- <-. now apply startswith_inv.
  - injection H as <- <-. now apply startswith_inv.
  - destruct (Py.split_once sep s) as [[a' b']|]; [| discriminate].
    injection H as <- <-. simpl. now rewrite <- (IH _ eq_refl).
Qed.

(** ... which is the first one, ... *)
Lemma split_once_first (sep s a b : string) :
  Py.split_once sep s = Some (a, b) ->
  forall h t, s = h ++ sep ++ t -> String.length a <= String.length h.
Proof.
  revert a; induction s as [|c s IH]; intros a H h t E;
    rewrite split_once_eq in H;
    destruct (Py.startswith _ sep) eqn:P; try discriminate.
  - injection H as <- <-. simpl. lia.
  - injection H as <- <-. simpl. lia.
  - destruct (Py.split_once sep s) as [[a' b']|]; [| discriminate].
    injection H as <- <-.
    destruct h as [|d h].
    + simpl in E. rewrite E, startswith_app in P. discriminate.
    + simpl in E. injection E as -> E. simpl.
      specialize (IH _ eq_refl _ _ E). lia.
Qed.

(** ... and it finds one whenever there is one. *)
Lemma split_once_None (sep s : string) :
  Py.split_once sep s = None -> forall h t, s <> h ++ sep ++ t.
Proof.
  induction s as [|c s IH]; intros H h t E;
    rewrite split_once_eq in H;
    destruct (Py.startswith _ sep) eqn:P; try discriminate.
  - destruct h; simpl in E.
    + rewrite E, startswith_app in P. discriminate.
    + discriminate.
  - destruct (Py.split_once sep s) as [[a' b']|] eqn:Q; [discriminate |].
    destruct h as [|d h]; simpl in E.
    + rewrite E, startswith_app in P. discriminate.
    + injection E as -> E. exact (IH eq_refl _ _ E).
Qed.

Lemma contains_occurs (sep s : string) :
  Py.contains sep s = true <-> occurs sep s.
Proof.
  unfold Py.contains, occurs.
  destruct (Py.split_once sep s) as [[a b]|] eqn:H.
  - split; [intros _ | reflexivity].
    exists a, b. now apply split_once_Some.
  - split; [discriminate |].
    intros (h & t & E). now destruct (split_once_None _ _ H h t).
Qed.

Lemma contains_not_occurs (sep s : string) :
  Py.contains sep s = false <-> ~ occurs sep s.
Proof.
  rewrite <- contains_occurs. destruct (Py.contains sep s); split; intro H;
    try reflexivity; try discriminate; try (intro; discriminate).
  now destruct H.
Qed.

Lemma first_split_split_once (sep s head tail : string) :
  first_split sep s head tail -> Py.split_once sep s = Some (head, tail).
Proof.
  intros [E Hmin].
  destruct (Py.split_once sep s) as [[a b]|] eqn:H.
  - pose proof (split_once_Some _ _ _ _ H) as E'.
    pose proof (split_once_first _ _ _ _ H _ _ E) as L1.
    pose proof (Hmin _ _ E') as L2.
    rewrite E in E'.
    destruct (sapp_inv_length _ _ _ _ E' (Nat.le_antisymm _ _ L2 L1)) as [-> E2].
    destruct (sapp_inv_length sep sep _ _ E2 eq_refl) as [_ ->].
    reflexivity.
  - now destruct (split_once_None _ _ H _ _ E).
Qed.

(** Two ways to cut one string: the longer head extends the shorter. *)
Lemma sapp_overlap (a x b y : string) :
  a ++ x = b ++ y -> String.length b < String.length a ->
  exists m, a = b ++ m /\ y = m ++ x /\ m <> "".
Proof.
  revert x b y. induction a as [|c a IH]; intros x [|d b] y H L; simpl in *;
    try lia.
  - exists (String c a). now repeat split.
  - injection H as -> H. destruct (IH x b y H) as (m & -> & -> & Hm); [lia |].
    now exists m.
Qed.

(** A separator of one character is found where it first stands. *)
Lemma split_once_char (c : ascii) (k v : string) :
  Py.contains (String c "") k = false ->
  Py.split_once (String c "") (k ++ String c "" ++ v) = Some (k, v).
Proof.
  intro Hk. apply first_split_split_once. split; [reflexivity |].
  intros h t Ht.
  destruct (Nat.le_gt_cases (String.length k) (String.length h)) as [|Hlt];
    [assumption | exfalso].
  apply contains_not_occurs in Hk. apply Hk.
  destruct (sapp_overlap _ _ _ _ Ht Hlt) as (m & -> & Hm & Hne).
  destruct m as [|d m]; [now destruct Hne |].
  simpl in Hm. injection Hm as <- Hm.
  now exists h, m.
Qed.

(** ** Headers *)

Lemma lower_ascii_space (c : ascii) :
  Py.lower_ascii c = " "%char -> c = " "%char.
Proof.
  destruct c as [[] [] [] [] [] [] [] []]; vm_compute; intro H;
    first [reflexivity | discriminate H].
Qed.

Lemma occurs_cons (sep : string) (c : ascii) (s : string) :
  occurs sep s -> occurs sep (String c s).
Proof. intros (h & t & ->). now exists (String c h), t. Qed.

Lemma occurs_space_cons (c : ascii) (s : string) :
  occurs " " (String c s) -> c = " "%char \/ occurs " " s.
Proof.
  intros ([|d h] & t & E); simpl in E; injection E as -> E.
  - now left.
  - right. now exists h, t.
Qed.

(** Lower case neither makes nor moves a space. *)
Lemma lower_space (n : nat) :
  forall s : str, String.length s <= n ->
  occurs " " (Py.lower s) -> occurs " " s.
Proof.
  induction n as [|n IH]; intros s L H.
  - destruct s; [| simpl in L; lia].
    destruct H as ([|d h] & t & E); discriminate E.
  - assert (Hplain : forall c r,
              s = String c r ->
              occurs " " (String (Py.lower_ascii c) (Py.lower r)) ->
              occurs " " s).
    { intros c r -> G. simpl in L.
      destruct (occurs_space_cons _ _ G) as [Hc|Hr].
      - apply lower_ascii_space in Hc as ->. now exists "", r.
      - apply occurs_cons, IH; [lia | exact Hr]. }
    destruct s as [|c0 [|c1 [|c2 r2]]]; simpl in H.
    + destruct H as ([|d h] & t & E); discriminate E.
    + now apply (Hplain c0 "").
    + now apply (Hplain c0 (String c1 "")).
    + destruct ((byte_val c0 =? 226) && (byte_val c1 =? 132) &&
                (byte_val c2 =? 170)).
      * destruct (occurs_space_cons _ _ H) as [Hk|Hr]; [discriminate Hk |].
        do 3 apply occurs_cons. apply IH; [simpl in L; lia | exact Hr].
      * now apply (Hplain c0 (String c1 (String c2 r2))).
Qed.

(** In [get_header_value] the index [1] is in range: a header that
    matches has a space, so [hdr.split(" ", 1)] has two elements. *)
Lemma get_header_value_index_in_range (hdr key : str) :
  Py.startswith (Py.lower hdr) (Py.lower key ++ ": ") = true ->
  exists name val, Py.split_once " " hdr = Some (name, val).
Proof.
  intro H. apply startswith_inv in H.
  assert (O : occurs " " (Py.lower hdr)).
  { exists (Py.lower key ++ ":"), (Py.drop (String.length (Py.lower key ++ ": ")) (Py.lower hdr)).
    rewrite H at 1. now rewrite !sapp_assoc. }
  apply (lower_space (String.length hdr) hdr (Nat.le_refl _)) in O.
  apply contains_occurs in O. unfold Py.contains in O.
  destruct (Py.split_once " " hdr) as [[a b]|]; [| discriminate].
  now exists a, b.
Qed.

(** ** More on text *)

Lemma units_from_skip (f : string -> nat) (k : nat) :
  forall s, Py.units_from f k s = Py.units_from f 0 (Py.drop k s).
Proof.
  induction k as [|k IH]; intro s.
  - now destruct s.
  - destruct s as [|c s]; [reflexivity |]. simpl. apply IH.
Qed.

Lemma startswith_empty (sep : string) :
  sep <> "" -> Py.startswith "" sep = false.
Proof. destruct sep; [now intros [] | reflexivity]. Qed.

(** [s.split(sep)], by the first occurrence of the separator. *)
Lemma split_pieces (sep : string) :
  sep <> "" ->
  forall s cur,
  Py.pieces true true
    (Py.units (fun t => if Py.startswith t sep then String.length sep else 0) s) cur =
  match Py.split_once sep s with
  | None => [cur ++ s]
  | Some (a, b) => (cur ++ a) :: Py.split sep b
  end.
Proof.
  intros Hsep. unfold Py.split, Py.units.
  induction s as [|c s IH]; intro cur; rewrite split_once_eq.
  - rewrite (startswith_empty sep Hsep). simpl. now rewrite sapp_nil_r.
  - cbn [Py.units_from].
    destruct (Py.startswith (String c s) sep) eqn:P.
    + destruct sep as [|x sep']; [now destruct Hsep |].
      cbn [String.length Py.drop]. rewrite units_from_skip, sapp_nil_r.
      cbn [Py.pieces]. now destruct cur.
    + cbn [Py.pieces]. rewrite IH.
      destruct (Py.split_once sep s) as [[a b]|].
      * now rewrite sapp_assoc.
      * now rewrite sapp_assoc.
Qed.

Lemma split_eq (sep s : string) :
  sep <> "" ->
  Py.split sep s =
  match Py.split_once sep s with
  | None => [s]
  | Some (a, b) => a :: Py.split sep b
  end.
Proof. intro H. unfold Py.split at 1. now rewrite (split_pieces sep H s ""). Qed.

Lemma contains_char_cons (c x : ascii) (s : string) :
  Py.contains (String c "") (String x s) =
  Ascii.eqb c x || Py.contains (String c "") s.
Proof.
  unfold Py.contains. rewrite split_once_eq. cbn [Py.startswith].
  rewrite startswith_nil, andb_true_r.
  destruct (Ascii.eqb c x); [reflexivity |]. simpl.
  now destruct (Py.split_once (String c "") s) as [[a b]|].
Qed.

Lemma contains_char_nil (c : ascii) : Py.contains (String c "") "" = false.
Proof. reflexivity. Qed.

Lemma contains_char_app (c : ascii) (a b : string) :
  Py.contains (String c "") (a ++ b) =
  Py.contains (String c "") a || Py.contains (String c "") b.
Proof.
  induction a as [|x a IH]; [reflexivity |].
  cbn [String.append]. rewrite !contains_char_cons, IH. apply orb_assoc.
Qed.

Lemma count_char_contains (c : ascii) (s : string) :
  count_char c s = 0 <-> Py.contains (String c "") s = false.
Proof.
  induction s as [|x s IH]; [now split |].
  rewrite contains_char_cons. cbn [count_char].
  destruct (Ascii.eqb c x); simpl; [split; [lia | discriminate] | exact IH].
Qed.

Lemma count_char_app (c : ascii) (a b : string) :
  count_char c (a ++ b) = count_char c a + count_char c b.
Proof. induction a as [|x a IH]; simpl; [reflexivity | rewrite IH; lia]. Qed.

(** Splitting on one character gives one part more than there are
    occurrences of the character. *)
Lemma split_char_length (c : ascii) (n : nat) :
  forall s, String.length s <= n ->
  List.length (Py.split (String c "") s) = S (count_char c s).
Proof.
  induction n as [|n IH]; intros s L; rewrite split_eq by discriminate.
  - destruct s; [reflexivity | simpl in L; lia].
  - destruct (Py.split_once (String c "") s) as [[a b]|] eqn:S.
    + pose proof (split_once_Some _ _ _ _ S) as E.
      assert (Ha : count_char c a = 0).
      { apply count_char_contains, contains_not_occurs.
        intros (h & t & Ea).
        pose proof (split_once_first _ _ _ _ S h (t ++ String c "" ++ b)) as F.
        rewrite E, Ea, !sapp_assoc in F. specialize (F eq_refl).
        rewrite !slength_app in F. simpl in F. lia. }
      subst s. rewrite !count_char_app, Ha. cbn [count_char List.length].
      rewrite Ascii.eqb_refl, IH.
      * simpl. lia.
      * rewrite !slength_app in L. simpl in L. lia.
    + simpl. f_equal. symmetry. apply count_char_contains.
      unfold Py.contains. now rewrite S.
Qed.

Lemma take_app_le (n : nat) (a b : string) :
  n <= String.length a -> Py.take n (a ++ b) = Py.take n a.
Proof.
  revert a; induction n as [|n IH]; intros a L; [reflexivity |].
  destruct a as [|x a]; simpl in *; [lia |]. rewrite IH; [reflexivity | lia].
Qed.

Lemma drop_app_le (n : nat) (a b : string) :
  n <= String.length a -> Py.drop n (a ++ b) = Py.drop n a ++ b.
Proof.
  revert a; induction n as [|n IH]; intros a L; [reflexivity |].
  destruct a as [|x a]; simpl in *; [lia |]. apply IH. lia.
Qed.

Lemma take_drop (n : nat) (s : string) : Py.take n s ++ Py.drop n s = s.
Proof.
  revert s; induction n as [|n IH]; intros [|x s]; simpl; trivial.
  now rewrite IH.
Qed.

Lemma length_take (n : nat) (s : string) :
  n <= String.length s -> String.length (Py.take n s) = n.
Proof.
  revert s; induction n as [|n IH]; intros [|x s] L; simpl in *; try lia.
  rewrite IH; lia.
Qed.

Lemma joined_app (l1 l2 : list bytes) :
  joined (l1 ++ l2) = joined l1 ++ joined l2.
Proof.
  induction l1 as [|x l1 IH]; simpl; [reflexivity |].
  now rewrite IH, sapp_assoc.
Qed.

(** A head that is no longer than another head of the same string is a
    head of it. *)
Lemma sapp_prefix (a x b y : string) :
  a ++ x = b ++ y -> String.length b <= String.length a ->
  exists m, a = b ++ m /\ y = m ++ x.
Proof.
  revert x b y. induction a as [|c a IH]; intros x [|d b] y H L; simpl in *;
    try lia.
  - now exists "".
  - now exists (String c a).
  - injection H as -> H. destruct (IH x b y H) as (m & -> & ->); [lia |].
    now exists m.
Qed.

Lemma first_split_unique (sep s h1 t1 h2 t2 : string) :
  first_split sep s h1 t1 -> first_split sep s h2 t2 -> h1 = h2 /\ t1 = t2.
Proof.
  intros F1 F2.
  apply first_split_split_once in F1, F2. rewrite F1 in F2.
  now injection F2.
Qed.

Lemma split_once_first_split (sep s head tail : string) :
  Py.split_once sep s = Some (head, tail) -> first_split sep s head tail.
Proof.
  intro H. split.
  - now apply split_once_Some.
  - now apply (split_once_first sep s head tail).
Qed.

Lemma occurs_first_split (sep s : string) :
  occurs sep s -> exists head tail, first_split sep s head tail.
Proof.
  intro H. apply contains_occurs in H. unfold Py.contains in H.
  destruct (Py.split_once sep s) as [[a b]|] eqn:S; [| discriminate].
  exists a, b. now apply split_once_first_split.
Qed.

Lemma joined_snoc (chunks : list bytes) (b : bytes) :
  joined (chunks ++ [b]) = joined chunks ++ b.
Proof.
  induction chunks as [|x chunks IH]; simpl.
  - apply sapp_nil_r.
  - now rewrite IH, sapp_assoc.
Qed.

Lemma map_RecvData_inj (a b : list bytes) :
  map RecvData a = map RecvData b -> a = b.
Proof.
  revert b; induction a as [|x a IH]; intros [|y b] H; try discriminate;
    [reflexivity |].
  injection H as -> H. now rewrite (IH _ H).
Qed.

(** The first blank line of a stream lies in any head of the stream that
    holds a blank line, at the same place. *)
Lemma first_split_app (sep d r head tail : string) :
  first_split sep d head tail -> first_split sep (d ++ r) head (tail ++ r).
Proof.
  intros [E Hmin]. split.
  - now rewrite E, !sapp_assoc.
  - intros h t Ht.
    destruct (Nat.le_gt_cases (String.length head) (String.length h)) as [|Hlt];
      [assumption |].
    assert (L : String.length (h ++ sep) <= String.length d).
    { rewrite E, !slength_app. lia. }
    rewrite <- sapp_assoc in Ht.
    destruct (sapp_prefix _ _ _ _ Ht L) as (m & Ed & _).
    rewrite sapp_assoc in Ed. apply (Hmin h m Ed).
Qed.

(** ** Reading the head of a request *)

Lemma recv_until_blank_line_eq (fuel : nat) (data : bytes) (inbox : list RecvResult) :
  recv_until_blank_line fuel data inbox =
  if Py.contains BLANK_LINE data then (Found, data, inbox)
  else match fuel with
       | S fuel' =>
           match recv 4096 inbox with
           | (Received EmptyString, rest) => (PeerClosed, data, rest)
           | (Received more, rest) => recv_until_blank_line fuel' (data ++ more) rest
           | (RecvTimedOut, rest) => (TimedOut, data, rest)
           | (RecvFailed, rest) => (Failed, data, rest)
           end
       | O => (Failed, data, inbox)
       end.
Proof. destruct fuel; reflexivity. Qed.

Lemma length_drop (n : nat) :
  forall s, String.length (Py.drop n s) = String.length s - n.
Proof.
  induction n as [|n IH]; intros [|c s]; simpl; try reflexivity; try lia.
  apply IH.
Qed.

(** The log lines of the three methods of [Connection] that format the
    client address alone cannot be formatted. *)
Lemma except_clause_raises (A : Type) (ret : A) (data : bytes) (c : Connection.t) :
  except_clause ret data c = (Raise TypeError, c).
Proof. reflexivity. Qed.

(** One [recv] on a script that starts with a run of bytes: it takes a
    part of the run that is not empty, and leaves the rest of the run,
    if any, at the head of the script. *)
Lemma recv_chunk (k : Z) (b : bytes) (chunks : list bytes) (tail : list RecvResult) :
  (0 < k <= MAXSIZE)%Z -> b <> "" ->
  exists (x : ascii) (more : bytes) (chunks' : list bytes),
    recv k (map RecvData (b :: chunks) ++ tail) =
      (Received (String x more), map RecvData chunks' ++ tail)%list /\
    String x more ++ joined chunks' = b ++ joined chunks /\
    (Z.of_nat (String.length (String x more)) <= k)%Z /\
    (Forall (fun b => b <> "") chunks -> Forall (fun b => b <> "") chunks') /\
    pending (map RecvData chunks' ++ tail) <
      pending (map RecvData (b :: chunks) ++ tail).
Proof.
  intros Hk Hb. unfold recv. cbn [map app].
  replace ((k <? 0)%Z || (MAXSIZE <? k)%Z) with false.
  2:{ symmetry. apply orb_false_iff. split; [apply Z.ltb_ge | apply Z.ltb_ge]; lia. }
  destruct (Z.leb_spec (Z.of_nat (String.length b)) k) as [Hle|Hgt].
  - destruct b as [|x more]; [now destruct Hb |].
    exists x, more, chunks. repeat split; trivial.
    cbn [pending]. lia.
  - assert (Hn : 0 < Z.to_nat k < String.length b) by lia.
    pose proof (take_drop (Z.to_nat k) b) as Hb2.
    pose proof (length_take (Z.to_nat k) b) as Lt.
    pose proof (length_drop (Z.to_nat k) b) as Ld.
    destruct (Py.take (Z.to_nat k) b) as [|x more] eqn:Et.
    { simpl in Lt. lia. }
    exists x, more, (Py.drop (Z.to_nat k) b :: chunks).
    split; [reflexivity |]. split.
    { change (joined (Py.drop (Z.to_nat k) b :: chunks))
        with (Py.drop (Z.to_nat k) b ++ joined chunks).
      now rewrite <- sapp_assoc, Hb2. }
    split; [lia |]. split.
    { intro H. constructor; [| exact H].
      intro E. rewrite E in Ld. simpl in Ld. lia. }
    cbn [map app pending]. lia.
Qed.

(** A [recv] that returns bytes leaves less to come. *)
Lemma recv_pending (k : Z) (inbox rest : list RecvResult) (x : ascii) (more : bytes) :
  recv k inbox = (Received (String x more), rest) -> pending rest < pending inbox.
Proof.
  unfold recv. destruct ((k <? 0)%Z || (MAXSIZE <? k)%Z); [discriminate |].
  destruct inbox as [|[b| |] r]; try discriminate.
  destruct (Z.leb_spec (Z.of_nat (String.length b)) k) as [Hle|Hgt].
  - intros [= -> ->]. cbn [pending]. lia.
  - intros [= Et <-].
    pose proof (length_take (Z.to_nat k) b) as Lt.
    pose proof (length_drop (Z.to_nat k) b) as Ld.
    rewrite Et in Lt. simpl in Lt. cbn [pending]. lia.
Qed.

(** The loop of [read_until_blank_line] does not run out of turns. *)
Lemma recv_until_blank_line_fuel (f1 : nat) :
  forall (f2 : nat) (data : bytes) (inbox : list RecvResult),
  pending inbox < f1 -> pending inbox < f2 ->
  recv_until_blank_line f1 data inbox = recv_until_blank_line f2 data inbox.
Proof.
  induction f1 as [|f1 IH]; intros f2 data inbox H1 H2; [lia |].
  destruct f2 as [|f2]; [lia |].
  rewrite (recv_until_blank_line_eq (S f1)), (recv_until_blank_line_eq (S f2)).
  destruct (Py.contains BLANK_LINE data); [reflexivity |].
  destruct (recv 4096 inbox) as [[[|x more]| |] rest] eqn:R; try reflexivity.
  apply recv_pending in R. apply IH; lia.
Qed.

Lemma occurs_app_r (sep d r : string) : occurs sep d -> occurs sep (d ++ r).
Proof. intros (h & t & ->). exists h, (t ++ r). now rewrite !sapp_assoc. Qed.

(** Once the bytes to come hold a blank line, the loop finds it, whatever
    the sizes of the runs in which they arrive. *)
Lemma recv_until_blank_line_found (fuel : nat) :
  forall (data : bytes) (chunks : list bytes) (tail : list RecvResult),
  pending (map RecvData chunks ++ tail) < fuel ->
  Forall (fun b => b <> "") chunks ->
  occurs BLANK_LINE (data ++ joined chunks) ->
  exists (data' : bytes) (chunks' : list bytes),
    recv_until_blank_line fuel data (map RecvData chunks ++ tail) =
      (Found, data', map RecvData chunks' ++ tail)%list /\
    Forall (fun b => b <> "") chunks' /\
    data' ++ joined chunks' = data ++ joined chunks /\
    occurs BLANK_LINE data'.
Proof.
  induction fuel as [|fuel IH]; intros data chunks tail Hf Hne Hocc; [lia |].
  rewrite recv_until_blank_line_eq.
  destruct (Py.contains BLANK_LINE data) eqn:C.
  - exists data, chunks. apply contains_occurs in C. now repeat split.
  - destruct chunks as [|b chunks].
    { simpl in Hocc. rewrite sapp_nil_r in Hocc.
      apply contains_occurs in Hocc. congruence. }
    inversion Hne as [|? ? Hb Hne']; subst.
    destruct (recv_chunk 4096 b chunks tail) as (x & more & cs & R & J & _ & F & P);
      [unfold MAXSIZE; lia | exact Hb |].
    rewrite R.
    destruct (IH (data ++ String x more) cs tail) as (d' & cs' & R' & F' & J' & O').
    + lia.
    + now apply F.
    + rewrite sapp_assoc, J. exact Hocc.
    + exists d', cs'. repeat split; trivial.
      rewrite J', sapp_assoc, J. reflexivity.
Qed.

(** While the bytes that arrive hold no blank line, the loop takes them
    all. *)
Lemma recv_until_blank_line_short (fuel : nat) :
  forall (data : bytes) (chunks : list bytes) (tail : list RecvResult),
  pending (map RecvData chunks ++ tail) < fuel ->
  Forall (fun b => b <> "") chunks ->
  ~ occurs BLANK_LINE (data ++ joined chunks) ->
  recv_until_blank_line fuel data (map RecvData chunks ++ tail) =
  recv_until_blank_line (S (pending tail)) (data ++ joined chunks) tail.
Proof.
  induction fuel as [|fuel IH]; intros data chunks tail Hf Hne Hno; [lia |].
  destruct chunks as [|b chunks].
  { cbn [map app joined fold_right] in *. rewrite sapp_nil_r.
    apply recv_until_blank_line_fuel; lia. }
  rewrite recv_until_blank_line_eq.
  assert (C : Py.contains BLANK_LINE data = false).
  { apply contains_not_occurs. intro H. apply Hno. now apply occurs_app_r. }
  rewrite C.
  inversion Hne as [|? ? Hb Hne']; subst.
  destruct (recv_chunk 4096 b chunks tail) as (x & more & cs & R & J & _ & F & P);
    [unfold MAXSIZE; lia | exact Hb |].
  rewrite R. rewrite (IH (data ++ String x more) cs tail).
  - now rewrite sapp_assoc, J.
  - lia.
  - now apply F.
  - now rewrite sapp_assoc, J.
Qed.

(** A read changes the script and the leftover data, and nothing else. *)
Lemma read_until_blank_line_frame (c : Connection.t) :
  exists inbox' left,
    snd (read_until_blank_line c) = Connection.after_read inbox' left c.
Proof.
  unfold read_until_blank_line.
  destruct (recv_until_blank_line _ _ _) as [[x data] inbox'].
  destruct x; rewrite ?except_clause_raises; simpl;
    try (do 2 eexists; reflexivity).
  destruct (Py.split_once BLANK_LINE data) as [[h t]|];
    [destruct (Py.decode h) |]; rewrite ?except_clause_raises;
    do 2 eexists; reflexivity.
Qed.

(** The successful read, on the stream of bytes. *)
Lemma read_until_blank_line_found
  (c : Connection.t) (chunks : list bytes) (tail : list RecvResult)
  (head rest : bytes) (text : str) :
  Socket.inbox (Connection.sock c) = (map RecvData chunks ++ tail)%list ->
  Forall (fun b => b <> "") chunks ->
  first_split BLANK_LINE (Connection.leftover_data c ++ joined chunks) head rest ->
  Py.decode head = Some text ->
  exists (left : bytes) (chunks' : list bytes),
    read_until_blank_line c =
      (Ok (inl text), Connection.after_read (map RecvData chunks' ++ tail) left c) /\
    Forall (fun b => b <> "") chunks' /\
    left ++ joined chunks' = rest.
Proof.
  intros Hin Hne Hfs Hdec. unfold read_until_blank_line. rewrite Hin.
  destruct (recv_until_blank_line_found
              (S (pending (map RecvData chunks ++ tail)))
              (Connection.leftover_data c) chunks tail)
    as (d' & cs' & R & F & J & O); [lia | exact Hne | |].
  { destruct Hfs as [Es _]. now exists head, rest. }
  rewrite R.
  destruct (occurs_first_split _ _ O) as (h' & t' & Hfs').
  pose proof (first_split_app _ _ (joined cs') _ _ Hfs') as Hfs2.
  rewrite J in Hfs2.
  destruct (first_split_unique _ _ _ _ _ _ Hfs Hfs2) as [Eh Et].
  subst head rest.
  rewrite (first_split_split_once _ _ _ _ Hfs'), Hdec.
  exists t', cs'. now repeat split.
Qed.

(** The read that the peer cuts short, on the stream of bytes. *)
Lemma read_until_blank_line_closed
  (c : Connection.t) (chunks : list bytes) (closing : list RecvResult) :
  Socket.inbox (Connection.sock c) = (map RecvData chunks ++ closing)%list ->
  Forall (fun b => b <> "") chunks ->
  closing = [] \/ (exists rest, closing = RecvData "" :: rest) ->
  ~ occurs BLANK_LINE (Connection.leftover_data c ++ joined chunks) ->
  read_until_blank_line c =
  (Raise TypeError,
   Connection.after_read (tl closing) (Connection.leftover_data c) c).
Proof.
  intros Hin Hne Hclosing Hno. unfold read_until_blank_line. rewrite Hin.
  rewrite recv_until_blank_line_short; [| lia | exact Hne | exact Hno].
  rewrite recv_until_blank_line_eq.
  apply contains_not_occurs in Hno. rewrite Hno.
  destruct Hclosing as [-> | (rest & ->)]; reflexivity.
Qed.

(** C6, where the code departs from it.  On success the method does what
    the claim says: once the leftover data and the bytes that arrive
    hold a blank line, it returns the bytes before the first one, decoded,
    drops the blank line, and keeps what follows it (the new leftover
    data, then the bytes not yet taken from the socket).  But when the
    peer closes before a blank line has arrived, the method does not
    return [ERR_SOCKET_WAS_CLOSED]: formatting the log line raises
    [TypeError], which leaves the method, and the bytes received are not
    stored: the leftover data is as it was before the call. *)
Theorem read_until_blank_line_peer_closed_raises
  (c : Connection.t) (chunks : list bytes) (closing : list RecvResult) :
  Socket.inbox (Connection.sock c) = (map RecvData chunks ++ closing)%list ->
  Forall (fun b => b <> "") chunks ->
  closing = [] \/ (exists rest, closing = RecvData "" :: rest) ->
  let r := read_until_blank_line c in
  (forall (head rest : bytes) (text : str),
     first_split BLANK_LINE (stream c chunks) head rest ->
     Py.decode head = Some text ->
     fst r = Ok (inl text) /\
     exists chunks' : list bytes,
       Socket.inbox (Connection.sock (snd r)) = (map RecvData chunks' ++ closing)%list /\
       Connection.leftover_data (snd r) ++ joined chunks' = rest) /\
  (~ occurs BLANK_LINE (stream c chunks) ->
     fst r = Raise TypeError /\
     fst r <> Ok (inr ERR_SOCKET_WAS_CLOSED) /\
     Connection.leftover_data (snd r) = Connection.leftover_data c /\
     Socket.inbox (Connection.sock (snd r)) = tl closing).
Proof.
  intros Hin Hne Hclosing. cbv zeta. unfold stream. split.
  - intros head rest text Hfs Hdec.
    destruct (read_until_blank_line_found c chunks closing head rest text
                Hin Hne Hfs Hdec) as (left & cs' & R & _ & J).
    rewrite R. split; [reflexivity |]. exists cs'. now split.
  - intro Hno.
    rewrite (read_until_blank_line_closed c chunks closing Hin Hne Hclosing Hno).
    repeat split. discriminate.
Qed.

(** A client that sends the start of a request line and goes away; and
    one whose head arrives in three pieces, the first already in the
    buffer, followed by the start of the next request. *)
Lemma read_until_blank_line_peer_closed_raises_witness :
  let c := new_connection [RecvData "GET / HT"; RecvData "TP"; RecvData ""] 0%float in
  let c2 := Connection.mk
              (Socket.mk [RecvData ("TP/1.1" ++ CRLF); RecvData (CRLF ++ "GET /next")] [] 0)
              "GET / HT" 0 0%float 0%float in
  (fst (read_until_blank_line c) = Raise TypeError /\
   fst (read_until_blank_line c) <> Ok (inr ERR_SOCKET_WAS_CLOSED) /\
   Connection.leftover_data (snd (read_until_blank_line c)) = "" /\
   Socket.inbox (Connection.sock (snd (read_until_blank_line c))) = []) /\
  (fst (read_until_blank_line c2) = Ok (inl "GET / HTTP/1.1") /\
   exists chunks' : list bytes,
     Socket.inbox (Connection.sock (snd (read_until_blank_line c2))) =
       (map RecvData chunks' ++ [])%list /\
     Connection.leftover_data (snd (read_until_blank_line c2)) ++ joined chunks' =
       "GET /next").
Proof.
  cbv zeta. split.
  - refine (proj2 (read_until_blank_line_peer_closed_raises
              (new_connection [RecvData "GET / HT"; RecvData "TP"; RecvData ""] 0%float)
              ["GET / HT"; "TP"] [RecvData ""] eq_refl _ _) _).
    + repeat constructor; discriminate.
    + right. now exists [].
    + apply contains_not_occurs. reflexivity.
  - refine (proj1 (read_until_blank_line_peer_closed_raises
              (Connection.mk
                 (Socket.mk [RecvData ("TP/1.1" ++ CRLF); RecvData (CRLF ++ "GET /next")] [] 0)
                 "GET / HT" 0 0%float 0%float)
              ["TP/1.1" ++ CRLF; CRLF ++ "GET /next"] [] eq_refl _ _)
              "GET / HTTP/1.1" "GET /next" "GET / HTTP/1.1" _ eq_refl).
    + repeat constructor; discriminate.
    + now left.
    + apply split_once_first_split. reflexivity.
Defined.

(** ** Writing a response *)

(** What [send_http_response] does, in one equation: it never raises, it
    counts an error unless the status starts with "200 ", it reads the
    clock once (twice with cookies), and it writes the head and the body. *)
Lemma send_http_response_run (E : Env) (resp : Response.t) (w : World) :
  send_http_response E resp w =
  (Ok tt,
   mkWorld
     (if Py.startswith (Response.code resp) "200 " then stats w
      else Statistics.error_observed (stats w))
     (Connection.with_sock
        (Socket.mk (Socket.inbox (Connection.sock (conn w)))
                   (Socket.sent (Connection.sock (conn w)) ++
                    response_writes E resp (ticks w))%list
                   (Socket.close_calls (Connection.sock (conn w))))
        (conn w))
     (match Response.cookies resp with
      | Some _ => S (S (ticks w))
      | None => S (ticks w)
      end)).
Proof.
  destruct w as [st [[inb snt cl] left n t0 t1] tk].
  destruct resp as [code mime body cookies].
  unfold send_http_response, response_writes, response_head, content_part,
    bind, ret, with_stats, time_time, sendall, with_conn, set_conn,
    Connection.with_sock, Socket.sendall; simpl.
  destruct (Py.startswith code "200 "); simpl;
    destruct cookies as [cs|]; simpl;
    destruct mime as [m|]; simpl;
    rewrite <- ?app_assoc; reflexivity.
Qed.

Lemma digits_value_string_of_uint (d : Decimal.uint) :
  forall acc : nat,
  digits_value acc (DecimalString.NilEmpty.string_of_uint d) =
  Some (Nat.of_uint_acc d acc).
Proof.
  induction d; intro acc; cbn [DecimalString.NilEmpty.string_of_uint Nat.of_uint_acc];
    [reflexivity | ..];
    (match goal with
     | |- digits_value _ (String ?c _) = _ =>
         change (digits_value acc (String c (DecimalString.NilEmpty.string_of_uint d)))
           with (digits_value (10 * acc + (byte_val c - 48))
                   (DecimalString.NilEmpty.string_of_uint d))
     end);
    rewrite IHd, Nat.tail_mul_spec; do 2 f_equal;
    match goal with
    | |- context [byte_val ?c - 48] =>
        let v := eval vm_compute in (byte_val c - 48) in
        change (byte_val c - 48) with v
    end; lia.
Qed.

(** [str(n)] writes [n] in decimal digits. *)
Lemma decimal_value_str_of_nat (n : nat) :
  decimal_value (Py.str_of_nat n) = Some n.
Proof.
  unfold Py.str_of_nat.
  pose proof (DecimalNat.Unsigned.of_to n) as H. unfold Nat.of_uint in H.
  assert (A : forall d, d <> Decimal.Nil ->
            decimal_value (DecimalString.NilEmpty.string_of_uint d) =
            digits_value 0 (DecimalString.NilEmpty.string_of_uint d)).
  { intros d Hd. destruct d; [now destruct Hd | reflexivity ..]. }
  rewrite A, digits_value_string_of_uint, H; [reflexivity |].
  intro E. rewrite E in H. simpl in H. subst n. discriminate E.
Qed.

(** C7.  The content part of every response.  Without a mime type the
    head ends with "Content-Length: 0" and the blank line, and the head
    is all that is sent.  With one, the body is made of bytes ([bytes]
    as they are, a [str] in its encoded form, anything else as [str()]
    renders it), the head ends with the Content-Type header, a
    Content-Length header whose value is a decimal numeral of the number
    of those bytes, and the blank line, and the body is sent after the
    head. *)
Theorem send_http_response_content (E : Env) (resp : Response.t) (w : World) :
  exists date cookie_part length_text : str,
    let pre := "HTTP/1.1 " ++ Response.code resp ++ CRLF ++
               "Server: csci356" ++ CRLF ++
               "Date: " ++ date ++ CRLF ++ cookie_part in
    let body := coerced (Response.body resp) in
    let w' := snd (send_http_response E resp w) in
    fst (send_http_response E resp w) = Ok tt /\
    Socket.sent (Connection.sock (conn w')) =
      (Socket.sent (Connection.sock (conn w)) ++
       match Response.mime_type resp with
       | None => [(pre ++ "Content-Length: 0" ++ CRLF ++ CRLF)%string]
       | Some mime =>
           [(pre ++ "Content-Type: " ++ mime ++ CRLF ++
             "Content-Length: " ++ length_text ++ CRLF ++ CRLF)%string;
            body]
       end)%list /\
    decimal_value length_text = Some (String.length body).
Proof.
  exists (strftime_gmt E (clock E (ticks w))).
  exists (match Response.cookies resp with
          | Some cookies =>
              cookie_lines
                (strftime_gmt E (PrimFloat.add (clock E (S (ticks w)))
                                               (float_of_int 604800)))
                cookies
          | None => ""
          end).
  exists (Py.str_of_nat (String.length (coerced (Response.body resp)))).
  rewrite send_http_response_run.
  split; [reflexivity |]. split; [| apply decimal_value_str_of_nat].
  assert (B : body_bytes (Response.body resp) = coerced (Response.body resp))
    by now destruct (Response.body resp).
  unfold response_writes, response_head, content_part, Py.encode; simpl.
  rewrite B.
  destruct (Response.cookies resp) as [cs|];
    destruct (Response.mime_type resp) as [m|]; simpl;
    rewrite ?sapp_assoc, ?sapp_nil_r; simpl; rewrite ?sapp_assoc; reflexivity.
Qed.

(** C3, as the code has it.  Every response adds to the error counter
    one, exactly, when its status does not start with "200 " (the code 200
    and a space), and nothing when it does; no other counter changes. *)
Theorem send_http_response_counts_error (E : Env) (resp : Response.t) (w : World) :
  let s := stats w in
  let s' := stats (snd (send_http_response E resp w)) in
  Statistics.num_errors s' =
    (Statistics.num_errors s +
     (if Py.startswith (Response.code resp) "200 " then 0 else 1))%Z /\
  Statistics.total_connections s' = Statistics.total_connections s /\
  Statistics.active_connections s' = Statistics.active_connections s /\
  Statistics.num_requests s' = Statistics.num_requests s /\
  Statistics.tot_time s' = Statistics.tot_time s /\
  Statistics.avg_time s' = Statistics.avg_time s /\
  Statistics.max_time s' = Statistics.max_time s.
Proof.
  rewrite send_http_response_run. simpl.
  destruct (Py.startswith (Response.code resp) "200 "); simpl;
    repeat split; lia.
Qed.

(** C3 as stated fails: the status "204 NO CONTENT" is a 2xx status, and
    a response that carries it is counted as an error. *)
Lemma send_http_response_counts_204 :
  status_is_2xx "204 NO CONTENT" = true /\
  Statistics.num_errors
    (stats (snd (send_http_response sample_env
                   (Response.make "204 NO CONTENT" None BodyNone)
                   (new_world Statistics.init [])))) = 1%Z.
Proof. split; reflexivity. Qed.

(** ** Cookies *)

(** The two lookups the specification gives as examples. *)
Example get_cookie_named :
  get_cookie ["Cookie: a=1; b=2"] "b" = Ok (Some "2") /\
  get_cookie ["Cookie: a=1; b=2"] "c" = Ok None /\
  get_cookie ["Host: example.org"] "b" = Ok None.
Proof. repeat split. Qed.

(** A segment with "=" gives a name, trimmed on the right, and a value,
    trimmed on the left; the first segment whose name is the one looked
    for decides. *)
Lemma get_cookie_loop_named (k v name : str) (rest : list str) :
  Py.contains "=" k = false ->
  get_cookie_loop ((k ++ "=" ++ v) :: rest) name =
  if String.eqb (Py.rstrip k) name then Ok (Some (Py.lstrip v))
  else get_cookie_loop rest name.
Proof.
  intro Hk. cbn [get_cookie_loop].
  now rewrite (split_once_char "="%char k v Hk).
Qed.

(** C2, where the code departs from it: a segment without "=" is not
    filed under the empty name.  [keyval] is then a list, the call
    [keyval.lstrip()] raises [AttributeError], and the lookup fails
    whatever the name, even when a later segment carries it. *)
Theorem get_cookie_unnamed_segment_raises :
  get_cookie ["Cookie: abc"] "" = Raise AttributeError /\
  get_cookie ["Cookie: abc; b=2"] "b" = Raise AttributeError /\
  forall (seg name : str) (rest : list str),
    Py.contains "=" seg = false ->
    get_cookie_loop (seg :: rest) name = Raise AttributeError.
Proof.
  repeat split.
  intros seg name rest H. simpl.
  unfold Py.contains in H.
  now destruct (Py.split_once "=" seg).
Qed.

(** ** One request *)

Lemma read_amount_frame (n : Z) (c : Connection.t) :
  exists inbox' left, snd (read_amount n c) = Connection.after_read inbox' left c.
Proof.
  unfold read_amount.
  destruct (recv_amount _ _ _ _) as [[x data] inbox'].
  destruct x; rewrite ?except_clause_raises; simpl;
    try (do 2 eexists; reflexivity).
  destruct (Py.decode _); rewrite ?except_clause_raises;
    do 2 eexists; reflexivity.
Qed.

(** [handle_one_http_request], by the cases of the head. *)
Lemma handle_one_http_request_eq (E : Env) (w : World) :
  handle_one_http_request E w =
  match read_until_blank_line (conn w) with
  | (Raise e, c1) => (Raise e, mkWorld (stats w) c1 (ticks w))
  | (Ok (inr _), c1) => (Ok tt, mkWorld (stats w) c1 (ticks w))
  | (Ok (inl data), c1) =>
      match Py.splitlines data with
      | [] => send_http_response E NO_REQUEST_LINE (head_read E w c1)
      | request_line :: headers =>
          match Py.split_ws request_line with
          | [method; raw_path; version] =>
              dispatch_request E method raw_path version headers (head_read E w c1)
          | _ => send_http_response E MALFORMED_REQUEST_LINE (head_read E w c1)
          end
      end
  end.
Proof.
  unfold handle_one_http_request, bind, on_conn.
  destruct (read_until_blank_line (conn w)) as [[[data|err]|e] c1];
    [| reflexivity | reflexivity].
  unfold time_time, with_conn, set_conn, head_read; simpl.
  destruct (Py.splitlines data) as [|l hs]; [reflexivity |].
  destruct (Py.split_ws l) as [|a [|b [|c [|d r]]]]; reflexivity.
Qed.

(** Text that decodes is not changed by decoding with replacement. *)
Lemma decode_replace_from_valid (s : string) :
  forall skip : nat,
  forallb fst (Py.units_from Py.utf8_char_len skip s) = true ->
  Py.decode_replace_from skip s = Py.drop skip s.
Proof.
  induction s as [|c s IH]; intros skip H; [now destruct skip |].
  cbn [Py.decode_replace_from Py.units_from] in *.
  destruct skip as [|k]; [| cbn [Py.drop]; now apply IH].
  destruct (Py.utf8_char_len (String c s)) as [|k] eqn:L.
  - cbn [forallb fst] in H. discriminate H.
  - cbn [forallb fst andb] in H. rewrite (IH k H).
    change (Py.drop k s) with (Py.drop (S k) (String c s)).
    now rewrite take_drop.
Qed.

Lemma decode_replace_valid (b : bytes) (text : str) :
  Py.decode b = Some text -> Py.decode_replace b = text.
Proof.
  unfold Py.decode, Py.decode_replace, Py.units.
  destruct (forallb fst (Py.units_from Py.utf8_char_len 0 b)) eqn:V; [| discriminate].
  intros [= <-]. now rewrite (decode_replace_from_valid b 0 V).
Qed.

Lemma hex_val_ascii (h : ascii) (a : nat) :
  Py.hex_val h = Some a -> (byte_val h <? 128) = true.
Proof.
  unfold Py.hex_val, Py.in_range. cbv zeta.
  destruct ((48 <=? byte_val h) && (byte_val h <=? 57)) eqn:D.
  { intros _. apply andb_true_iff in D as [_ D]. apply Nat.leb_le in D.
    apply Nat.ltb_lt. lia. }
  destruct ((65 <=? byte_val h) && (byte_val h <=? 70)) eqn:U.
  { intros _. apply andb_true_iff in U as [_ U]. apply Nat.leb_le in U.
    apply Nat.ltb_lt. lia. }
  destruct ((97 <=? byte_val h) && (byte_val h <=? 102)) eqn:W; [| discriminate].
  intros _. apply andb_true_iff in W as [_ W]. apply Nat.leb_le in W.
  apply Nat.ltb_lt. lia.
Qed.

Lemma hex_val_not (h x : ascii) (a : nat) :
  Py.hex_val h = Some a -> byte_val x = 63 \/ byte_val x = 37 -> Ascii.eqb x h = false.
Proof.
  intros H Hx. destruct (Ascii.eqb_spec x h) as [<-|]; [| reflexivity].
  exfalso. revert H. unfold Py.hex_val, Py.in_range. cbv zeta.
  destruct Hx as [-> | ->]; discriminate.
Qed.

(** The runs of ASCII characters of a well-formed raw path are the whole
    path. *)
Lemma unquote_runs_items (items : list PathItem) :
  forall run : string,
  forallb item_ok items = true ->
  Py.unquote_runs run (raw_of items) =
  Py.decode_replace (Py.unquote_to_bytes (run ++ raw_of items)).
Proof.
  induction items as [|[c|h1 h2] items IH]; intros run H.
  - simpl. now rewrite sapp_nil_r.
  - cbn [forallb item_ok] in H.
    apply andb_true_iff in H as [Hc H].
    apply andb_true_iff in Hc as [Hc _]. apply andb_true_iff in Hc as [Hc _].
    cbn [raw_of fold_right written String.append Py.unquote_runs].
    fold (raw_of items). rewrite Hc, (IH _ H), sapp_assoc. reflexivity.
  - cbn [forallb item_ok] in H. apply andb_true_iff in H as [Hh H].
    destruct (Py.hex_val h1) as [a|] eqn:H1; [| discriminate Hh].
    destruct (Py.hex_val h2) as [b|] eqn:H2; [| discriminate Hh].
    cbn [raw_of fold_right written String.append Py.unquote_runs].
    fold (raw_of items).
    change (byte_val "%" <? 128) with true. cbv iota.
    rewrite (hex_val_ascii h1 a H1), (hex_val_ascii h2 b H2), (IH _ H).
    rewrite !sapp_assoc. reflexivity.
Qed.

(** Unquoting a well-formed raw path gives the bytes that its items
    stand for. *)
Lemma unquote_to_bytes_items (items : list PathItem) :
  forallb item_ok items = true ->
  Py.unquote_to_bytes (raw_of items) = bytes_of items.
Proof.
  induction items as [|[c|h1 h2] items IH]; intro H; [reflexivity | |].
  - cbn [forallb item_ok] in H.
    apply andb_true_iff in H as [Hc H].
    apply andb_true_iff in Hc as [Hc _]. apply andb_true_iff in Hc as [_ Hc].
    apply negb_true_iff in Hc.
    cbn [raw_of bytes_of fold_right written denoted String.append Py.unquote_to_bytes].
    fold (raw_of items). fold (bytes_of items). now rewrite Hc, (IH H).
  - cbn [forallb item_ok] in H. apply andb_true_iff in H as [Hh H].
    cbn [raw_of bytes_of fold_right written denoted String.append Py.unquote_to_bytes].
    fold (raw_of items). fold (bytes_of items).
    change (Ascii.eqb "%" "%") with true. cbv iota.
    destruct (Py.hex_val h1) as [a|]; [| discriminate Hh].
    destruct (Py.hex_val h2) as [b|]; [| discriminate Hh].
    now rewrite (IH H).
Qed.

(** Without a "%", a raw path stands for itself. *)
Lemma raw_of_plain (items : list PathItem) :
  Py.contains "%" (raw_of items) = false -> raw_of items = bytes_of items.
Proof.
  induction items as [|[c|h1 h2] items IH]; intro H; [reflexivity | |].
  - cbn [raw_of bytes_of fold_right written denoted String.append] in *.
    fold (raw_of items) in *. fold (bytes_of items).
    rewrite contains_char_cons in H. apply orb_false_iff in H as [_ H].
    now rewrite (IH H).
  - cbn [raw_of fold_right written String.append] in H.
    rewrite contains_char_cons in H. discriminate H.
Qed.

Lemma raw_of_no_question (items : list PathItem) :
  forallb item_ok items = true -> Py.contains "?" (raw_of items) = false.
Proof.
  induction items as [|[c|h1 h2] items IH]; intro H; [reflexivity | |].
  - cbn [forallb item_ok] in H.
    apply andb_true_iff in H as [Hc H].
    apply andb_true_iff in Hc as [_ Hc]. apply negb_true_iff in Hc.
    cbn [raw_of fold_right written String.append]. fold (raw_of items).
    rewrite contains_char_cons, (IH H), orb_false_r.
    now rewrite Ascii.eqb_sym.
  - cbn [forallb item_ok] in H. apply andb_true_iff in H as [Hh H].
    destruct (Py.hex_val h1) as [a|] eqn:H1; [| discriminate Hh].
    destruct (Py.hex_val h2) as [b|] eqn:H2; [| discriminate Hh].
    cbn [raw_of fold_right written String.append]. fold (raw_of items).
    rewrite !contains_char_cons, (IH H).
    rewrite (hex_val_not h1 "?" a H1), (hex_val_not h2 "?" b H2);
      [reflexivity | now left | now left].
Qed.

Lemma unquote_items (items : list PathItem) (text : str) :
  forallb item_ok items = true ->
  Py.decode (bytes_of items) = Some text ->
  Py.unquote (raw_of items) = text.
Proof.
  intros H D. unfold Py.unquote.
  destruct (Py.contains "%" (raw_of items)) eqn:P.
  - rewrite (unquote_runs_items items "" H). cbn [String.append].
    rewrite (unquote_to_bytes_items items H). now apply decode_replace_valid.
  - rewrite (raw_of_plain items P). unfold Py.decode in D.
    destruct (forallb fst _); [now injection D | discriminate D].
Qed.

(** C5.  The path of a request: a raw path with a "?" is cut at the first
    one, only what stands before it is unquoted, and the "?" and the rest
    are put back as they were; a raw path without "?" is unquoted whole.
    Unquoting is percent-decoding: in a path written in ASCII characters
    and escapes ("%" and two hexadecimal digits), each escape becomes the
    byte it denotes and the bytes are decoded as text; the escapes of the
    query string stay as they are.  So "/a%20b%3Fc?d=%20e" gives
    "/a b?c?d=%20e"; the raw path "/x?y=1%20z" stays "/x?y=1%20z", and
    that is the path the handler of the request is given. *)
Theorem request_path_spec :
  (forall before after : str,
     Py.contains "?" before = false ->
     request_path (before ++ "?" ++ after) = Py.unquote before ++ "?" ++ after) /\
  (forall raw : str,
     Py.contains "?" raw = false -> request_path raw = Py.unquote raw) /\
  (forall (items : list PathItem) (text query : str),
     forallb item_ok items = true ->
     Py.decode (bytes_of items) = Some text ->
     text = bytes_of items /\
     request_path (raw_of items ++ "?" ++ query) = text ++ "?" ++ query /\
     request_path (raw_of items) = text) /\
  request_path "/a%20b%3Fc?d=%20e" = "/a b?c?d=%20e" /\
  request_path "/%41%2f%7E" = "/A/~" /\
  request_path "/100%?%41" = "/100%?%41" /\
  request_path "/x?y=1%20z" = "/x?y=1%20z" /\
  forall (E : Env) (w : World),
    Socket.inbox (Connection.sock (conn w)) =
      [RecvData ("GET /x?y=1%20z HTTP/1.1" ++ CRLF ++ "Host: a" ++ BLANK_LINE)] ->
    Connection.leftover_data (conn w) = "" ->
    let w1 := head_read E w (Connection.after_read [] "" (conn w)) in
    handle_one_http_request E w =
    send_http_response E (handle_http_get_file E "/x?y=1%20z" w1) w1.
Proof.
  assert (A : forall before after : str,
            Py.contains "?" before = false ->
            request_path (before ++ "?" ++ after) = Py.unquote before ++ "?" ++ after).
  { intros before after H. unfold request_path.
    pose proof (split_once_char "?"%char before after H) as S.
    unfold Py.contains. change (String "?" "") with "?" in S.
    now rewrite S. }
  assert (B : forall raw : str,
            Py.contains "?" raw = false -> request_path raw = Py.unquote raw).
  { intros raw H. unfold request_path. now rewrite H. }
  split; [exact A |]. split; [exact B |]. split; [| split; [| split; [| split; [| split]]]].
  - intros items text query H D.
    pose proof (raw_of_no_question items H) as Q.
    rewrite (A _ _ Q), (B _ Q), (unquote_items items text H D).
    split; [| now split].
    unfold Py.decode in D. destruct (forallb fst _); [now injection D | discriminate D].
  - vm_compute. reflexivity.
  - vm_compute. reflexivity.
  - vm_compute. reflexivity.
  - vm_compute. reflexivity.
  - intros E [st [[inb snt cl] left n t0 t1] tk] Hin Hleft. simpl in Hin, Hleft.
    subst inb left.
    rewrite handle_one_http_request_eq. reflexivity.
Qed.

(** C4.  A head without any line, or whose first line is not made of
    exactly three words: the request is answered with a "400 BAD REQUEST"
    response and nothing else is done.  No body is read (the script and
    the leftover data stay as the read of the head left them), no handler
    and no integer parser is called (any others give the same run), and
    the error counter goes up by one. *)
Theorem malformed_head_gets_400
  (E : Env) (w : World) (data : str) (c1 : Connection.t) :
  read_until_blank_line (conn w) = (Ok (inl data), c1) ->
  (Py.splitlines data = [] \/
   exists request_line headers,
     Py.splitlines data = request_line :: headers /\
     List.length (Py.split_ws request_line) <> 3) ->
  exists resp,
    Py.startswith (Response.code resp) "400 " = true /\
    handle_one_http_request E w = send_http_response E resp (head_read E w c1) /\
    let w' := snd (handle_one_http_request E w) in
    fst (handle_one_http_request E w) = Ok tt /\
    Statistics.num_errors (stats w') = (Statistics.num_errors (stats w) + 1)%Z /\
    Socket.inbox (Connection.sock (conn w')) = Socket.inbox (Connection.sock c1) /\
    Connection.leftover_data (conn w') = Connection.leftover_data c1 /\
    Socket.sent (Connection.sock (conn w')) =
      (Socket.sent (Connection.sock (conn w)) ++
       response_writes E resp (S (ticks w)))%list /\
    forall pi h1 h2 h3 h4,
      handle_one_http_request
        (mkEnv (clock E) (strftime_gmt E) pi h1 h2 h3 h4) w =
      handle_one_http_request E w.
Proof.
  intros Hread Hbad.
  assert (Hsent : Socket.sent (Connection.sock c1) =
                  Socket.sent (Connection.sock (conn w))).
  { destruct (read_until_blank_line_frame (conn w)) as (i & l & F).
    rewrite Hread in F. simpl in F. now subst c1. }
  assert (Hcase :
    exists resp,
      (resp = NO_REQUEST_LINE \/ resp = MALFORMED_REQUEST_LINE) /\
      forall E', handle_one_http_request E' w =
                 send_http_response E' resp (head_read E' w c1)).
  { destruct Hbad as [Hnil | (l & hs & Hl & Hw)].
    - exists NO_REQUEST_LINE. split; [now left |].
      intro E'. now rewrite handle_one_http_request_eq, Hread, Hnil.
    - exists MALFORMED_REQUEST_LINE. split; [now right |].
      intro E'. rewrite handle_one_http_request_eq, Hread, Hl.
      destruct (Py.split_ws l) as [|a [|b [|c [|d r]]]]; try reflexivity.
      now destruct Hw. }
  destruct Hcase as (resp & Hresp & Hrun).
  exists resp.
  assert (Hcode : Py.startswith (Response.code resp) "200 " = false)
    by (destruct Hresp; subst resp; reflexivity).
  split; [destruct Hresp; subst resp; reflexivity |].
  split; [apply Hrun |].
  cbv zeta. rewrite (Hrun E), send_http_response_run, Hcode. simpl.
  repeat split; try (now rewrite Hsent).
  intros pi h1 h2 h3 h4.
  rewrite Hrun, send_http_response_run, Hcode. reflexivity.
Qed.

(** The request line "GET /foo" has two words. *)
Lemma malformed_head_gets_400_witness :
  let w := new_world Statistics.init [RecvData ("GET /foo" ++ BLANK_LINE)] in
  exists resp,
    Py.startswith (Response.code resp) "400 " = true /\
    handle_one_http_request sample_env w =
      send_http_response sample_env resp
        (head_read sample_env w (Connection.after_read [] "" (conn w))) /\
    let w' := snd (handle_one_http_request sample_env w) in
    fst (handle_one_http_request sample_env w) = Ok tt /\
    Statistics.num_errors (stats w') = 1%Z /\
    Socket.inbox (Connection.sock (conn w')) = [] /\
    Connection.leftover_data (conn w') = "" /\
    Socket.sent (Connection.sock (conn w')) =
      response_writes sample_env resp 1 /\
    forall pi h1 h2 h3 h4,
      handle_one_http_request
        (mkEnv (clock sample_env) (strftime_gmt sample_env) pi h1 h2 h3 h4) w =
      handle_one_http_request sample_env w.
Proof.
  refine (malformed_head_gets_400 sample_env
           (new_world Statistics.init [RecvData ("GET /foo" ++ BLANK_LINE)])
           "GET /foo"
           (Connection.after_read [] ""
              (conn (new_world Statistics.init [RecvData ("GET /foo" ++ BLANK_LINE)])))
           eq_refl _).
  right. exists "GET /foo", []. split; [reflexivity |].
  vm_compute. discriminate.
Defined.

(** ** One connection *)

Lemma request_frame_refl (w : World) : request_frame w w.
Proof. unfold request_frame. tauto. Qed.

Lemma request_frame_trans (a b c : World) :
  request_frame a b -> request_frame b c -> request_frame a c.
Proof.
  unfold request_frame.
  intros (A1 & A2 & A3 & A4 & A5 & A6 & A7 & A8)
         (B1 & B2 & B3 & B4 & B5 & B6 & B7 & B8).
  repeat split; congruence.
Qed.

Lemma send_http_response_frame (E : Env) (resp : Response.t) (w : World) :
  request_frame w (snd (send_http_response E resp w)).
Proof.
  rewrite send_http_response_run. unfold request_frame; simpl.
  destruct (Py.startswith _ _); simpl; tauto.
Qed.

Lemma only_read_refl (w : World) : only_read w w.
Proof. unfold only_read. tauto. Qed.

Lemma only_read_trans (a b c : World) :
  only_read a b -> only_read b c -> only_read a c.
Proof.
  unfold only_read. intros (A1 & A2 & A3 & A4) (B1 & B2 & B3 & B4).
  repeat split; congruence.
Qed.

Lemma only_read_frame (w w1 : World) : only_read w w1 -> request_frame w w1.
Proof.
  unfold only_read, request_frame. intros (-> & _ & H3 & H4). tauto.
Qed.

Lemma only_read_after_read (w : World) (c1 : Connection.t) (tk : nat) :
  (exists i l, c1 = Connection.after_read i l (conn w)) ->
  only_read w (mkWorld (stats w) c1 tk).
Proof. intros (i & l & ->). unfold only_read; simpl. tauto. Qed.

Lemma only_read_head_read (E : Env) (w : World) (c1 : Connection.t) :
  (exists i l, c1 = Connection.after_read i l (conn w)) ->
  only_read w (head_read E w c1).
Proof. intros (i & l & ->). unfold only_read, head_read; simpl. tauto. Qed.

(** What [dispatch_request] does, in two cases: it reads, then sends one
    response; or it reads, then raises. *)
Lemma dispatch_request_cases (E : Env) (m p v : str) (hs : list str) (w : World) :
  (exists resp w1,
     only_read w w1 /\
     dispatch_request E m p v hs w = send_http_response E resp w1) \/
  (exists e w1,
     only_read w w1 /\ dispatch_request E m p v hs w = (Raise e, w1)).
Proof.
  pose (cases := fun x : result unit * World =>
          (exists resp w1, only_read w w1 /\ x = send_http_response E resp w1) \/
          (exists e w1, only_read w w1 /\ x = (Raise e, w1))).
  change (cases (dispatch_request E m p v hs w)).
  unfold dispatch_request.
  destruct (match get_header_value hs "Transfer-Encoding" with
            | Some v0 => String.eqb v0 "chunked" | None => false end).
  { left. do 2 eexists. split; [apply only_read_refl | reflexivity]. }
  match goal with
  | |- cases (bind _ ?k w) =>
      assert (G : forall req w2, only_read w w2 -> cases (k req w2))
  end.
  { intros req w2 R. unfold bind, ret, handle_http_get, time_time.
    destruct (String.eqb (Request.method req) "GET").
    - destruct (String.eqb (Request.path req) "/status").
      + left. do 2 eexists. split; [| reflexivity].
        eapply only_read_trans; [exact R |]. unfold only_read; simpl; tauto.
      + destruct (String.eqb (Request.path req) "/hello").
        * left. do 2 eexists. split; [exact R | reflexivity].
        * destruct (String.eqb (Request.path req) "/quote").
          -- destruct (handle_http_get_quote E w2).
             ++ left. do 2 eexists. split; [exact R | reflexivity].
             ++ right. do 2 eexists. split; [exact R | reflexivity].
          -- left. do 2 eexists. split; [exact R | reflexivity].
    - destruct (String.eqb (Request.method req) "POST"
                || String.eqb (Request.method req) "PUT");
        left; do 2 eexists; (split; [exact R | reflexivity]). }
  unfold bind at 1.
  destruct (get_header_value hs "Content-Length") as [n|].
  - destruct (py_int E n) as [len|].
    + unfold bind at 1, on_conn.
      destruct (read_amount_frame len (conn w)) as (i & l & F).
      destruct (read_amount len (conn w)) as [[body|e] c2]; simpl in F; subst c2.
      * apply G. apply only_read_after_read. eauto.
      * right. do 2 eexists. split; [| reflexivity].
        apply only_read_after_read. eauto.
    + right. do 2 eexists. split; [apply only_read_refl | reflexivity].
  - apply G. apply only_read_refl.
Qed.

(** Likewise for [handle_one_http_request], which may also return
    without a response. *)
Lemma handle_one_http_request_cases (E : Env) (w : World) :
  (exists resp w1,
     only_read w w1 /\
     handle_one_http_request E w = send_http_response E resp w1) \/
  (exists r w1, only_read w w1 /\ handle_one_http_request E w = (r, w1)).
Proof.
  rewrite handle_one_http_request_eq.
  destruct (read_until_blank_line_frame (conn w)) as (i & l & F).
  destruct (read_until_blank_line (conn w)) as [[[data|err]|e] c1];
    simpl in F; subst c1.
  - assert (R : only_read w (head_read E w (Connection.after_read i l (conn w))))
      by (apply only_read_head_read; eauto).
    destruct (Py.splitlines data) as [|rl hs].
    { left. do 2 eexists. split; [exact R | reflexivity]. }
    destruct (Py.split_ws rl) as [|a [|b [|c [|d r]]]];
      try (left; do 2 eexists; split; [exact R | reflexivity]).
    destruct (dispatch_request_cases E a b c hs
                (head_read E w (Connection.after_read i l (conn w))))
      as [(resp & w1 & R1 & ->) | (e & w1 & R1 & ->)].
    + left. exists resp, w1. split; [| reflexivity].
      exact (only_read_trans _ _ _ R R1).
    + right. exists (Raise e), w1. split; [| reflexivity].
      exact (only_read_trans _ _ _ R R1).
  - right. do 2 eexists. split; [| reflexivity]. apply only_read_after_read. eauto.
  - right. do 2 eexists. split; [| reflexivity]. apply only_read_after_read. eauto.
Qed.

Lemma dispatch_request_frame (E : Env) (m p v : str) (hs : list str) (w : World) :
  request_frame w (snd (dispatch_request E m p v hs w)).
Proof.
  destruct (dispatch_request_cases E m p v hs w)
    as [(resp & w1 & R & ->) | (e & w1 & R & ->)].
  - eapply request_frame_trans;
      [apply only_read_frame; exact R | apply send_http_response_frame].
  - now apply only_read_frame.
Qed.

Lemma handle_one_http_request_frame (E : Env) (w : World) :
  request_frame w (snd (handle_one_http_request E w)).
Proof.
  destruct (handle_one_http_request_cases E w)
    as [(resp & w1 & R & ->) | (e & w1 & R & ->)].
  - eapply request_frame_trans;
      [apply only_read_frame; exact R | apply send_http_response_frame].
  - now apply only_read_frame.
Qed.

(** [handle_http_connection], by the outcome of its one request. *)
Lemma handle_http_connection_eq (E : Env) (w : World) :
  handle_http_connection E w =
  match handle_one_http_request E (session_start w) with
  | (Ok _, w1) =>
      (Ok tt,
       release_connection
         (mkWorld
            (Statistics.request_completed
               (PrimFloat.sub (clock E (ticks w1)) (clock E (ticks w)))
               (stats w1))
            (Connection.count_request (conn w1))
            (S (ticks w1))))
  | (Raise e, w1) => (Raise e, release_connection w1)
  end.
Proof.
  unfold handle_http_connection, serve_connection, try_finally, bind,
    with_stats, time_time, with_conn, set_conn, session_start; simpl.
  destruct (handle_one_http_request E _) as [[u|e] w1]; reflexivity.
Qed.

(** C9.  A request with a well-formed request line, no chunked transfer
    encoding, and a Content-Length header whose value [int()] rejects:
    the [ValueError] leaves [handle_http_connection].  No response has
    been sent and the request and timing statistics are not updated; the
    [finally] block has still closed the socket, once, and has taken the
    connection off the count of active ones, once. *)
Theorem bad_content_length_raises
  (E : Env) (w : World) (data : str) (c1 : Connection.t)
  (request_line : str) (headers : list str) (m p v n : str) :
  read_until_blank_line (conn w) = (Ok (inl data), c1) ->
  Py.splitlines data = request_line :: headers ->
  Py.split_ws request_line = [m; p; v] ->
  get_header_value headers "Transfer-Encoding" <> Some "chunked" ->
  get_header_value headers "Content-Length" = Some n ->
  py_int E n = None ->
  let w' := snd (handle_http_connection E w) in
  fst (handle_http_connection E w) = Raise ValueError /\
  Socket.sent (Connection.sock (conn w')) = Socket.sent (Connection.sock (conn w)) /\
  stats w' =
    Statistics.connection_closed (Statistics.connection_opened (stats w)) /\
  Statistics.num_requests (stats w') = Statistics.num_requests (stats w) /\
  Statistics.tot_time (stats w') = Statistics.tot_time (stats w) /\
  Statistics.avg_time (stats w') = Statistics.avg_time (stats w) /\
  Statistics.max_time (stats w') = Statistics.max_time (stats w) /\
  Statistics.active_connections (stats w') = Statistics.active_connections (stats w) /\
  Connection.num_requests (conn w') = Connection.num_requests (conn w) /\
  Socket.close_calls (Connection.sock (conn w')) =
    S (Socket.close_calls (Connection.sock (conn w))).
Proof.
  intros Hread Hlines Hwords Hte Hcl Hint.
  assert (Hc1 : Socket.sent (Connection.sock c1) =
                  Socket.sent (Connection.sock (conn w)) /\
                Connection.num_requests c1 = Connection.num_requests (conn w) /\
                Socket.close_calls (Connection.sock c1) =
                  Socket.close_calls (Connection.sock (conn w))).
  { destruct (read_until_blank_line_frame (conn w)) as (i & l & F).
    rewrite Hread in F. simpl in F. now subst c1. }
  destruct Hc1 as (Hsent & Hnum & Hclose).
  assert (Hrun : handle_one_http_request E (session_start w) =
                 (Raise ValueError, head_read E (session_start w) c1)).
  { rewrite handle_one_http_request_eq. simpl conn. rewrite Hread, Hlines, Hwords.
    unfold dispatch_request.
    destruct (get_header_value headers "Transfer-Encoding") as [te|] eqn:Ete.
    - destruct (String.eqb_spec te "chunked") as [->|_]; [now destruct Hte |].
      unfold bind. now rewrite Hcl, Hint.
    - unfold bind. now rewrite Hcl, Hint. }
  cbv zeta. rewrite handle_http_connection_eq, Hrun. simpl.
  rewrite Hsent, Hnum, Hclose.
  repeat split; lia.
Qed.

(** The header "Content-Length: abc". *)
Lemma bad_content_length_raises_witness :
  let w := new_world Statistics.init
             [RecvData ("GET /foo HTTP/1.1" ++ CRLF ++ "Content-Length: abc" ++ BLANK_LINE)] in
  let w' := snd (handle_http_connection sample_env w) in
  fst (handle_http_connection sample_env w) = Raise ValueError /\
  Socket.sent (Connection.sock (conn w')) = [] /\
  stats w' =
    Statistics.connection_closed (Statistics.connection_opened Statistics.init) /\
  Statistics.num_requests (stats w') = 0%Z /\
  Statistics.tot_time (stats w') = 0%float /\
  Statistics.avg_time (stats w') = 0%float /\
  Statistics.max_time (stats w') = 0%float /\
  Statistics.active_connections (stats w') = 0%Z /\
  Connection.num_requests (conn w') = 0%Z /\
  Socket.close_calls (Connection.sock (conn w')) = 1.
Proof.
  refine (bad_content_length_raises sample_env
            (new_world Statistics.init
               [RecvData ("GET /foo HTTP/1.1" ++ CRLF ++ "Content-Length: abc" ++ BLANK_LINE)])
            ("GET /foo HTTP/1.1" ++ CRLF ++ "Content-Length: abc")
            (Connection.after_read [] ""
               (new_connection
                  [RecvData ("GET /foo HTTP/1.1" ++ CRLF ++ "Content-Length: abc" ++ BLANK_LINE)]
                  0%float))
            "GET /foo HTTP/1.1" ["Content-Length: abc"] "GET" "/foo" "HTTP/1.1" "abc"
            eq_refl eq_refl eq_refl _ eq_refl eq_refl).
  discriminate.
Defined.

(** C9 as stated fails: a Content-Length that is not a number raises only
    if the request gets as far as its body.  With a request line of two
    words the answer is "400 BAD REQUEST", and with chunked transfer
    encoding it is "411 LENGTH REQUIRED"; the session returns and the
    request is counted.  And what counts as a number is what [int()]
    accepts: the value "+3" is read as 3, the body is read and the page
    is served. *)
Lemma bad_content_length_not_reached :
  let w := new_world Statistics.init
             [RecvData ("GET /foo" ++ CRLF ++ "Content-Length: abc" ++ BLANK_LINE)] in
  let w2 := new_world Statistics.init
              [RecvData ("POST /up HTTP/1.1" ++ CRLF ++ "Content-Length: abc" ++ CRLF ++
                         "Transfer-Encoding: chunked" ++ BLANK_LINE)] in
  let w3 := new_world Statistics.init
              [RecvData ("GET /hello HTTP/1.1" ++ CRLF ++ "Content-Length: +3" ++
                         BLANK_LINE ++ "abc")] in
  py_int sample_env "abc" = None /\
  (fst (handle_http_connection sample_env w) = Ok tt /\
   Socket.sent (Connection.sock (conn (snd (handle_http_connection sample_env w)))) =
     response_writes sample_env MALFORMED_REQUEST_LINE 2 /\
   Statistics.num_requests (stats (snd (handle_http_connection sample_env w))) = 1%Z) /\
  (fst (handle_http_connection sample_env w2) = Ok tt /\
   Socket.sent (Connection.sock (conn (snd (handle_http_connection sample_env w2)))) =
     response_writes sample_env
       (Response.make "411 LENGTH REQUIRED" (Some "text/plain")
          (BodyStr "Your request uses chunked transfer encoding, sorry!")) 2 /\
   Statistics.num_requests (stats (snd (handle_http_connection sample_env w2))) = 1%Z) /\
  (py_int sample_env "+3" = Some 3%Z /\
   fst (handle_http_connection sample_env w3) = Ok tt /\
   Socket.sent (Connection.sock (conn (snd (handle_http_connection sample_env w3)))) =
     response_writes sample_env
       (Response.make "200 OK" (Some "text/plain") (BodyStr "Welcome, World!")) 2 /\
   Connection.leftover_data (conn (snd (handle_http_connection sample_env w3))) = "" /\
   Statistics.num_requests (stats (snd (handle_http_connection sample_env w3))) = 1%Z).
Proof. cbv zeta. split; [| split; [| split]]; vm_compute; repeat split. Qed.

(** C10, where the code departs from it.  The request counter and the
    timing statistics are updated once when the one call of
    [handle_one_http_request] returns, also when it returns without a
    response because the read timed out; they are left alone when the
    call raises.  But when the peer closes before a complete request has
    arrived, the call does not return: the [TypeError] of the log line of
    [read_until_blank_line] leaves [handle_http_connection], nothing has
    been sent, and the request is not counted. *)
Theorem request_statistics_once_per_connection (E : Env) (w : World) :
  let r := handle_one_http_request E (session_start w) in
  let w' := snd (handle_http_connection E w) in
  (forall u : unit, fst r = Ok u ->
     let duration := PrimFloat.sub (clock E (ticks (snd r))) (clock E (ticks w)) in
     fst (handle_http_connection E w) = Ok tt /\
     Statistics.num_requests (stats w') = (Statistics.num_requests (stats w) + 1)%Z /\
     Statistics.tot_time (stats w') =
       PrimFloat.add (Statistics.tot_time (stats w)) duration /\
     Statistics.avg_time (stats w') =
       PrimFloat.div (Statistics.tot_time (stats w'))
                     (float_of_int (Statistics.num_requests (stats w'))) /\
     Statistics.max_time (stats w') =
       (if PrimFloat.ltb (Statistics.max_time (stats w)) duration
        then duration else Statistics.max_time (stats w)) /\
     Connection.num_requests (conn w') = (Connection.num_requests (conn w) + 1)%Z) /\
  (forall e : exn, fst r = Raise e ->
     fst (handle_http_connection E w) = Raise e /\
     Statistics.num_requests (stats w') = Statistics.num_requests (stats w) /\
     Statistics.tot_time (stats w') = Statistics.tot_time (stats w) /\
     Statistics.avg_time (stats w') = Statistics.avg_time (stats w) /\
     Statistics.max_time (stats w') = Statistics.max_time (stats w)) /\
  (forall c1 : Connection.t,
     read_until_blank_line (conn w) = (Ok (inr ERR_SOCKET_HAD_TIMEOUT), c1) ->
     fst r = Ok tt /\
     Socket.sent (Connection.sock (conn w')) = Socket.sent (Connection.sock (conn w)) /\
     Statistics.num_requests (stats w') = (Statistics.num_requests (stats w) + 1)%Z) /\
  (forall (chunks : list bytes) (closing : list RecvResult),
     Socket.inbox (Connection.sock (conn w)) = (map RecvData chunks ++ closing)%list ->
     Forall (fun b => b <> "") chunks ->
     closing = [] \/ (exists rest, closing = RecvData "" :: rest) ->
     ~ occurs BLANK_LINE (stream (conn w) chunks) ->
     fst (handle_http_connection E w) = Raise TypeError /\
     Socket.sent (Connection.sock (conn w')) = Socket.sent (Connection.sock (conn w)) /\
     Statistics.num_requests (stats w') = Statistics.num_requests (stats w) /\
     Statistics.tot_time (stats w') = Statistics.tot_time (stats w) /\
     Connection.num_requests (conn w') = Connection.num_requests (conn w)) /\
  let w0 := new_world Statistics.init [RecvData "GET / HT"] in
  fst (handle_http_connection E w0) = Raise TypeError /\
  Socket.sent (Connection.sock (conn (snd (handle_http_connection E w0)))) = [] /\
  Statistics.num_requests (stats (snd (handle_http_connection E w0))) = 0%Z.
Proof.
  cbv zeta.
  pose proof (handle_one_http_request_frame E (session_start w)) as F.
  split; [| split; [| split; [| split]]].
  - rewrite handle_http_connection_eq.
    destruct (handle_one_http_request E (session_start w)) as [[u|e] w1] eqn:R;
      simpl in F; destruct F as (_ & _ & F3 & F4 & F5 & F6 & F7 & _);
      simpl in F3, F4, F5, F6, F7; simpl fst; simpl snd; [| discriminate].
    intros _ _. simpl. rewrite F3, F4, F5, F7. repeat split.
  - rewrite handle_http_connection_eq.
    destruct (handle_one_http_request E (session_start w)) as [[u|e] w1] eqn:R;
      simpl in F; destruct F as (_ & _ & F3 & F4 & F5 & F6 & F7 & _);
      simpl in F3, F4, F5, F6, F7; simpl fst; simpl snd; [discriminate |].
    intros e' [= <-]. simpl. now rewrite F3, F4, F5, F6.
  - intros c1 Hread.
    rewrite handle_http_connection_eq, handle_one_http_request_eq.
    simpl conn. rewrite Hread.
    destruct (read_until_blank_line_frame (conn w)) as (i & l & G).
    rewrite Hread in G. simpl in G. subst c1. simpl.
    split; [reflexivity |]. split; [reflexivity | lia].
  - intros chunks closing Hin Hne Hclosing Hno.
    rewrite handle_http_connection_eq, handle_one_http_request_eq.
    simpl conn.
    rewrite (read_until_blank_line_closed (conn w) chunks closing Hin Hne Hclosing Hno).
    simpl. repeat split.
  - rewrite handle_http_connection_eq, handle_one_http_request_eq.
    repeat split.
Qed.

(** C1, where the code departs from it.  [handle_http_connection] closes
    the socket when its one call of [handle_one_http_request] is over.  On
    a connection that delivers two requests at once, the first is
    answered, the connection is closed, and the second is still in the
    leftover data, unread. *)
Theorem handle_http_connection_serves_one_request :
  (forall (E : Env) (w : World),
     Socket.close_calls (Connection.sock (conn (snd (handle_http_connection E w)))) =
     S (Socket.close_calls (Connection.sock (conn w)))) /\
  forall E : Env,
    let request := "GET /hello HTTP/1.1" ++ BLANK_LINE in
    let w := new_world Statistics.init [RecvData (request ++ request)] in
    let w' := snd (handle_http_connection E w) in
    fst (handle_http_connection E w) = Ok tt /\
    Socket.sent (Connection.sock (conn w')) =
      response_writes E
        (handle_http_get_hello E
           (Request.mk "GET" "/hello" "HTTP/1.1" [] 0 None)
           (head_read E (session_start w) (Connection.after_read [] request (conn w))))
        2 /\
    Connection.leftover_data (conn w') = request /\
    Connection.num_requests (conn w') = 1%Z /\
    Statistics.num_requests (stats w') = 1%Z /\
    Socket.close_calls (Connection.sock (conn w')) = 1.
Proof.
  split.
  - intros E w.
    pose proof (handle_one_http_request_frame E (session_start w)) as F.
    rewrite handle_http_connection_eq.
    destruct (handle_one_http_request E (session_start w)) as [[u|e] w1];
      simpl in F; destruct F as (_ & _ & _ & _ & _ & _ & _ & F8);
      simpl in *; now rewrite F8.
  - intro E. cbv zeta.
    rewrite handle_http_connection_eq, handle_one_http_request_eq.
    change (read_until_blank_line
              (conn (session_start
                 (new_world Statistics.init
                    [RecvData (("GET /hello HTTP/1.1" ++ BLANK_LINE) ++
                               "GET /hello HTTP/1.1" ++ BLANK_LINE)]))))
      with (Ok (@inl str SocketError "GET /hello HTTP/1.1"),
            Connection.after_read [] ("GET /hello HTTP/1.1" ++ BLANK_LINE)
              (conn (new_world Statistics.init
                 [RecvData (("GET /hello HTTP/1.1" ++ BLANK_LINE) ++
                            "GET /hello HTTP/1.1" ++ BLANK_LINE)]))).
    cbv beta iota.
    change (Py.splitlines "GET /hello HTTP/1.1") with ["GET /hello HTTP/1.1"].
    cbv beta iota.
    change (Py.split_ws "GET /hello HTTP/1.1") with ["GET"; "/hello"; "HTTP/1.1"].
    cbv beta iota.
    unfold dispatch_request, bind, ret, handle_http_get.
    change (request_path "/hello") with "/hello".
    cbn [get_header_value Request.method Request.path String.eqb Ascii.eqb
         Bool.eqb orb andb].
    rewrite send_http_response_run.
    repeat split.
    simpl. now destruct (Py.startswith _ "200 ").
Qed.

(** ** Statistics *)










(** The head of the first example of a session, read from a fresh
    connection: the text of the head comes back, the start of the next
    request is the leftover data. *)
Example read_until_blank_line_example :
  let c := new_connection
             [RecvData ("GET /hello HTTP/1.1" ++ CRLF ++ "Host: a" ++ BLANK_LINE ++ "GET /x HTT");
              RecvData ("P/1.1" ++ BLANK_LINE)] 0%float in
  read_until_blank_line c =
  (Ok (inl ("GET /hello HTTP/1.1" ++ CRLF ++ "Host: a")),
   Connection.after_read [RecvData ("P/1.1" ++ BLANK_LINE)] "GET /x HTT" c) /\
  read_until_blank_line (new_connection [RecvData "GET /hel"; RecvData ""] 0%float) =
  (Raise TypeError,
   Connection.after_read [] ""
     (new_connection [RecvData "GET /hel"; RecvData ""] 0%float)).
Proof. split; vm_compute; reflexivity. Qed.

(** ** Sessions act on the statistics by the atomic steps *)

Lemma send_http_response_stats (E : Env) (resp : Response.t) (w : World) :
  stats (snd (send_http_response E resp w)) = stats w \/
  stats (snd (send_http_response E resp w)) = Statistics.error_observed (stats w).
Proof.
  rewrite send_http_response_run. simpl.
  destruct (Py.startswith _ _); [now left | now right].
Qed.

(** One request counts at most one error, and touches nothing else of
    the statistics. *)
Lemma handle_one_http_request_stats (E : Env) (w : World) :
  exists ops : list StatsOp,
    (ops = [] \/ ops = [ErrorObserved]) /\
    stats (snd (handle_one_http_request E w)) = stats_run ops (stats w).
Proof.
  destruct (handle_one_http_request_cases E w)
    as [(resp & w1 & (R & _) & ->) | (r & w1 & (R & _) & ->)].
  - destruct (send_http_response_stats E resp w1) as [H|H]; rewrite H, R.
    + exists []. split; [now left | reflexivity].
    + exists [ErrorObserved]. split; [now right | reflexivity].
  - exists []. split; [now left | exact R].
Qed.

(** A whole session: the connection is opened, the request counts at most
    one error, its completion is recorded if it returned, and the
    connection is closed. *)
Lemma handle_http_connection_stats (E : Env) (w : World) :
  exists (errors completion : list StatsOp),
    (errors = [] \/ errors = [ErrorObserved]) /\
    (completion = [] \/ exists d, completion = [RequestCompleted d]) /\
    stats (snd (handle_http_connection E w)) =
      stats_run (ConnectionOpened :: errors ++ completion ++ [ConnectionClosed])%list
                (stats w).
Proof.
  destruct (handle_one_http_request_stats E (session_start w))
    as (errors & Herr & Hst).
  rewrite handle_http_connection_eq.
  destruct (handle_one_http_request E (session_start w)) as [[u|e] w1];
    simpl in Hst.
  - exists errors, [RequestCompleted
                      (PrimFloat.sub (clock E (ticks w1)) (clock E (ticks w)))].
    split; [exact Herr |]. split; [right; eauto |].
    simpl. rewrite Hst. unfold stats_run. rewrite !fold_left_app. reflexivity.
  - exists errors, []. split; [exact Herr |]. split; [now left |].
    simpl. rewrite Hst. unfold stats_run. rewrite !fold_left_app. reflexivity.
Qed.

(** * Further properties *)

(** ** The byte stream of a connection *)

(** X1.  Reading a head does not depend on how the bytes arrive.  On a
    connection whose socket delivers chunks that are not empty, if the
    leftover data followed by the chunks holds a blank line and the
    bytes before the first one decode, [read_until_blank_line] returns
    that text, and what is left (the new leftover data followed by the
    chunks not taken) is the bytes after that blank line. *)
Theorem read_until_blank_line_stream
  (c : Connection.t) (chunks : list bytes) (head tail : bytes) (text : str) :
  Socket.inbox (Connection.sock c) = map RecvData chunks ->
  Forall (fun b => b <> "") chunks ->
  first_split BLANK_LINE (stream c chunks) head tail ->
  Py.decode head = Some text ->
  exists chunks' : list bytes,
    fst (read_until_blank_line c) = Ok (inl text) /\
    Socket.inbox (Connection.sock (snd (read_until_blank_line c))) =
      map RecvData chunks' /\
    stream (snd (read_until_blank_line c)) chunks' = tail.
Proof.
  intros Hin Hne Hfs Hdec. unfold stream in *.
  rewrite <- (app_nil_r (map RecvData chunks)) in Hin.
  destruct (read_until_blank_line_found c chunks [] head tail text Hin Hne Hfs Hdec)
    as (left & cs' & R & _ & J).
  rewrite R. exists cs'. simpl. rewrite app_nil_r. now repeat split.
Qed.

(** One head cut in two ways. *)
Lemma read_until_blank_line_stream_witness :
  let c1 := new_connection
              [RecvData "GET / HT"; RecvData ("TP/1.1" ++ CRLF);
               RecvData (CRLF ++ "next")] 0%float in
  exists chunks' : list bytes,
    fst (read_until_blank_line c1) = Ok (inl "GET / HTTP/1.1") /\
    Socket.inbox (Connection.sock (snd (read_until_blank_line c1))) =
      map RecvData chunks' /\
    stream (snd (read_until_blank_line c1)) chunks' = "next".
Proof.
  refine (read_until_blank_line_stream
            (new_connection
               [RecvData "GET / HT"; RecvData ("TP/1.1" ++ CRLF);
                RecvData (CRLF ++ "next")] 0%float)
            ["GET / HT"; "TP/1.1" ++ CRLF; CRLF ++ "next"]
            "GET / HTTP/1.1" "next" "GET / HTTP/1.1" eq_refl _ _ eq_refl).
  - repeat constructor; discriminate.
  - apply split_once_first_split. reflexivity.
Defined.

Lemma recv_amount_eq (fuel : nat) (n : Z) (data : bytes) (inbox : list RecvResult) :
  recv_amount fuel n data inbox =
  if (Z.of_nat (String.length data) <? n)%Z then
    match fuel with
    | S fuel' =>
        match recv (n - Z.of_nat (String.length data)) inbox with
        | (Received EmptyString, rest) => (PeerClosed, data, rest)
        | (Received more, rest) => recv_amount fuel' n (data ++ more) rest
        | (RecvTimedOut, rest) => (Failed, data, rest)
        | (RecvFailed, rest) => (Failed, data, rest)
        end
    | O => (Failed, data, inbox)
    end
  else (Found, data, inbox).
Proof. destruct fuel; reflexivity. Qed.


(** The loop of [read_amount] stops once [n] bytes are there, whatever
    the sizes of the runs in which they arrive. *)
Lemma recv_amount_enough (n : Z) (fuel : nat) :
  forall (data : bytes) (chunks : list bytes) (tail : list RecvResult),
  pending (map RecvData chunks ++ tail) < fuel ->
  Forall (fun b => b <> "") chunks ->
  (n <= MAXSIZE)%Z ->
  (n <= Z.of_nat (String.length (data ++ joined chunks)))%Z ->
  exists (data' : bytes) (chunks' : list bytes),
    recv_amount fuel n data (map RecvData chunks ++ tail) =
      (Found, data', map RecvData chunks' ++ tail)%list /\
    Forall (fun b => b <> "") chunks' /\
    data' ++ joined chunks' = data ++ joined chunks /\
    (n <= Z.of_nat (String.length data'))%Z.
Proof.
  induction fuel as [|fuel IH]; intros data chunks tail Hf Hne Hmax Hn; [lia |].
  rewrite recv_amount_eq.
  destruct (Z.ltb_spec (Z.of_nat (String.length data)) n) as [Hlt|Hge].
  2:{ exists data, chunks. now repeat split. }
  destruct chunks as [|b chunks].
  { simpl in Hn. rewrite sapp_nil_r in Hn. lia. }
  inversion Hne as [|? ? Hb Hne']; subst.
  destruct (recv_chunk (n - Z.of_nat (String.length data)) b chunks tail)
    as (x & more & cs & R & J & _ & F & P); [lia | exact Hb |].
  rewrite R.
  destruct (IH (data ++ String x more) cs tail) as (d' & cs' & R' & F' & J' & L').
  - lia.
  - now apply F.
  - exact Hmax.
  - now rewrite sapp_assoc, J.
  - exists d', cs'. repeat split; trivial.
    rewrite J', sapp_assoc, J. reflexivity.
Qed.


(** The successful read of a body, on the stream of bytes. *)
Lemma read_amount_found
  (c : Connection.t) (chunks : list bytes) (n : nat) (text : str) :
  Socket.inbox (Connection.sock c) = map RecvData chunks ->
  Forall (fun b => b <> "") chunks ->
  n <= String.length (Connection.leftover_data c ++ joined chunks) ->
  (Z.of_nat n <= MAXSIZE)%Z ->
  Py.decode (Py.take n (Connection.leftover_data c ++ joined chunks)) = Some text ->
  exists (left : bytes) (chunks' : list bytes),
    read_amount (Z.of_nat n) c =
      (Ok (Some text), Connection.after_read (map RecvData chunks') left c) /\
    Forall (fun b => b <> "") chunks' /\
    left ++ joined chunks' =
      Py.drop n (Connection.leftover_data c ++ joined chunks).
Proof.
  intros Hin Hne Hn Hmax Hdec. unfold read_amount.
  rewrite <- (app_nil_r (map RecvData chunks)) in Hin. rewrite Hin.
  destruct (recv_amount_enough (Z.of_nat n)
              (S (pending (map RecvData chunks ++ [])))
              (Connection.leftover_data c) chunks [])
    as (d' & cs' & R & F & J & L); [lia | exact Hne | exact Hmax | lia |].
  rewrite R. apply Nat2Z.inj_le in L.
  unfold Py.slice_to, Py.slice_from, Py.index_of.
  replace (0 <=? Z.of_nat n)%Z with true by (symmetry; apply Z.leb_le; lia).
  rewrite Nat2Z.id.
  rewrite <- J in Hdec |- *.
  rewrite (take_app_le _ _ _ L) in Hdec. rewrite Hdec.
  exists (Py.drop n d'), cs'. rewrite app_nil_r. repeat split; trivial.
  now rewrite (drop_app_le _ _ _ L).
Qed.

(** X2.  Reading a body does not depend on how the bytes arrive either.
    On a connection whose socket delivers chunks that are not empty, if
    the leftover data followed by the chunks has [n] bytes or more and the
    first [n] decode, [read_amount(n)] returns them, and what is left (the
    new leftover data followed by the chunks not taken) is the stream
    without its first [n] bytes.  ([n] is a size that [recv] takes: no
    [bytes] object is longer than [sys.maxsize].) *)
Theorem read_amount_stream
  (c : Connection.t) (chunks : list bytes) (n : nat) (text : str) :
  Socket.inbox (Connection.sock c) = map RecvData chunks ->
  Forall (fun b => b <> "") chunks ->
  n <= String.length (stream c chunks) ->
  (Z.of_nat n <= MAXSIZE)%Z ->
  Py.decode (Py.take n (stream c chunks)) = Some text ->
  exists chunks' : list bytes,
    fst (read_amount (Z.of_nat n) c) = Ok (Some text) /\
    Socket.inbox (Connection.sock (snd (read_amount (Z.of_nat n) c))) =
      map RecvData chunks' /\
    stream (snd (read_amount (Z.of_nat n) c)) chunks' =
      Py.drop n (stream c chunks).
Proof.
  intros Hin Hne Hn Hmax Hdec. unfold stream in *.
  destruct (read_amount_found c chunks n text Hin Hne Hn Hmax Hdec)
    as (left & cs' & R & _ & J).
  rewrite R. exists cs'. now repeat split.
Qed.

(** A body of five bytes that comes in two chunks, with the start of the
    next request behind it. *)
Lemma read_amount_stream_witness :
  let c1 := Connection.mk (Socket.mk [RecvData "lo"; RecvData "GET /n"] [] 0)
              "hel" 0 0%float 0%float in
  exists chunks' : list bytes,
    fst (read_amount 5 c1) = Ok (Some "hello") /\
    Socket.inbox (Connection.sock (snd (read_amount 5 c1))) = map RecvData chunks' /\
    stream (snd (read_amount 5 c1)) chunks' = "GET /n".
Proof.
  refine (read_amount_stream
            (Connection.mk (Socket.mk [RecvData "lo"; RecvData "GET /n"] [] 0)
               "hel" 0 0%float 0%float)
            ["lo"; "GET /n"] 5 "hello" eq_refl _ _ _ eq_refl).
  - repeat constructor; discriminate.
  - simpl. lia.
  - unfold MAXSIZE. lia.
Defined.



(** X4.  [wait_until_data_arrives] and the reads.  When it returns [None]
    there is leftover data, and the bytes still to come (the leftover
    data, then what the socket delivers) are the same as before: a read
    of a head that follows succeeds, times out or raises as it would have
    without the wait, with the same connection afterwards when it does
    not raise, and a read of a body that the stream covers returns the
    same text.  The only error that the method returns is
    [ERR_SOCKET_HAD_TIMEOUT]; when the peer has closed or [recv] fails,
    the [TypeError] of the log line leaves the method. *)
Theorem wait_until_data_arrives_spec (c : Connection.t) :
  let r := wait_until_data_arrives c in
  (fst r = Ok None ->
     Connection.leftover_data (snd r) <> "" /\
     fst (read_until_blank_line (snd r)) = fst (read_until_blank_line c) /\
     (forall x, fst (read_until_blank_line c) = Ok x ->
                read_until_blank_line (snd r) = read_until_blank_line c) /\
     forall chunks : list bytes,
       Socket.inbox (Connection.sock c) = map RecvData chunks ->
       Forall (fun b => b <> "") chunks ->
       (exists chunks' : list bytes,
          Socket.inbox (Connection.sock (snd r)) = map RecvData chunks' /\
          Forall (fun b => b <> "") chunks' /\
          stream (snd r) chunks' = stream c chunks) /\
       forall (n : nat) (text : str),
         n <= String.length (stream c chunks) ->
         (Z.of_nat n <= MAXSIZE)%Z ->
         Py.decode (Py.take n (stream c chunks)) = Some text ->
         fst (read_amount (Z.of_nat n) (snd r)) = Ok (Some text) /\
         fst (read_amount (Z.of_nat n) c) = Ok (Some text)) /\
  (forall err, fst r = Ok (Some err) ->
     err = ERR_SOCKET_HAD_TIMEOUT /\
     Connection.leftover_data c = "" /\
     exists rest, Socket.inbox (Connection.sock c) = RecvTimeout :: rest) /\
  (Connection.leftover_data c = "" ->
   (Socket.inbox (Connection.sock c) = [] \/
    exists rest, Socket.inbox (Connection.sock c) = RecvData "" :: rest \/
                 Socket.inbox (Connection.sock c) = RecvError :: rest) ->
   fst r = Raise TypeError /\ Connection.leftover_data (snd r) = "").
Proof.
  cbv zeta. split; [| split].
  - intro H.
    assert (Keep : forall chunks : list bytes,
              Socket.inbox (Connection.sock c) = map RecvData chunks ->
              Forall (fun b => b <> "") chunks ->
              exists chunks' : list bytes,
                Socket.inbox (Connection.sock (snd (wait_until_data_arrives c))) =
                  map RecvData chunks' /\
                Forall (fun b => b <> "") chunks' /\
                stream (snd (wait_until_data_arrives c)) chunks' = stream c chunks).
    { intros chunks Hin Hne. unfold wait_until_data_arrives in *. unfold stream.
      destruct (Connection.leftover_data c) as [|x left] eqn:L.
      2:{ exists chunks. simpl. rewrite L. now repeat split. }
      rewrite Hin in *.
      destruct chunks as [|b chunks]; [discriminate H |].
      inversion Hne as [|? ? Hb Hne']; subst.
      destruct (recv_chunk 4096 b chunks []) as (y & more & cs & R & J & _ & F & _);
        [unfold MAXSIZE; lia | exact Hb |].
      rewrite !app_nil_r in R. rewrite R. simpl.
      exists cs. repeat split; [now apply F | exact J]. }
    unfold wait_until_data_arrives in *.
    destruct (Connection.leftover_data c) as [|x left] eqn:L.
    2:{ simpl. rewrite L. split; [discriminate |]. split; [reflexivity |].
        split; [reflexivity |]. intros chunks Hin Hne.
        split; [apply (Keep chunks Hin Hne) |].
        intros n text Hn Hmax Hdec. unfold stream in *.
        destruct (read_amount_found c chunks n text Hin Hne Hn Hmax Hdec)
          as (l' & cs' & R & _). now rewrite R. }
    destruct (recv 4096 (Socket.inbox (Connection.sock c)))
      as [[[|y more]| |] rest] eqn:R; try discriminate H.
    cbn [snd fst].
    assert (Loop : recv_until_blank_line
                     (S (pending (Socket.inbox (Connection.sock c)))) ""
                     (Socket.inbox (Connection.sock c)) =
                   recv_until_blank_line (S (pending rest)) (String y more) rest).
    { rewrite recv_until_blank_line_eq.
      change (Py.contains BLANK_LINE "") with false. cbv iota. rewrite R.
      pose proof (recv_pending _ _ _ _ _ R) as P.
      apply recv_until_blank_line_fuel; lia. }
    split; [discriminate |].
    assert (Read : fst (read_until_blank_line
                          (Connection.after_read rest ("" ++ String y more) c)) =
                   fst (read_until_blank_line c) /\
                   (forall x, fst (read_until_blank_line c) = Ok x ->
                      read_until_blank_line
                        (Connection.after_read rest ("" ++ String y more) c) =
                      read_until_blank_line c)).
    { unfold read_until_blank_line.
      cbn [Connection.after_read Connection.leftover_data Connection.sock
           Socket.inbox String.append].
      rewrite L, Loop.
      destruct (recv_until_blank_line (S (pending rest)) (String y more) rest)
        as [[ex d] ib].
      rewrite !except_clause_raises.
      destruct ex; cbn [fst snd]; try (split; [reflexivity | intros ? [=]]).
      - destruct (Py.split_once BLANK_LINE d) as [[h t]|];
          [destruct (Py.decode h) |]; rewrite ?except_clause_raises;
          cbn [fst snd]; (split; [reflexivity |]); intros ? E;
          first [reflexivity | discriminate E].
      - split; reflexivity. }
    destruct Read as [Read1 Read2].
    split; [exact Read1 |]. split; [exact Read2 |].
    intros chunks Hin Hne.
    destruct (Keep chunks Hin Hne) as (cs' & Hin' & Hne' & Hs).
    cbn [snd] in Hin', Hs.
    split; [exists cs'; now repeat split |].
    intros n text Hn Hmax Hdec. unfold stream in *.
    destruct (read_amount_found c chunks n text Hin Hne Hn Hmax Hdec)
      as (l1 & cs1 & R1 & _).
    rewrite <- Hs in Hn, Hdec.
    destruct (read_amount_found _ cs' n text Hin' Hne' Hn Hmax Hdec)
      as (l2 & cs2 & R2 & _).
    now rewrite R1, R2.
  - intros err H. unfold wait_until_data_arrives in H.
    destruct (Connection.leftover_data c) as [|x left]; [| discriminate H].
    unfold recv in H. cbn [Z.ltb Z.compare orb MAXSIZE] in H.
    destruct (Socket.inbox (Connection.sock c)) as [|[b| |] rest];
      try discriminate H.
    + destruct (Z.of_nat (String.length b) <=? 4096)%Z;
        [destruct b | destruct (Py.take _ b)]; discriminate H.
    + injection H as <-. split; [reflexivity |]. split; [reflexivity |]. now exists rest.
  - intros L Hin. unfold wait_until_data_arrives. rewrite L.
    destruct Hin as [-> | (rest & [-> | ->])]; split; reflexivity.
Qed.


(** ** Looking up headers and cookies *)

Lemma lower_1 (a : ascii) : Py.lower (String a "") = String (Py.lower_ascii a) "".
Proof. reflexivity. Qed.

Lemma lower_2 (a b : ascii) :
  Py.lower (String a (String b "")) =
  String (Py.lower_ascii a) (Py.lower (String b "")).
Proof. reflexivity. Qed.

Lemma lower_3 (a b c : ascii) (r : string) :
  Py.lower (String a (String b (String c r))) =
  if (byte_val a =? 226) && (byte_val b =? 132) && (byte_val c =? 170)
  then String "k" (Py.lower r)
  else String (Py.lower_ascii a) (Py.lower (String b (String c r))).
Proof. reflexivity. Qed.

Lemma lower_colon (rest : string) :
  Py.lower (String ":" rest) = String ":" (Py.lower rest).
Proof. destruct rest as [|c1 [|c2 r2]]; reflexivity. Qed.

Lemma lower_space_cons (rest : string) :
  Py.lower (String " " rest) = String " " (Py.lower rest).
Proof. destruct rest as [|c1 [|c2 r2]]; reflexivity. Qed.

(** Lower case goes through a colon: no character that changes ends
    with one. *)
Lemma lower_app_colon (n : nat) :
  forall name rest : string, String.length name <= n ->
  Py.lower (name ++ String ":" rest) = Py.lower name ++ String ":" (Py.lower rest).
Proof.
  induction n as [|n IH]; intros name rest L.
  - destruct name; [apply lower_colon | simpl in L; lia].
  - destruct name as [|a [|b [|c name]]].
    + apply lower_colon.
    + cbn [String.append]. destruct rest as [|c2 r2].
      * reflexivity.
      * rewrite lower_3. change (byte_val ":" =? 132) with false.
        rewrite andb_false_r. cbn [andb].
        now rewrite lower_colon.
    + cbn [String.append]. rewrite lower_3.
      change (byte_val ":" =? 170) with false. rewrite andb_false_r.
      rewrite lower_2.
      change (String b (String ":" rest)) with (String b "" ++ String ":" rest).
      rewrite IH by (simpl in *; lia). reflexivity.
    + cbn [String.append]. rewrite !lower_3.
      destruct ((byte_val a =? 226) && (byte_val b =? 132) && (byte_val c =? 170)).
      * cbn [String.append]. f_equal. apply IH. simpl in L. lia.
      * change (String b (String c (name ++ String ":" rest)))
          with (String b (String c name) ++ String ":" rest).
        rewrite IH by (simpl in *; lia). reflexivity.
Qed.

(** A header "Name: value" answers to its name, in any case. *)
Lemma get_header_value_here (name key val : str) (rest : list str) :
  Py.lower name = Py.lower key ->
  Py.contains " " name = false ->
  get_header_value ((name ++ ": " ++ val) :: rest) key = Some val.
Proof.
  intros Hlow Hsp. cbn [get_header_value].
  change (name ++ ": " ++ val) with (name ++ String ":" (String " " val)).
  rewrite (lower_app_colon (String.length name) name _ (Nat.le_refl _)).
  rewrite lower_space_cons, Hlow.
  change (Py.lower key ++ String ":" (String " " (Py.lower val)))
    with (Py.lower key ++ ": " ++ Py.lower val).
  rewrite <- sapp_assoc, startswith_app.
  change (name ++ String ":" (String " " val))
    with (name ++ ":" ++ " " ++ val).
  rewrite <- sapp_assoc.
  rewrite (split_once_char " "%char (name ++ ":") val); [reflexivity |].
  rewrite contains_char_app. change (Py.contains " " name) with (Py.contains " " name).
  now rewrite Hsp.
Qed.

(** X5.  The header that [get_header_value] finds, for a key written in
    ASCII (as "Content-Length", "Transfer-Encoding" and "Cookie" are).
    Among headers of the form "Name: value", the first whose name is the
    key, whatever the case of either, gives its value, exactly as written
    after the space; a name must not itself have a space. *)
Theorem get_header_value_found
  (before : list str) (name key val : str) (rest : list str) :
  all_chars is_ascii key = true ->
  Forall (fun hdr => Py.startswith (Py.lower hdr) (Py.lower key ++ ": ") = false)
         before ->
  Py.lower name = Py.lower key ->
  Py.contains " " name = false ->
  get_header_value (before ++ (name ++ ": " ++ val)%string :: rest)%list key =
  Some val.
Proof.
  intros _ Hbefore Hlow Hsp.
  induction Hbefore as [|hdr before Hhdr _ IH].
  - now apply get_header_value_here.
  - cbn [app get_header_value]. now rewrite Hhdr.
Qed.

(** A Content-Length header after a Host header, asked for in lower case. *)
Lemma get_header_value_found_witness :
  get_header_value ["Host: example.org"; "CONTENT-Length: 42"; "Content-Length: 7"]
    "content-length" = Some "42".
Proof.
  refine (get_header_value_found ["Host: example.org"] "CONTENT-Length"
            "content-length" "42" ["Content-Length: 7"] eq_refl _ eq_refl eq_refl).
  repeat constructor.
Defined.

(** X6.  The header that is not there, for a key written in ASCII.
    [get_header_value] returns [None] exactly when no header starts, in
    lower case, with the key in lower case, a colon and a space: a header
    that matches always has a value to give. *)
Theorem get_header_value_none (headers : list str) (key : str) :
  all_chars is_ascii key = true ->
  (get_header_value headers key = None <->
   Forall (fun hdr => Py.startswith (Py.lower hdr) (Py.lower key ++ ": ") = false)
          headers).
Proof.
  intros _.
  induction headers as [|hdr headers IH]; cbn [get_header_value].
  - split; [constructor | reflexivity].
  - destruct (Py.startswith (Py.lower hdr) (Py.lower key ++ ": ")) eqn:P.
    + destruct (get_header_value_index_in_range hdr key P) as (a & b & S).
      rewrite S. split; [discriminate |].
      intro H. inversion H; congruence.
    + rewrite IH. split; [now constructor | intro H; now inversion H].
Qed.

(** A request without a Content-Length header, and one that has it. *)
Lemma get_header_value_none_witness :
  get_header_value ["Host: example.org"; "Content-Type: text/plain"]
    "Content-Length" = None /\
  ~ Forall (fun hdr => Py.startswith (Py.lower hdr)
                         (Py.lower "Content-Length" ++ ": ") = false)
      ["Host: example.org"; "content-length: 0"] /\
  get_header_value ["Host: example.org"; "content-length: 0"] "Content-Length" <> None.
Proof.
  split; [| split].
  - apply (proj2 (get_header_value_none
                    ["Host: example.org"; "Content-Type: text/plain"]
                    "Content-Length" eq_refl)).
    repeat constructor.
  - intro H.
    apply (proj2 (get_header_value_none
                    ["Host: example.org"; "content-length: 0"]
                    "Content-Length" eq_refl)) in H.
    discriminate H.
  - discriminate.
Defined.

Lemma first_split_semicolon (seg rest : string) :
  Py.contains "; " seg = false ->
  first_split "; " (seg ++ "; " ++ rest) seg rest.
Proof.
  intro Hseg. split; [reflexivity |].
  intros h t Ht.
  destruct (Nat.le_gt_cases (String.length seg) (String.length h)) as [|Hlt];
    [assumption | exfalso].
  apply contains_not_occurs in Hseg. apply Hseg.
  destruct (sapp_overlap _ _ _ _ Ht Hlt) as (m & -> & Hm & Hne).
  destruct m as [|x [|y m]]; [now destruct Hne | discriminate Hm |].
  simpl in Hm. injection Hm as <- <- Hm.
  now exists h, m.
Qed.

(** Splitting at "; " undoes joining with "; ". *)
Lemma split_concat_semicolon (segs : list str) :
  segs <> [] ->
  Forall (fun s => Py.contains "; " s = false) segs ->
  Py.split "; " (String.concat "; " segs) = segs.
Proof.
  intros Hne Hall. induction Hall as [|x segs Hx Hall IH]; [now destruct Hne |].
  rewrite split_eq by discriminate.
  destruct segs as [|y segs].
  - cbn [String.concat]. unfold Py.contains in Hx.
    now destruct (Py.split_once "; " x).
  - change (String.concat "; " (x :: y :: segs))
      with (x ++ "; " ++ String.concat "; " (y :: segs)).
    rewrite (first_split_split_once _ _ _ _ (first_split_semicolon x _ Hx)).
    rewrite IH; [reflexivity | discriminate].
Qed.

Lemma get_cookie_loop_pairs (kvs : list (str * str)) (name : str) :
  Forall (fun kv => Py.contains "=" (fst kv) = false) kvs ->
  get_cookie_loop (map (fun kv => fst kv ++ "=" ++ snd kv) kvs) name =
  Ok (option_map (fun kv => Py.lstrip (snd kv))
        (find (fun kv => String.eqb (Py.rstrip (fst kv)) name) kvs)).
Proof.
  intro Hall. induction Hall as [|[k v] kvs Hk _ IH]; [reflexivity |].
  cbn [map find fst snd]. rewrite (get_cookie_loop_named k v name _ Hk).
  destruct (String.eqb (Py.rstrip k) name); [reflexivity | exact IH].
Qed.

(** X7.  Cookies by name.  For a Cookie header made of one or more
    "name=value" segments joined by "; " (no "=" in a name, no "; " inside
    a segment), [get_cookie] returns the value, without leading white
    space, of the first segment whose name, without trailing white
    space, is the name asked for, and [None] if there is none. *)
Theorem get_cookie_lookup
  (kvs : list (str * str)) (name : str) (others : list str) :
  kvs <> [] ->
  Forall (fun kv => Py.contains "=" (fst kv) = false /\
                    Py.contains "; " (fst kv ++ "=" ++ snd kv) = false) kvs ->
  get_cookie
    (("Cookie: " ++
      String.concat "; " (map (fun kv => fst kv ++ "=" ++ snd kv) kvs)) :: others)
    name =
  Ok (option_map (fun kv => Py.lstrip (snd kv))
        (find (fun kv => String.eqb (Py.rstrip (fst kv)) name) kvs)).
Proof.
  intros Hne Hall. unfold get_cookie.
  set (v := String.concat "; " _).
  change ("Cookie: " ++ v) with ("Cookie" ++ ": " ++ v).
  rewrite (get_header_value_here "Cookie" "Cookie" v others eq_refl eq_refl).
  subst v. rewrite split_concat_semicolon.
  - apply get_cookie_loop_pairs.
    eapply Forall_impl; [| exact Hall]. now intros kv [H _].
  - destruct kvs; [now destruct Hne | discriminate].
  - apply Forall_map. eapply Forall_impl; [| exact Hall]. now intros kv [_ H].
Qed.

(** Three cookies, one with spaces around the "=". *)
Lemma get_cookie_lookup_witness :
  get_cookie ["Cookie: id=7; theme = dark; id=8"; "Host: a"] "theme" =
  Ok (Some "dark") /\
  get_cookie ["Cookie: id=7; theme = dark; id=8"; "Host: a"] "id" =
  Ok (Some "7").
Proof.
  split.
  - refine (get_cookie_lookup [("id", "7"); ("theme ", " dark"); ("id", "8")]
              "theme" ["Host: a"] _ _); [discriminate |].
    repeat constructor.
  - refine (get_cookie_lookup [("id", "7"); ("theme ", " dark"); ("id", "8")]
              "id" ["Host: a"] _ _); [discriminate |].
    repeat constructor.
Defined.


(** ** More on requests and sessions *)

(** X8.  A chunked request.  When the head has a three-word request line
    and a header "Transfer-Encoding: chunked" (this value exactly), the
    answer is "411 LENGTH REQUIRED" and nothing else is done: no body is
    read, whatever the Content-Length, no handler and no integer parser
    is called, and the error counter goes up by one. *)
Theorem chunked_request_gets_411
  (E : Env) (w : World) (data : str) (c1 : Connection.t)
  (request_line : str) (headers : list str) (m p v : str) :
  read_until_blank_line (conn w) = (Ok (inl data), c1) ->
  Py.splitlines data = request_line :: headers ->
  Py.split_ws request_line = [m; p; v] ->
  get_header_value headers "Transfer-Encoding" = Some "chunked" ->
  let resp := Response.make "411 LENGTH REQUIRED" (Some "text/plain")
                (BodyStr "Your request uses chunked transfer encoding, sorry!") in
  let w' := snd (handle_one_http_request E w) in
  handle_one_http_request E w = send_http_response E resp (head_read E w c1) /\
  fst (handle_one_http_request E w) = Ok tt /\
  Statistics.num_errors (stats w') = (Statistics.num_errors (stats w) + 1)%Z /\
  Socket.inbox (Connection.sock (conn w')) = Socket.inbox (Connection.sock c1) /\
  Connection.leftover_data (conn w') = Connection.leftover_data c1 /\
  forall pi h1 h2 h3 h4,
    handle_one_http_request
      (mkEnv (clock E) (strftime_gmt E) pi h1 h2 h3 h4) w =
    handle_one_http_request E w.
Proof.
  intros Hread Hlines Hwords Hte.
  assert (Hrun : forall E',
            handle_one_http_request E' w =
            send_http_response E'
              (Response.make "411 LENGTH REQUIRED" (Some "text/plain")
                 (BodyStr "Your request uses chunked transfer encoding, sorry!"))
              (head_read E' w c1)).
  { intro E'. rewrite handle_one_http_request_eq, Hread, Hlines, Hwords.
    unfold dispatch_request. now rewrite Hte. }
  cbv zeta. split; [apply Hrun |].
  rewrite (Hrun E), send_http_response_run. simpl.
  repeat split.
  intros pi h1 h2 h3 h4. now rewrite Hrun, send_http_response_run.
Qed.

(** A chunked POST that also announces a length. *)
Lemma chunked_request_gets_411_witness :
  let w := new_world Statistics.init
             [RecvData ("POST /up HTTP/1.1" ++ CRLF ++ "Content-Length: 3" ++ CRLF ++
                        "transfer-encoding: chunked" ++ BLANK_LINE ++ "abc")] in
  let resp := Response.make "411 LENGTH REQUIRED" (Some "text/plain")
                (BodyStr "Your request uses chunked transfer encoding, sorry!") in
  let w' := snd (handle_one_http_request sample_env w) in
  handle_one_http_request sample_env w =
    send_http_response sample_env resp
      (head_read sample_env w (Connection.after_read [] "abc" (conn w))) /\
  fst (handle_one_http_request sample_env w) = Ok tt /\
  Statistics.num_errors (stats w') = 1%Z /\
  Socket.inbox (Connection.sock (conn w')) = [] /\
  Connection.leftover_data (conn w') = "abc" /\
  forall pi h1 h2 h3 h4,
    handle_one_http_request
      (mkEnv (clock sample_env) (strftime_gmt sample_env) pi h1 h2 h3 h4) w =
    handle_one_http_request sample_env w.
Proof.
  exact (chunked_request_gets_411 sample_env
           (new_world Statistics.init
              [RecvData ("POST /up HTTP/1.1" ++ CRLF ++ "Content-Length: 3" ++ CRLF ++
                         "transfer-encoding: chunked" ++ BLANK_LINE ++ "abc")])
           ("POST /up HTTP/1.1" ++ CRLF ++ "Content-Length: 3" ++ CRLF ++
            "transfer-encoding: chunked")
           (Connection.after_read [] "abc"
              (new_connection
                 [RecvData ("POST /up HTTP/1.1" ++ CRLF ++ "Content-Length: 3" ++ CRLF ++
                            "transfer-encoding: chunked" ++ BLANK_LINE ++ "abc")]
                 0%float))
           "POST /up HTTP/1.1" ["Content-Length: 3"; "transfer-encoding: chunked"]
           "POST" "/up" "HTTP/1.1" eq_refl eq_refl eq_refl eq_refl).
Defined.

(** X9.  A method other than GET.  When the head has a three-word request
    line whose method is not "GET" (in capitals), no chunked transfer
    encoding, and either no Content-Length or one that [int()] accepts
    and whose body [read_amount] reads without an exception (it may
    return [None]), the answer is "405 METHOD NOT ALLOWED", sent after
    the body has been read; its text names POST and PUT for these two and
    the method itself for any other.  No handler is called. *)
Theorem other_method_gets_405
  (E : Env) (w : World) (data : str) (c1 c2 : Connection.t)
  (request_line : str) (headers : list str) (m p v : str) :
  read_until_blank_line (conn w) = (Ok (inl data), c1) ->
  Py.splitlines data = request_line :: headers ->
  Py.split_ws request_line = [m; p; v] ->
  m <> "GET" ->
  get_header_value headers "Transfer-Encoding" <> Some "chunked" ->
  match get_header_value headers "Content-Length" with
  | Some n =>
      exists len body,
        py_int E n = Some len /\
        read_amount len (conn (head_read E w c1)) = (Ok body, c2)
  | None => c2 = conn (head_read E w c1)
  end ->
  let resp := Response.make "405 METHOD NOT ALLOWED" (Some "text/plain")
                (BodyStr (if String.eqb m "POST" || String.eqb m "PUT"
                          then "PUT and POST methods not yet supported"
                          else "Unrecognized method: " ++ m)) in
  let w1 := mkWorld (stats w) c2 (S (ticks w)) in
  handle_one_http_request E w = send_http_response E resp w1 /\
  Socket.sent (Connection.sock (conn (snd (handle_one_http_request E w)))) =
    (Socket.sent (Connection.sock c2) ++ response_writes E resp (S (ticks w)))%list /\
  forall h1 h2 h3 h4,
    handle_one_http_request
      (mkEnv (clock E) (strftime_gmt E) (py_int E) h1 h2 h3 h4) w =
    handle_one_http_request E w.
Proof.
  intros Hread Hlines Hwords Hm Hte Hcl.
  assert (Hchunk : match get_header_value headers "Transfer-Encoding" with
                   | Some v0 => String.eqb v0 "chunked"
                   | None => false
                   end = false).
  { destruct (get_header_value headers "Transfer-Encoding") as [te|]; trivial.
    destruct (String.eqb_spec te "chunked") as [->|]; [now destruct Hte | trivial]. }
  apply String.eqb_neq in Hm.
  assert (Hrun : forall h1 h2 h3 h4,
            handle_one_http_request
              (mkEnv (clock E) (strftime_gmt E) (py_int E) h1 h2 h3 h4) w =
            send_http_response E
              (Response.make "405 METHOD NOT ALLOWED" (Some "text/plain")
                 (BodyStr (if String.eqb m "POST" || String.eqb m "PUT"
                           then "PUT and POST methods not yet supported"
                           else "Unrecognized method: " ++ m)))
              (mkWorld (stats w) c2 (S (ticks w)))).
  { intros h1 h2 h3 h4.
    rewrite handle_one_http_request_eq, Hread, Hlines, Hwords.
    unfold dispatch_request. rewrite Hchunk. unfold bind, ret.
    cbn [py_int].
    destruct (get_header_value headers "Content-Length") as [n|].
    - destruct Hcl as (len & body & Hint & Hbody). rewrite Hint.
      unfold on_conn. unfold head_read in Hbody |- *.
      cbn [clock conn stats ticks] in Hbody |- *. rewrite Hbody.
      cbn [Request.method]. rewrite Hm.
      destruct (String.eqb m "POST" || String.eqb m "PUT");
        cbv beta iota; rewrite !send_http_response_run; reflexivity.
    - subst c2. unfold head_read. cbn [clock conn stats ticks Request.method].
      rewrite Hm.
      destruct (String.eqb m "POST" || String.eqb m "PUT");
        cbv beta iota; rewrite !send_http_response_run; reflexivity. }
  assert (Hrun' : handle_one_http_request E w =
            send_http_response E
              (Response.make "405 METHOD NOT ALLOWED" (Some "text/plain")
                 (BodyStr (if String.eqb m "POST" || String.eqb m "PUT"
                           then "PUT and POST methods not yet supported"
                           else "Unrecognized method: " ++ m)))
              (mkWorld (stats w) c2 (S (ticks w)))).
  { clear Hcl. destruct E as [ck sf pi h1 h2 h3 h4]. apply (Hrun h1 h2 h3 h4). }
  cbv zeta. split; [exact Hrun' |]. split.
  - rewrite Hrun', send_http_response_run. reflexivity.
  - intros h1 h2 h3 h4. now rewrite Hrun, Hrun'.
Qed.

(** A DELETE request with a body of three bytes. *)
Lemma other_method_gets_405_witness :
  let w := new_world Statistics.init
             [RecvData ("DELETE /x HTTP/1.1" ++ CRLF ++ "Content-Length: 3" ++
                        BLANK_LINE ++ "abcdef")] in
  let resp := Response.make "405 METHOD NOT ALLOWED" (Some "text/plain")
                (BodyStr "Unrecognized method: DELETE") in
  let c2 := Connection.with_last_active_time 0%float
              (Connection.after_read [] "def" (conn w)) in
  handle_one_http_request sample_env w =
    send_http_response sample_env resp (mkWorld Statistics.init c2 1) /\
  Socket.sent (Connection.sock (conn (snd (handle_one_http_request sample_env w)))) =
    response_writes sample_env resp 1 /\
  forall h1 h2 h3 h4,
    handle_one_http_request
      (mkEnv (clock sample_env) (strftime_gmt sample_env) (py_int sample_env)
         h1 h2 h3 h4) w =
    handle_one_http_request sample_env w.
Proof.
  refine (other_method_gets_405 sample_env
            (new_world Statistics.init
               [RecvData ("DELETE /x HTTP/1.1" ++ CRLF ++ "Content-Length: 3" ++
                          BLANK_LINE ++ "abcdef")])
            ("DELETE /x HTTP/1.1" ++ CRLF ++ "Content-Length: 3")
            (Connection.after_read [] "abcdef"
               (new_connection
                  [RecvData ("DELETE /x HTTP/1.1" ++ CRLF ++ "Content-Length: 3" ++
                             BLANK_LINE ++ "abcdef")] 0%float))
            (Connection.with_last_active_time 0%float
               (Connection.after_read [] "def"
                  (new_connection
                     [RecvData ("DELETE /x HTTP/1.1" ++ CRLF ++ "Content-Length: 3" ++
                                BLANK_LINE ++ "abcdef")] 0%float)))
            "DELETE /x HTTP/1.1" ["Content-Length: 3"] "DELETE" "/x" "HTTP/1.1"
            eq_refl eq_refl eq_refl _ _ _).
  - discriminate.
  - discriminate.
  - exists 3%Z, (Some "abc"). split; reflexivity.
Defined.


Lemma at_most_one_response_none (E : Env) (w w' : World) :
  Socket.sent (Connection.sock (conn w')) = Socket.sent (Connection.sock (conn w)) ->
  at_most_one_response E w w'.
Proof. intro H. exists []. rewrite H, app_nil_r. split; [reflexivity | now left]. Qed.

Lemma at_most_one_response_send (E : Env) (resp : Response.t) (w0 w : World) :
  Socket.sent (Connection.sock (conn w)) = Socket.sent (Connection.sock (conn w0)) ->
  at_most_one_response E w0 (snd (send_http_response E resp w)).
Proof.
  intro H. exists (response_writes E resp (ticks w)).
  rewrite send_http_response_run. simpl. rewrite H.
  split; [reflexivity | right; eauto].
Qed.

Lemma handle_one_http_request_one_response (E : Env) (w : World) :
  at_most_one_response E w (snd (handle_one_http_request E w)).
Proof.
  destruct (handle_one_http_request_cases E w)
    as [(resp & w1 & (_ & R & _) & ->) | (r & w1 & (_ & R & _) & ->)].
  - now apply at_most_one_response_send.
  - now apply at_most_one_response_none.
Qed.

(** X10.  One response at most.  Whatever the client sends and whatever
    the handlers do, a session writes to its socket either nothing or the
    head and body of a single response. *)
Theorem session_writes_at_most_one_response (E : Env) (w : World) :
  at_most_one_response E (session_start w) (snd (handle_http_connection E w)) /\
  exists writes : list bytes,
    Socket.sent (Connection.sock (conn (snd (handle_http_connection E w)))) =
      (Socket.sent (Connection.sock (conn w)) ++ writes)%list /\
    List.length writes <= 2.
Proof.
  assert (H : at_most_one_response E (session_start w)
                (snd (handle_http_connection E w))).
  { pose proof (handle_one_http_request_one_response E (session_start w)) as H.
    rewrite handle_http_connection_eq.
    destruct (handle_one_http_request E (session_start w)) as [[u|e] w1];
      exact H. }
  split; [exact H |].
  destruct H as (writes & Hs & Hw). exists writes. split; [exact Hs |].
  destruct Hw as [-> | (resp & tick & ->)]; [simpl; lia |].
  unfold response_writes. destruct (snd (content_part resp)); simpl; lia.
Qed.

(** X11.  The counters of a session.  On every path, exceptions
    included, a session leaves [active_connections] and
    [total_connections] as it found them, adds at most one to the error
    counter and to the request counter, and calls [close] on its socket
    once. *)
Theorem session_restores_active_connections (E : Env) (w : World) :
  let s := stats w in
  let s' := stats (snd (handle_http_connection E w)) in
  Statistics.active_connections s' = Statistics.active_connections s /\
  Statistics.total_connections s' = Statistics.total_connections s /\
  (Statistics.num_errors s <= Statistics.num_errors s' <=
   Statistics.num_errors s + 1)%Z /\
  (Statistics.num_requests s <= Statistics.num_requests s' <=
   Statistics.num_requests s + 1)%Z /\
  Socket.close_calls (Connection.sock (conn (snd (handle_http_connection E w)))) =
    S (Socket.close_calls (Connection.sock (conn w))).
Proof.
  cbv zeta.
  destruct (handle_http_connection_stats E w)
    as (errors & completion & He & Hc & Hs).
  rewrite Hs. split; [| split; [| split; [| split]]].
  - destruct He as [-> | ->]; destruct Hc as [-> | (d & ->)]; simpl; lia.
  - destruct He as [-> | ->]; destruct Hc as [-> | (d & ->)]; simpl; lia.
  - destruct He as [-> | ->]; destruct Hc as [-> | (d & ->)]; simpl; lia.
  - destruct He as [-> | ->]; destruct Hc as [-> | (d & ->)]; simpl; lia.
  - pose proof (handle_one_http_request_frame E (session_start w)) as F.
    rewrite handle_http_connection_eq.
    destruct (handle_one_http_request E (session_start w)) as [[u|e] w1];
      simpl in F; destruct F as (_ & _ & _ & _ & _ & _ & _ & F8);
      simpl in *; now rewrite F8.
Qed.


(** ** Addresses *)

Lemma below_256 (P : nat -> bool) :
  forallb P (seq 0 256) = true -> forall n, n < 256 -> P n = true.
Proof.
  intros H n Hn. rewrite forallb_forall in H. apply H, in_seq. lia.
Qed.

Lemma str_of_nat_no_dot (n : nat) :
  n < 256 -> Py.contains "." (Py.str_of_nat n) = false.
Proof.
  intro Hn.
  apply (below_256 (fun k => negb (Py.contains "." (Py.str_of_nat k)))) in Hn.
  - now apply negb_true_iff in Hn.
  - vm_compute. reflexivity.
Qed.

Lemma split_dot_cons (a rest : string) :
  Py.contains "." a = false ->
  Py.split "." (a ++ "." ++ rest) = a :: Py.split "." rest.
Proof.
  intro Ha. rewrite split_eq by discriminate.
  now rewrite (split_once_char "."%char a rest Ha).
Qed.

Lemma split_dot_last (a : string) :
  Py.contains "." a = false -> Py.split "." a = [a].
Proof.
  intro Ha. rewrite split_eq by discriminate.
  unfold Py.contains in Ha. now destruct (Py.split_once "." a).
Qed.

(** X12.  Dotted quads are typical addresses.  If [int()] reads back the
    decimal writing of every number below 256, then the four numbers
    below 256, written in decimal and joined by dots, are accepted. *)
Theorem isTypicalIPv4Address_dotted_quad
  (int_of_str : str -> option Z) (a b c d : nat) :
  (forall n, n < 256 -> int_of_str (Py.str_of_nat n) = Some (Z.of_nat n)) ->
  a < 256 -> b < 256 -> c < 256 -> d < 256 ->
  isTypicalIPv4Address int_of_str (dotted_quad a b c d) = true.
Proof.
  intros Hint Ha Hb Hc Hd. unfold isTypicalIPv4Address, dotted_quad.
  rewrite (split_dot_cons _ _ (str_of_nat_no_dot a Ha)).
  rewrite (split_dot_cons _ _ (str_of_nat_no_dot b Hb)).
  rewrite (split_dot_cons _ _ (str_of_nat_no_dot c Hc)).
  rewrite (split_dot_last _ (str_of_nat_no_dot d Hd)).
  cbn [List.length Nat.eqb forallb andb].
  rewrite !Hint by assumption.
  repeat match goal with
         | |- context [(0 <=? Z.of_nat ?k)%Z] =>
             replace (0 <=? Z.of_nat k)%Z with true
               by (symmetry; apply Z.leb_le; lia)
         | |- context [(Z.of_nat ?k <? 256)%Z] =>
             replace (Z.of_nat k <? 256)%Z with true
               by (symmetry; apply Z.ltb_lt; lia)
         end.
  reflexivity.
Qed.

Lemma ascii_int_str_of_nat (n : nat) :
  n < 256 -> ascii_int (Py.str_of_nat n) = Some (Z.of_nat n).
Proof.
  intro Hn.
  apply (below_256
           (fun k => match ascii_int (Py.str_of_nat k) with
                     | Some z => Z.eqb z (Z.of_nat k)
                     | None => false
                     end)) in Hn.
  - destruct (ascii_int (Py.str_of_nat n)); [| discriminate].
    apply Z.eqb_eq in Hn. now subst.
  - vm_compute. reflexivity.
Qed.

(** The loopback address. *)
Lemma isTypicalIPv4Address_dotted_quad_witness :
  isTypicalIPv4Address ascii_int "127.0.0.1" = true.
Proof.
  refine (isTypicalIPv4Address_dotted_quad ascii_int 127 0 0 1
            ascii_int_str_of_nat _ _ _ _); lia.
Defined.

(** X13.  What a typical address is.  A text is accepted exactly when it
    has three dots and each of the four parts between them is read by
    [int()] as a number from 0 to 255; a host name, or an address with
    more or fewer parts, is not. *)
Theorem isTypicalIPv4Address_spec (int_of_str : str -> option Z) (s : str) :
  isTypicalIPv4Address int_of_str s = true <->
  count_char "." s = 3 /\
  Forall (fun p => exists n, int_of_str p = Some n /\ (0 <= n < 256)%Z)
         (Py.split "." s).
Proof.
  unfold isTypicalIPv4Address.
  rewrite andb_true_iff, Nat.eqb_eq, forallb_forall, Forall_forall.
  rewrite (split_char_length "."%char (String.length s) s (Nat.le_refl _)).
  split; intros [H3 Hall]; (split; [lia |]); intros p Hp; specialize (Hall p Hp).
  - destruct (int_of_str p) as [n|]; [| discriminate].
    exists n. apply andb_true_iff in Hall as [H0 H1].
    apply Z.leb_le in H0. apply Z.ltb_lt in H1. split; [reflexivity | lia].
  - destruct Hall as (n & -> & H0 & H1).
    apply andb_true_iff. split; [now apply Z.leb_le | now apply Z.ltb_lt].
Qed.


(** ** Files *)

Lemma commonprefix_startswith (a b : str) :
  Path.commonprefix a b = b <-> Py.startswith a b = true.
Proof.
  revert a; induction b as [|y b IH]; intros [|x a]; simpl;
    try (split; [reflexivity | reflexivity]);
    try (split; discriminate).
  rewrite Ascii.eqb_sym.
  destruct (Ascii.eqb_spec y x) as [->|Hne]; simpl.
  - rewrite <- IH. split; [now intros [= ->] | now intros ->].
  - split; discriminate.
Qed.

(** X14.  Which files are served.  The file handler answers "200 OK"
    only with the content of a regular file whose normalised path starts,
    as a text, with the server root, and always as "text/html"; a path
    that does not start with the root is refused with "403 FORBIDDEN"
    without a look at the file system; a path that starts with it and is
    not a regular file gives "404 NOT FOUND". *)
Theorem handle_http_get_file_cases (fs : FileSystem) (server_root url_path : str) :
  let file_path := Path.normpath (server_root ++ url_path) in
  let resp := Files.handle_http_get_file fs server_root url_path in
  (Py.startswith file_path server_root = false ->
     resp = Response.make "403 FORBIDDEN" (Some "text/plain")
              (BodyStr ("Permission denied: " ++ url_path))) /\
  (Py.startswith file_path server_root = true -> isfile fs file_path = false ->
     resp = Response.make "404 NOT FOUND" (Some "text/plain")
              (BodyStr ("No such file: " ++ url_path))) /\
  (Response.code resp = "200 OK" ->
     exists data,
       Py.startswith file_path server_root = true /\
       isfile fs file_path = true /\
       read_file fs file_path = Some data /\
       resp = Response.make "200 OK" (Some "text/html") (BodyBytes data)).
Proof.
  cbv zeta. unfold Files.handle_http_get_file.
  set (file_path := Path.normpath (server_root ++ url_path)).
  destruct (String.eqb_spec (Path.commonprefix file_path server_root) server_root)
    as [Hcp|Hcp]; cbn [negb].
  - apply commonprefix_startswith in Hcp. rewrite Hcp.
    split; [discriminate |]. split.
    + now intros _ ->.
    + destruct (isfile fs file_path); cbn [negb]; [| discriminate].
      destruct (read_file fs file_path) as [data|]; [| discriminate].
      intros _. now exists data.
  - assert (Hsw : Py.startswith file_path server_root = false).
    { destruct (Py.startswith file_path server_root) eqn:S; trivial.
      apply commonprefix_startswith in S. now destruct Hcp. }
    rewrite Hsw. split; [reflexivity |]. split; discriminate.
Qed.

Lemma split_char_cons (c : ascii) (a rest : string) :
  Py.contains (String c "") a = false ->
  Py.split (String c "") (a ++ String c "" ++ rest) = a :: Py.split (String c "") rest.
Proof.
  intro Ha. rewrite split_eq by discriminate.
  now rewrite (split_once_char c a rest Ha).
Qed.

Lemma split_char_last (c : ascii) (a : string) :
  Py.contains (String c "") a = false -> Py.split (String c "") a = [a].
Proof.
  intro Ha. rewrite split_eq by discriminate.
  unfold Py.contains in Ha. now destruct (Py.split_once (String c "") a).
Qed.

(** A component that starts with a plain character is kept by
    [normpath] as it is. *)
Lemma norm_step_plain (slashes : nat) (comps : list str) (c0 : ascii) (r : str) :
  c0 <> "."%char ->
  Path.norm_step slashes comps (String c0 r) = (comps ++ [String c0 r])%list.
Proof.
  intro Hc. apply Ascii.eqb_neq in Hc. unfold Path.norm_step.
  cbn [String.eqb]. rewrite Hc. reflexivity.
Qed.

(** [normpath] on a path that is not empty and does not start with a
    slash. *)
Lemma normpath_relative (path : str) :
  path <> "" -> Py.startswith path "/" = false ->
  Path.normpath path =
  let path' := String.concat "/"
                 (fold_left (Path.norm_step 0) (Py.split "/" path) []) in
  if String.eqb path' "" then "." else path'.
Proof.
  intros H0 Hs. unfold Path.normpath, Path.initial_slashes.
  apply String.eqb_neq in H0. now rewrite H0, Hs.
Qed.

(** X15.  The root is compared as a text, not as a directory.  Let the
    root be a single name that starts with neither "." nor "/", and let
    a regular file [f] stand in a directory beside the root whose name is
    the name of the root and some more characters.  The path
    "/../" + that directory + "/" + [f] passes the check and the file is
    served. *)
Theorem handle_http_get_file_sibling
  (fs : FileSystem) (c0 : ascii) (r0 more f : str) (data : bytes) :
  let server_root := String c0 r0 in
  let file_path := server_root ++ more ++ "/" ++ f in
  c0 <> "."%char -> c0 <> "/"%char ->
  Py.contains "/" r0 = false -> Py.contains "/" more = false ->
  Py.contains "/" f = false -> f <> "" -> f <> "." -> f <> ".." ->
  isfile fs file_path = true ->
  read_file fs file_path = Some data ->
  Files.normalised_root server_root = server_root /\
  Path.normpath (server_root ++ "/../" ++ file_path) = file_path /\
  Files.handle_http_get_file fs server_root ("/../" ++ file_path) =
    Response.make "200 OK" (Some "text/html") (BodyBytes data).
Proof.
  cbv zeta. intros Hdot Hslash Hr0 Hmore Hf Hf0 Hf1 Hf2 Hfile Hread.
  assert (Hroot : Py.contains "/" (String c0 r0) = false).
  { rewrite contains_char_cons, Hr0, orb_false_r.
    apply Ascii.eqb_neq. congruence. }
  assert (Hs0 : forall t, Py.startswith (String c0 t) "/" = false).
  { intro t. cbn [Py.startswith]. apply Ascii.eqb_neq in Hslash.
    rewrite Ascii.eqb_sym in Hslash. now rewrite Hslash. }
  assert (Hfstep : forall comps,
            Path.norm_step 0 comps f = (comps ++ [f])%list).
  { intro comps. unfold Path.norm_step.
    apply String.eqb_neq in Hf0, Hf1, Hf2. now rewrite Hf0, Hf1, Hf2. }
  assert (Hnorm : Path.normpath
                    (String c0 r0 ++ "/../" ++ String c0 r0 ++ more ++ "/" ++ f) =
                  String c0 r0 ++ more ++ "/" ++ f).
  { rewrite normpath_relative
      by (cbn [String.append]; first [discriminate | apply Hs0]).
    replace (String c0 r0 ++ "/../" ++ String c0 r0 ++ more ++ "/" ++ f)
      with (String c0 r0 ++ "/" ++ ".." ++ "/" ++
            (String c0 (r0 ++ more)) ++ "/" ++ f)
      by (cbn [String.append]; now rewrite !sapp_assoc).
    rewrite (split_char_cons "/"%char _ _ Hroot).
    rewrite (split_char_cons "/"%char ".." _ eq_refl).
    rewrite (split_char_cons "/"%char (String c0 (r0 ++ more)) f).
    2:{ rewrite contains_char_cons, contains_char_app, Hr0, Hmore.
        apply Ascii.eqb_neq in Hslash. rewrite Ascii.eqb_sym in Hslash.
        now rewrite Hslash. }
    rewrite (split_char_last "/"%char f Hf).
    cbn [fold_left]. rewrite (norm_step_plain 0 [] c0 r0 Hdot).
    cbn [app].
    assert (Hpop : Path.norm_step 0 [String c0 r0] ".." = []).
    { unfold Path.norm_step. cbn [String.eqb Ascii.eqb Bool.eqb orb negb andb
        Nat.eqb Path.is_nil last removelast].
      apply Ascii.eqb_neq in Hdot. now rewrite Hdot. }
    rewrite Hpop, (norm_step_plain 0 [] c0 (r0 ++ more) Hdot). cbn [app].
    rewrite Hfstep. cbn [app String.concat String.append String.eqb].
    now rewrite sapp_assoc. }
  split; [| split].
  - unfold Files.normalised_root.
    rewrite normpath_relative
      by (cbn [String.append]; first [discriminate | apply Hs0]).
    change (String c0 r0 ++ "/") with (String c0 r0 ++ "/" ++ "").
    rewrite (split_char_cons "/"%char _ _ Hroot).
    change (Py.split "/" "") with [""].
    cbn [fold_left]. rewrite (norm_step_plain 0 [] c0 r0 Hdot).
    reflexivity.
  - exact Hnorm.
  - unfold Files.handle_http_get_file. rewrite Hnorm.
    assert (Hcp : Path.commonprefix (String c0 r0 ++ more ++ "/" ++ f) (String c0 r0)
                  = String c0 r0) by (apply commonprefix_startswith, startswith_app).
    rewrite Hcp, String.eqb_refl, Hfile, Hread. reflexivity.
Qed.

(** The root "web_root" and the file "web_root_private/secret.txt". *)
Lemma handle_http_get_file_sibling_witness :
  let fs := mkFileSystem (fun p => String.eqb p "web_root_private/secret.txt")
                         (fun p => Some "top secret") in
  Files.normalised_root "web_root" = "web_root" /\
  Path.normpath ("web_root" ++ "/../web_root_private/secret.txt") =
    "web_root_private/secret.txt" /\
  Files.handle_http_get_file fs "web_root" "/../web_root_private/secret.txt" =
    Response.make "200 OK" (Some "text/html") (BodyBytes "top secret").
Proof.
  refine (handle_http_get_file_sibling
            (mkFileSystem (fun p => String.eqb p "web_root_private/secret.txt")
                          (fun p => Some "top secret"))
            "w"%char "eb_root" "_private" "secret.txt" "top secret"
            _ _ eq_refl eq_refl eq_refl _ _ _ eq_refl eq_refl); discriminate.
Defined.


(** ** The frame of a response *)

Lemma plain_app (a b : string) : plain (a ++ b) = plain a && plain b.
Proof.
  induction a as [|c a IH]; simpl; [reflexivity |].
  now rewrite IH, andb_assoc.
Qed.

Lemma plain_not_cr (c : ascii) (r : string) :
  plain (String c r) = true -> Ascii.eqb CR c = false /\ plain r = true.
Proof.
  intro H. cbn [plain] in H. apply andb_true_iff in H as [Hc Hr].
  apply negb_true_iff, orb_false_iff in Hc as [Hcr _].
  rewrite Ascii.eqb_sym. now split.
Qed.

(** No blank line starts inside a plain text. *)
Lemma split_once_plain (l s : string) :
  plain l = true ->
  Py.split_once BLANK_LINE (l ++ s) =
  match Py.split_once BLANK_LINE s with
  | Some (a, b) => Some (l ++ a, b)
  | None => None
  end.
Proof.
  induction l as [|c l IH]; intro Hl.
  - simpl. now destruct (Py.split_once BLANK_LINE s) as [[a b]|].
  - destruct (plain_not_cr _ _ Hl) as [Hc Hl'].
    cbn [String.append]. rewrite split_once_eq.
    change BLANK_LINE with (String CR (String LF (String CR (String LF "")))) at 1.
    cbn [Py.startswith]. rewrite Hc. cbn [andb].
    rewrite (IH Hl'). now destruct (Py.split_once BLANK_LINE s) as [[a b]|].
Qed.

(** Nor at the CRLF before a plain line that is not empty. *)
Lemma split_once_crlf_line (l s : string) :
  plain l = true -> l <> "" ->
  Py.split_once BLANK_LINE (CRLF ++ l ++ s) =
  match Py.split_once BLANK_LINE s with
  | Some (a, b) => Some (CRLF ++ l ++ a, b)
  | None => None
  end.
Proof.
  intros Hl Hne. destruct l as [|c l]; [now destruct Hne |].
  destruct (plain_not_cr _ _ Hl) as [Hc _].
  change (CRLF ++ String c l ++ s)
    with (String CR (String LF (String c l ++ s))).
  rewrite split_once_eq.
  change BLANK_LINE with (String CR (String LF (String CR (String LF "")))) at 1.
  cbn [Py.startswith String.append]. rewrite Hc, !andb_false_r.
  rewrite split_once_eq.
  change BLANK_LINE with (String CR (String LF (String CR (String LF "")))) at 1.
  cbn [Py.startswith].
  change (Ascii.eqb CR LF) with false. cbn [andb].
  change (String c (l ++ s)) with (String c l ++ s).
  rewrite (split_once_plain _ s Hl).
  now destruct (Py.split_once BLANK_LINE s) as [[a b]|].
Qed.

Lemma split_once_preceded (lines : list str) (body : string) :
  Forall (fun l => plain l = true /\ l <> "") lines ->
  Py.split_once BLANK_LINE (preceded lines ++ BLANK_LINE ++ body) =
  Some (preceded lines, body).
Proof.
  intro H. induction H as [|l lines [Hl Hne] _ IH].
  - simpl preceded. cbn [String.append].
    rewrite split_once_eq.
    change (BLANK_LINE ++ body) with (BLANK_LINE ++ body).
    now rewrite startswith_app.
  - cbn [preceded fold_right]. fold (preceded lines).
    rewrite !sapp_assoc.
    rewrite (split_once_crlf_line l _ Hl Hne), IH.
    reflexivity.
Qed.

Lemma preceded_terminated (lines : list str) (l1 : str) :
  l1 ++ preceded lines ++ CRLF = terminated (l1 :: lines).
Proof.
  revert l1. induction lines as [|l lines IH]; intro l1.
  - reflexivity.
  - cbn [preceded fold_right]. fold (preceded lines).
    rewrite !sapp_assoc, (IH l). reflexivity.
Qed.

Lemma terminated_app (a b : list str) :
  terminated (a ++ b) = terminated a ++ terminated b.
Proof.
  induction a as [|l a IH]; [reflexivity |].
  cbn [app terminated fold_right]. fold (terminated (a ++ b)) (terminated a).
  now rewrite IH, !sapp_assoc.
Qed.

Lemma cookie_lines_terminated (expiration : str) (cookies : list str) (acc : str) :
  fold_left
    (fun data cookie =>
       data ++ "Set-Cookie: " ++ cookie ++ "; Expires=" ++ expiration ++ CRLF)
    cookies acc =
  acc ++ terminated
           (map (fun cookie => "Set-Cookie: " ++ cookie ++ "; Expires=" ++ expiration)
                cookies).
Proof.
  revert acc. induction cookies as [|c cookies IH]; intro acc.
  - simpl. now rewrite sapp_nil_r.
  - cbn [fold_left map terminated fold_right]. rewrite IH.
    fold (terminated
            (map (fun cookie => "Set-Cookie: " ++ cookie ++ "; Expires=" ++ expiration)
                 cookies)).
    now rewrite !sapp_assoc.
Qed.

(** The head is its lines, each with its CRLF, and the blank line's
    CRLF. *)
Lemma response_head_lines (E : Env) (resp : Response.t) (tick : nat) :
  response_head E resp tick = terminated (response_lines E resp tick) ++ CRLF.
Proof.
  unfold response_head, response_lines, content_part, cookie_lines.
  rewrite !terminated_app.
  destruct (Response.cookies resp) as [cs|];
    destruct (Response.mime_type resp) as [m|];
    rewrite ?cookie_lines_terminated; cbn [fst terminated fold_right];
    rewrite ?sapp_assoc; cbn [String.append]; rewrite ?sapp_assoc;
    reflexivity.
Qed.

Lemma plain_str_of_nat (n : nat) : plain (Py.str_of_nat n) = true.
Proof.
  unfold Py.str_of_nat. generalize (Nat.to_uint n) as u.
  induction u; simpl; trivial.
Qed.

Section ResponseFrame.

Variables (E : Env) (resp : Response.t) (tick : nat).

Hypothesis Hcode : plain (Response.code resp) = true.
Hypothesis Hdate : forall t, plain (strftime_gmt E t) = true.
Hypothesis Hcookies :
  forall cookies, Response.cookies resp = Some cookies ->
                  Forall (fun c => plain c = true) cookies.
Hypothesis Hmime :
  forall mime, Response.mime_type resp = Some mime -> plain mime = true.

Lemma response_lines_plain :
  Forall (fun l => plain l = true /\ l <> "") (response_lines E resp tick).
Proof.
  unfold response_lines. cbv zeta.
  apply Forall_app; split; [| apply Forall_app; split].
  - repeat constructor; try discriminate.
    + now rewrite plain_app, Hcode.
    + now rewrite plain_app, Hdate.
  - destruct (Response.cookies resp) as [cs|] eqn:C; [| constructor].
    apply Forall_map. specialize (Hcookies cs eq_refl).
    eapply Forall_impl; [| exact Hcookies].
    intros c Hc. split; [| discriminate].
    now rewrite !plain_app, Hc, Hdate.
  - destruct (Response.mime_type resp) as [m|] eqn:M.
    + repeat constructor; try discriminate.
      * now rewrite plain_app, (Hmime m eq_refl).
      * now rewrite plain_app, plain_str_of_nat.
    + repeat constructor. discriminate.
Qed.

(** The first blank line of what is written for a response is the one
    that ends its head. *)
Lemma response_writes_split :
  let body := match snd (content_part resp) with Some b => b | None => "" end in
  let head := String.concat CRLF (response_lines E resp tick) in
  first_split BLANK_LINE (joined (response_writes E resp tick)) head body.
Proof.
  intros body head.
  pose proof response_lines_plain as Hlines.
  assert (Hhead : exists l1 ls,
            response_lines E resp tick = l1 :: ls /\
            head = l1 ++ preceded ls).
  { subst head. destruct (response_lines E resp tick) as [|l1 ls] eqn:R;
      [discriminate R |].
    exists l1, ls. split; [reflexivity |].
    clear. revert l1. induction ls as [|l ls IH]; intro l1.
    - simpl. now rewrite sapp_nil_r.
    - change (String.concat CRLF (l1 :: l :: ls))
        with (l1 ++ CRLF ++ String.concat CRLF (l :: ls)).
      rewrite (IH l). reflexivity. }
  destruct Hhead as (l1 & ls & R & Eh).
  assert (E1 : response_head E resp tick = head ++ BLANK_LINE).
  { rewrite response_head_lines, R, <- preceded_terminated, Eh.
    unfold BLANK_LINE. now rewrite !sapp_assoc. }
  apply split_once_first_split.
  assert (Ej : joined (response_writes E resp tick) = head ++ BLANK_LINE ++ body).
  { unfold response_writes, Py.encode. subst body. rewrite E1.
    destruct (snd (content_part resp)); simpl;
      rewrite ?sapp_nil_r, ?sapp_assoc; reflexivity. }
  rewrite Ej, Eh, sapp_assoc.
  rewrite R in Hlines. inversion Hlines as [|? ? [Hl1 _] Hls]; subst.
  rewrite (split_once_plain l1 _ Hl1), (split_once_preceded ls body Hls).
  reflexivity.
Qed.

End ResponseFrame.

(** X16.  The frame of a response.  When the status, the two date texts,
    the cookies and the mime type have no carriage return and no line
    feed, what [send_http_response] writes to the socket has its first
    blank line where the head ends.  Before it stand the lines of the
    head, joined by CRLF, none of them empty or broken: the first is the
    status line and the last the Content-Length header, whose value is a
    decimal numeral of the length of the body.  After it stands the body,
    whole and alone (no byte at all for a response without a mime
    type). *)
Theorem response_framing (E : Env) (resp : Response.t) (w : World) :
  plain (Response.code resp) = true ->
  (forall t, plain (strftime_gmt E t) = true) ->
  (forall cookies, Response.cookies resp = Some cookies ->
                   Forall (fun c => plain c = true) cookies) ->
  (forall mime, Response.mime_type resp = Some mime -> plain mime = true) ->
  let w' := snd (send_http_response E resp w) in
  let body := match Response.mime_type resp with
              | Some _ => coerced (Response.body resp)
              | None => ""
              end in
  exists (lines : list str) (writes : list bytes) (length_text : str),
    Socket.sent (Connection.sock (conn w')) =
      (Socket.sent (Connection.sock (conn w)) ++ writes)%list /\
    first_split BLANK_LINE (joined writes) (String.concat CRLF lines) body /\
    Forall (fun l => plain l = true /\ l <> "") lines /\
    hd "" lines = "HTTP/1.1 " ++ Response.code resp /\
    last lines "" = "Content-Length: " ++ length_text /\
    decimal_value length_text = Some (String.length body).
Proof.
  intros Hcode Hdate Hcookies Hmime. cbv zeta.
  exists (response_lines E resp (ticks w)), (response_writes E resp (ticks w)).
  exists (match Response.mime_type resp with
          | Some _ => Py.str_of_nat (String.length (coerced (Response.body resp)))
          | None => "0"
          end).
  assert (B : body_bytes (Response.body resp) = coerced (Response.body resp))
    by now destruct (Response.body resp).
  split; [now rewrite send_http_response_run |].
  split.
  { pose proof (response_writes_split E resp (ticks w) Hcode Hdate Hcookies Hmime) as S.
    cbv zeta in S. unfold content_part in S.
    destruct (Response.mime_type resp); cbn [snd] in S; [now rewrite B in S | exact S]. }
  split; [now apply response_lines_plain |].
  split; [reflexivity |].
  unfold response_lines. cbv zeta.
  destruct (Response.mime_type resp) as [m|].
  - split; [| apply decimal_value_str_of_nat].
    rewrite B.
    match goal with
    | |- last (app ?x (app ?c [?ct; ?cl])) _ = _ =>
        change [ct; cl] with ([ct] ++ [cl])%list; rewrite !app_assoc; apply last_last
    end.
  - split; [| reflexivity].
    match goal with
    | |- last (app ?x (app ?c [?cl])) _ = _ => rewrite app_assoc; apply last_last
    end.
Qed.

(** A page with a cookie, in the sample environment. *)
Lemma response_framing_witness :
  let resp := Response.mk "200 OK" (Some "text/plain") (BodyStr "hi") (Some ["id=7"]) in
  let w := new_world Statistics.init [] in
  exists (lines : list str) (writes : list bytes) (length_text : str),
    Socket.sent (Connection.sock (conn (snd (send_http_response sample_env resp w)))) =
      ([] ++ writes)%list /\
    first_split BLANK_LINE (joined writes) (String.concat CRLF lines) "hi" /\
    Forall (fun l => plain l = true /\ l <> "") lines /\
    hd "" lines = "HTTP/1.1 200 OK" /\
    last lines "" = "Content-Length: " ++ length_text /\
    decimal_value length_text = Some 2.
Proof.
  refine (response_framing sample_env
            (Response.mk "200 OK" (Some "text/plain") (BodyStr "hi") (Some ["id=7"]))
            (new_world Statistics.init []) eq_refl _ _ _).
  - intro t. reflexivity.
  - intros cookies H. injection H as <-. repeat constructor.
  - intros mime H. injection H as <-. reflexivity.
Defined.


(** ** The counters *)

Lemma stats_run_counts (ops : list StatsOp) :
  forall s : Statistics.t,
  let s' := stats_run ops s in
  Statistics.total_connections s' =
    (Statistics.total_connections s + count_ops is_accepted ops)%Z /\
  Statistics.active_connections s' =
    (Statistics.active_connections s + count_ops is_opened ops
     - count_ops is_closed ops)%Z /\
  Statistics.num_errors s' =
    (Statistics.num_errors s + count_ops is_error ops)%Z /\
  Statistics.num_requests s' =
    (Statistics.num_requests s + count_ops is_completed ops)%Z.
Proof.
  unfold count_ops.
  induction ops as [|op ops IH]; intro s; cbv zeta.
  - simpl. repeat split; lia.
  - cbn [stats_run fold_left]. fold (stats_run ops (stats_step s op)).
    destruct (IH (stats_step s op)) as (H1 & H2 & H3 & H4).
    rewrite H1, H2, H3, H4.
    destruct op; cbn [filter is_accepted is_opened is_closed is_error
                      is_completed List.length stats_step
                      Statistics.connection_accepted Statistics.connection_opened
                      Statistics.connection_closed Statistics.error_observed
                      Statistics.request_completed
                      Statistics.total_connections Statistics.active_connections
                      Statistics.num_errors Statistics.num_requests];
      repeat split; lia.
Qed.

(** X17.  The counters count.  After any interleaving of the updates
    made under the lock, from the start of the server, each counter is
    the number of the steps it stands for, and the active connections
    are the opened ones less the closed ones.  So as long as no more
    connections have been closed than opened, nor more opened than
    accepted, [0 <= active_connections <= total_connections]. *)
Theorem counters_count (ops : list StatsOp) :
  let s := stats_run ops Statistics.init in
  Statistics.total_connections s = count_ops is_accepted ops /\
  Statistics.active_connections s =
    (count_ops is_opened ops - count_ops is_closed ops)%Z /\
  Statistics.num_errors s = count_ops is_error ops /\
  Statistics.num_requests s = count_ops is_completed ops /\
  ((count_ops is_closed ops <= count_ops is_opened ops)%Z ->
   (count_ops is_opened ops <= count_ops is_accepted ops)%Z ->
   (0 <= Statistics.active_connections s <= Statistics.total_connections s)%Z).
Proof.
  cbv zeta.
  destruct (stats_run_counts ops Statistics.init) as (H1 & H2 & H3 & H4).
  simpl in H1, H2, H3, H4. rewrite H1, H2, H3, H4.
  repeat split; try lia.
  all: unfold count_ops in *; lia.
Qed.

(** X18.  A handler that fails.  A GET request for "/quote", without a
    body, when the quotation handler raises (the file of quotations
    cannot be opened): the exception leaves [handle_http_connection]; no
    response of any kind is sent and the request and timing statistics
    are not updated, while the socket is closed once and
    [active_connections] is back to its value. *)
Theorem quote_failure_propagates
  (E : Env) (w : World) (data : str) (c1 : Connection.t)
  (request_line : str) (headers : list str) (raw v : str) (e : exn) :
  read_until_blank_line (conn w) = (Ok (inl data), c1) ->
  Py.splitlines data = request_line :: headers ->
  Py.split_ws request_line = ["GET"; raw; v] ->
  request_path raw = "/quote" ->
  get_header_value headers "Transfer-Encoding" <> Some "chunked" ->
  get_header_value headers "Content-Length" = None ->
  handle_http_get_quote E (head_read E (session_start w) c1) = Raise e ->
  let w' := snd (handle_http_connection E w) in
  fst (handle_http_connection E w) = Raise e /\
  Socket.sent (Connection.sock (conn w')) = Socket.sent (Connection.sock (conn w)) /\
  stats w' =
    Statistics.connection_closed (Statistics.connection_opened (stats w)) /\
  Connection.num_requests (conn w') = Connection.num_requests (conn w) /\
  Socket.close_calls (Connection.sock (conn w')) =
    S (Socket.close_calls (Connection.sock (conn w))).
Proof.
  intros Hread Hlines Hwords Hpath Hte Hcl Hquote.
  assert (Hc1 : Socket.sent (Connection.sock c1) =
                  Socket.sent (Connection.sock (conn w)) /\
                Connection.num_requests c1 = Connection.num_requests (conn w) /\
                Socket.close_calls (Connection.sock c1) =
                  Socket.close_calls (Connection.sock (conn w))).
  { destruct (read_until_blank_line_frame (conn w)) as (i & l & F).
    rewrite Hread in F. simpl in F. now subst c1. }
  destruct Hc1 as (Hsent & Hnum & Hclose).
  assert (Hrun : handle_one_http_request E (session_start w) =
                 (Raise e, head_read E (session_start w) c1)).
  { rewrite handle_one_http_request_eq. simpl conn. rewrite Hread, Hlines, Hwords.
    unfold dispatch_request.
    assert (Hchunk : match get_header_value headers "Transfer-Encoding" with
                     | Some v0 => String.eqb v0 "chunked"
                     | None => false
                     end = false).
    { destruct (get_header_value headers "Transfer-Encoding") as [te|]; trivial.
      destruct (String.eqb_spec te "chunked") as [->|]; [now destruct Hte | trivial]. }
    rewrite Hchunk, Hcl, Hpath. unfold bind, ret, handle_http_get.
    cbn [Request.method Request.path String.eqb Ascii.eqb Bool.eqb].
    now rewrite Hquote. }
  cbv zeta. rewrite handle_http_connection_eq, Hrun. simpl.
  rewrite Hsent, Hnum, Hclose. repeat split.
Qed.

(** The sample environment has no file of quotations. *)
Lemma quote_failure_propagates_witness :
  let w := new_world Statistics.init
             [RecvData ("GET /quote HTTP/1.1" ++ CRLF ++ "Host: a" ++ BLANK_LINE)] in
  let w' := snd (handle_http_connection sample_env w) in
  fst (handle_http_connection sample_env w) = Raise OSError /\
  Socket.sent (Connection.sock (conn w')) = [] /\
  stats w' =
    Statistics.connection_closed (Statistics.connection_opened Statistics.init) /\
  Connection.num_requests (conn w') = 0%Z /\
  Socket.close_calls (Connection.sock (conn w')) = 1.
Proof.
  exact (quote_failure_propagates sample_env
           (new_world Statistics.init
              [RecvData ("GET /quote HTTP/1.1" ++ CRLF ++ "Host: a" ++ BLANK_LINE)])
           ("GET /quote HTTP/1.1" ++ CRLF ++ "Host: a")
           (Connection.after_read [] ""
              (new_connection
                 [RecvData ("GET /quote HTTP/1.1" ++ CRLF ++ "Host: a" ++ BLANK_LINE)]
                 0%float))
           "GET /quote HTTP/1.1" ["Host: a"] "/quote" "HTTP/1.1" OSError
           eq_refl eq_refl eq_refl eq_refl ltac:(discriminate) eq_refl eq_refl).
Defined.


(** ** Console output *)

Lemma all_chars_app (p : ascii -> bool) (a b : string) :
  all_chars p (a ++ b) = all_chars p a && all_chars p b.
Proof. induction a as [|x a IH]; simpl; [reflexivity | now rewrite IH, andb_assoc]. Qed.

Lemma all_chars_take (p : ascii -> bool) (n : nat) :
  forall s, all_chars p s = true -> all_chars p (Py.take n s) = true.
Proof.
  induction n as [|n IH]; intros [|c s] H; try reflexivity.
  simpl in *. apply andb_true_iff in H as [H1 H2]. now rewrite H1, IH.
Qed.

Lemma all_chars_weaken (p q : ascii -> bool) (s : string) :
  (forall c, p c = true -> q c = true) ->
  all_chars p s = true -> all_chars q s = true.
Proof.
  intro W. induction s as [|c s IH]; simpl; [reflexivity |].
  intro H. apply andb_true_iff in H as [H1 H2]. now rewrite (W c H1), IH.
Qed.

Lemma all_chars_and (p q : ascii -> bool) (s : string) :
  all_chars p s = true -> all_chars q s = true ->
  all_chars (fun c => p c && q c) s = true.
Proof.
  induction s as [|c s IH]; simpl; [reflexivity |].
  intros H K. apply andb_true_iff in H as [H1 H2].
  apply andb_true_iff in K as [K1 K2]. now rewrite H1, K1, IH.
Qed.

Lemma all_chars_expand (p q : ascii -> bool) (f : ascii -> string) (s : string) :
  (forall c, p c = true -> all_chars q (f c) = true) ->
  all_chars p s = true -> all_chars q (expand f s) = true.
Proof.
  intro W. induction s as [|c s IH]; simpl; [reflexivity |].
  intro H. apply andb_true_iff in H as [H1 H2].
  now rewrite all_chars_app, (W c H1), IH.
Qed.

Lemma expand_app (f : ascii -> string) (a b : string) :
  expand f (a ++ b) = expand f a ++ expand f b.
Proof. induction a as [|x a IH]; simpl; [reflexivity | now rewrite IH, sapp_assoc]. Qed.

Lemma expand_expand (f g : ascii -> string) (s : string) :
  expand g (expand f s) = expand (fun c => expand g (f c)) s.
Proof. induction s as [|c s IH]; simpl; [reflexivity | now rewrite expand_app, IH]. Qed.

Lemma expand_ext (p : ascii -> bool) (f g : ascii -> string) (s : string) :
  (forall c, p c = true -> f c = g c) ->
  all_chars p s = true -> expand f s = expand g s.
Proof.
  intro W. induction s as [|c s IH]; simpl; [reflexivity |].
  intro H. apply andb_true_iff in H as [H1 H2]. now rewrite (W c H1), IH.
Qed.

Lemma expand_id (s : string) : expand (fun c => String c "") s = s.
Proof. induction s as [|c s IH]; simpl; [reflexivity | now rewrite IH]. Qed.

(** A split never gives the empty list, so joining puts the separator
    after the first part. *)
Lemma concat_split (new a sep b : string) :
  sep <> "" ->
  String.concat new (a :: Py.split sep b) =
  a ++ new ++ String.concat new (Py.split sep b).
Proof.
  intro H. rewrite (split_eq sep b H).
  now destruct (Py.split_once sep b) as [[x y]|].
Qed.

(** [replace] of one character, character by character. *)
Lemma replace_char (c : ascii) (new s : string) :
  replace (String c "") new s =
  expand (fun x => if Ascii.eqb c x then new else String x "") s.
Proof.
  unfold replace. induction s as [|x s IH]; [reflexivity |].
  rewrite split_eq by discriminate. rewrite split_once_eq.
  cbn [Py.startswith expand]. rewrite startswith_nil, andb_true_r.
  destruct (Ascii.eqb c x).
  - cbn [String.length Py.drop].
    rewrite concat_split by discriminate. now rewrite IH.
  - rewrite <- IH. rewrite (split_eq (String c "") s) by discriminate.
    destruct (Py.split_once (String c "") s) as [[a b]|].
    + rewrite !concat_split by discriminate. reflexivity.
    + reflexivity.
Qed.

Lemma concat_empty (l : list string) :
  String.concat "" l = fold_right String.append "" l.
Proof.
  induction l as [|a [|b l] IH]; [reflexivity | |].
  - simpl. now rewrite sapp_nil_r.
  - change (String.concat "" (a :: b :: l)) with (a ++ "" ++ String.concat "" (b :: l)).
    now rewrite IH.
Qed.

(** The units of a string are made of its characters. *)
Lemma units_from_all_chars (p : ascii -> bool) (f : string -> nat) :
  forall s skip, all_chars p s = true ->
  Forall (fun u => all_chars p (snd u) = true) (Py.units_from f skip s).
Proof.
  induction s as [|c s IH]; intros skip H; [constructor |].
  pose proof H as H0.
  simpl in H. apply andb_true_iff in H as [H1 H2].
  cbn [Py.units_from]. destruct skip as [|k]; [| now apply IH].
  destruct (f (String c s)) as [|k].
  - constructor; [simpl; now rewrite H1 | now apply IH].
  - constructor; [now apply all_chars_take | now apply IH].
Qed.

(** Text in ASCII is one character to the byte. *)
Lemma units_ascii (s : string) :
  all_chars is_ascii s = true ->
  Py.units Py.utf8_char_len s =
  map (fun c => (true, String c "")) (list_ascii_of_string s).
Proof.
  unfold Py.units. induction s as [|c s IH]; [reflexivity |].
  intro H. simpl in H. apply andb_true_iff in H as [H1 H2].
  cbn [Py.units_from list_ascii_of_string map].
  assert (L : Py.utf8_char_len (String c s) = 1).
  { unfold Py.utf8_char_len, Py.tail_ranges. unfold is_ascii in H1.
    now rewrite H1. }
  rewrite L. cbn [Py.take]. now rewrite IH.
Qed.

Lemma decode_ascii (s : string) :
  all_chars is_ascii s = true -> Py.decode s = Some s.
Proof.
  intro H. unfold Py.decode. rewrite (units_ascii s H).
  replace (forallb fst _) with true; [reflexivity |].
  symmetry. apply forallb_forall. intros u Hu.
  apply in_map_iff in Hu as (c & <- & _). reflexivity.
Qed.

Lemma shown_units_ascii (s : string) :
  fold_right String.append ""
    (map (fun u : bool * string => show_char (snd u))
       (map (fun c => (true, String c "")) (list_ascii_of_string s))) =
  expand (fun c => show_char (String c "")) s.
Proof. induction s as [|c s IH]; simpl; [reflexivity | now rewrite IH]. Qed.

Lemma contains_all_chars (q : ascii -> bool) (u P : string) :
  Py.contains u P = true -> all_chars q P = true -> all_chars q u = true.
Proof.
  unfold Py.contains. intros H HP.
  destruct (Py.split_once u P) as [[a b]|] eqn:S; [| discriminate].
  apply split_once_Some in S. subst P.
  rewrite !all_chars_app in HP.
  apply andb_true_iff in HP as [_ HP]. now apply andb_true_iff in HP as [HP _].
Qed.

Lemma hex_digits_safe (d : Hexadecimal.uint) :
  all_chars console_safe (HexadecimalString.NilEmpty.string_of_uint d) = true.
Proof. induction d; simpl; rewrite ?IHd; reflexivity. Qed.

Lemma decimal_digits_safe (d : Decimal.uint) :
  all_chars console_safe (DecimalString.NilEmpty.string_of_uint d) = true.
Proof. induction d; simpl; rewrite ?IHd; reflexivity. Qed.

Lemma hex02_safe (n : N) : all_chars console_safe (hex02 n) = true.
Proof.
  unfold hex02. cbv zeta.
  destruct (String.length _ <? 2); [| apply hex_digits_safe].
  rewrite all_chars_app, hex_digits_safe. reflexivity.
Qed.

Lemma show_char_safe (u : string) :
  all_chars not_cr_tab u = true -> all_chars console_safe (show_char u) = true.
Proof.
  intro H. unfold show_char.
  destruct (Py.contains u printable) eqn:C.
  - pose proof (contains_all_chars
                  (fun c => console_safe c || Ascii.eqb c CR || Ascii.eqb c TAB)
                  u printable C eq_refl) as Q.
    pose proof (all_chars_and _ _ u H Q) as B.
    revert B. apply all_chars_weaken.
    intro c. unfold not_cr_tab.
    destruct (Ascii.eqb c CR), (Ascii.eqb c TAB), (console_safe c);
      simpl; congruence.
  - rewrite all_chars_app, hex02_safe. reflexivity.
Qed.

Lemma shown_safe (s : string) :
  all_chars console_safe
    (String.concat ""
       (map (fun u : bool * string => show_char (snd u))
          (Py.units Py.utf8_char_len
             (replace (String TAB "") (String BACKSLASH "t")
                (replace (String CR "") (String BACKSLASH "r")
                   (replace (String LF "") (String BACKSLASH "n" ++ String LF "") s)))))) = true.
Proof.
  rewrite !replace_char, concat_empty.
  set (s1 := expand _ s).
  set (s2 := expand _ s1).
  set (s3 := expand _ s2).
  assert (H2 : all_chars (fun c => negb (Ascii.eqb c CR)) s2 = true).
  { apply (all_chars_expand (fun _ => true)).
    - intros c _. destruct (Ascii.eqb CR c) eqn:E; [reflexivity |].
      simpl. rewrite Ascii.eqb_sym, E. reflexivity.
    - clear. induction s1; simpl; trivial. }
  assert (H3 : all_chars not_cr_tab s3 = true).
  { apply (all_chars_expand (fun c => negb (Ascii.eqb c CR))); [| exact H2].
    intros c Hc. unfold not_cr_tab. destruct (Ascii.eqb TAB c) eqn:E; [reflexivity |].
    simpl. rewrite Hc, (Ascii.eqb_sym c TAB), E. reflexivity. }
  pose proof (units_from_all_chars not_cr_tab Py.utf8_char_len s3 0 H3) as U.
  fold (Py.units Py.utf8_char_len s3) in U.
  induction U as [|u us Hu _ IH]; [reflexivity |].
  cbn [map fold_right]. now rewrite all_chars_app, (show_char_safe _ Hu), IH.
Qed.

(** X19.  [make_printable] gives text that is safe to print: whatever
    the argument, bytes or text, every character of the result is a
    visible ASCII character, a space or a line feed; no carriage return,
    tab, other control character or character outside ASCII is left. *)
Theorem make_printable_console_safe (s : Text) :
  all_chars console_safe (make_printable s) = true.
Proof.
  destruct s as [b|s]; unfold make_printable; cbv zeta.
  - destruct (Py.decode b) as [s|].
    + apply shown_safe.
    + rewrite !all_chars_app. unfold Py.str_of_nat.
      rewrite decimal_digits_safe. reflexivity.
  - apply shown_safe.
Qed.

Lemma shown_ascii_char (c : ascii) :
  is_ascii c = true ->
  expand (fun x => show_char (String x ""))
    (expand (fun x => if Ascii.eqb TAB x then String BACKSLASH "t" else String x "")
       (expand (fun x => if Ascii.eqb CR x then String BACKSLASH "r" else String x "")
          (if Ascii.eqb LF c then String BACKSLASH "n" ++ String LF ""
           else String c ""))) = shown_ascii c /\
  all_chars is_ascii
    (expand (fun x => if Ascii.eqb TAB x then String BACKSLASH "t" else String x "")
       (expand (fun x => if Ascii.eqb CR x then String BACKSLASH "r" else String x "")
          (if Ascii.eqb LF c then String BACKSLASH "n" ++ String LF ""
           else String c ""))) = true.
Proof.
  destruct c as [[] [] [] [] [] [] [] []]; intro H;
    first [discriminate H | split; vm_compute; reflexivity].
Qed.

Lemma shown_ascii_text (s : string) :
  all_chars is_ascii s = true ->
  let s3 :=
    expand (fun x => if Ascii.eqb TAB x then String BACKSLASH "t" else String x "")
      (expand (fun x => if Ascii.eqb CR x then String BACKSLASH "r" else String x "")
         (expand (fun x => if Ascii.eqb LF x
                           then String BACKSLASH "n" ++ String LF ""
                           else String x "") s)) in
  all_chars is_ascii s3 = true /\
  expand (fun x => show_char (String x "")) s3 = expand shown_ascii s.
Proof.
  cbv zeta. induction s as [|c s IH]; [now split |].
  intro H. simpl in H. apply andb_true_iff in H as [H1 H2].
  destruct (IH H2) as [A B]. destruct (shown_ascii_char c H1) as [C D].
  cbn [expand]. rewrite !expand_app, all_chars_app, A, B, C, D. now split.
Qed.

Lemma shown_ascii_visible (c : ascii) :
  visible c = true -> is_ascii c = true /\ shown_ascii c = String c "".
Proof.
  destruct c as [[] [] [] [] [] [] [] []]; intro H;
    first [discriminate H | split; vm_compute; reflexivity].
Qed.

(** X20.  ASCII text, character by character.  For text (or bytes) with
    no byte above 127, [make_printable] rewrites each character on its
    own: a line feed becomes a backslash, "n" and a line feed, a carriage
    return a backslash and "r", a tab a backslash and "t", any other
    control character (and DEL) a backslash, "x" and its two hexadecimal
    digits; a visible character, a space included, stays; the passes do
    not touch each other's output.  So text of visible characters alone
    is returned as it is. *)
Theorem make_printable_ascii (s : str) :
  all_chars is_ascii s = true ->
  make_printable (TextStr s) = expand shown_ascii s /\
  make_printable (TextBytes s) = expand shown_ascii s /\
  (all_chars visible s = true -> make_printable (TextStr s) = s).
Proof.
  intro H.
  assert (S : make_printable (TextStr s) = expand shown_ascii s).
  { unfold make_printable. cbv zeta.
    rewrite !replace_char, concat_empty.
    destruct (shown_ascii_text s H) as [A B].
    now rewrite (units_ascii _ A), shown_units_ascii. }
  repeat split.
  - exact S.
  - unfold make_printable at 1. rewrite (decode_ascii s H). exact S.
  - intro V. rewrite S. rewrite <- (expand_id s) at 2.
    apply (expand_ext visible); [| exact V].
    intros c Hc. now destruct (shown_ascii_visible c Hc).
Qed.

Lemma make_printable_ascii_witness :
  let s := "GET / HTTP/1.1" ++ CRLF ++ "A:" ++ String TAB "b" ++ BLANK_LINE in
  make_printable (TextStr s) =
    "GET / HTTP/1.1\r\n" ++ String LF "A:\tb\r\n" ++ String LF "\r\n" ++ String LF "" /\
  make_printable (TextBytes s) = make_printable (TextStr s) /\
  make_printable (TextStr "GET / HTTP/1.1") = "GET / HTTP/1.1".
Proof.
  cbv zeta.
  destruct (make_printable_ascii
              ("GET / HTTP/1.1" ++ CRLF ++ "A:" ++ String TAB "b" ++ BLANK_LINE)
              eq_refl) as (A & B & _).
  destruct (make_printable_ascii "GET / HTTP/1.1" eq_refl) as (_ & _ & C).
  split; [| split].
  - rewrite A. vm_compute. reflexivity.
  - now rewrite A, B.
  - apply C. vm_compute. reflexivity.
Defined.
